(** * Code Rivals: the activity core of [src/App.jsx]

    A shallow embedding of the data pipeline of the leaderboard
    application (second revision of [App.jsx], the one that talks to the
    Codeforces and LeetCode endpoints): the two platform adapters, the
    handle normaliser, the week window, the per-user history merge, the
    weekly score, the ranking and the manual sync.

    JavaScript numbers are modelled on their integer range ([Z]) plus
    [NaN]; strings are sequences of code units below 256 ([string]);
    plain objects used as dictionaries are association lists in insertion
    order (the order [Object.keys] enumerates non-index keys); a [Set] is
    a duplicate-free list in insertion order. The clock and the two
    network endpoints are parameters: every function that reads the
    clock takes the time value [now], and the adapters take the parsed
    response body of their endpoint. [Date] follows the proleptic
    Gregorian calendar in a zone at a fixed offset [tz] from UTC.

    The first part holds the embedding and the vocabulary of the
    statements, the second part the properties. *)

From Stdlib Require Import ZArith List Bool Lia Ascii String.
From Stdlib Require Import Permutation Sorted.
From Stdlib Require Import DecimalString DecimalZ.
Import ListNotations.

Local Open Scope string_scope.
Local Open Scope Z_scope.

(** ** JavaScript values *)

Module JS.

(** A number: an integer or [NaN]. *)
Inductive num : Type :=
| NaN
| Int (z : Z).

(** The values the modelled code receives from JSON and from form state. *)
Inductive value : Type :=
| VUndefined
| VNull
| VNum (n : num)
| VStr (s : string).

(** Outcome of a call that may raise. *)
Inductive result (A : Type) : Type :=
| Ok (a : A)
| Throw.

Arguments Ok {A} a.
Arguments Throw {A}.

(** [!!v] *)
Definition truthy (v : value) : bool :=
  match v with
  | VUndefined | VNull => false
  | VNum NaN => false
  | VNum (Int z) => negb (z =? 0)
  | VStr s => negb (s =? "")%string
  end.

(** Arithmetic and comparison; [NaN] is absorbing and compares false. *)
Definition num_add (a b : num) : num :=
  match a, b with Int x, Int y => Int (x + y) | _, _ => NaN end.

Definition num_sub (a b : num) : num :=
  match a, b with Int x, Int y => Int (x - y) | _, _ => NaN end.

Definition num_mul (a b : num) : num :=
  match a, b with Int x, Int y => Int (x * y) | _, _ => NaN end.

Definition num_geb (a b : num) : bool :=
  match a, b with Int x, Int y => y <=? x | _, _ => false end.

Definition num_ltb (a b : num) : bool :=
  match a, b with Int x, Int y => x <? y | _, _ => false end.

(** *** Strings *)

(** White space and line terminators among the code units below 256. *)
Definition is_ws (c : ascii) : bool :=
  let n := N_of_ascii c in
  ((9 <=? n) && (n <=? 13) || (n =? 32) || (n =? 160))%N.

Fixpoint trimStart (s : string) : string :=
  match s with
  | EmptyString => EmptyString
  | String c s' => if is_ws c then trimStart s' else s
  end.

Fixpoint trimEnd (s : string) : string :=
  match s with
  | EmptyString => EmptyString
  | String c s' =>
      match trimEnd s' with
      | EmptyString => if is_ws c then EmptyString else String c EmptyString
      | t => String c t
      end
  end.

(** [String.prototype.trim] *)
Definition trim (s : string) : string := trimEnd (trimStart s).

(** [s.split(sep)] for a one-character separator. *)
Fixpoint split_on (sep : ascii) (s : string) : list string :=
  match s with
  | EmptyString => [EmptyString]
  | String c s' =>
      if Ascii.eqb c sep then EmptyString :: split_on sep s'
      else match split_on sep s' with
           | h :: t => String c h :: t
           | [] => [String c EmptyString]
           end
  end.

(** [Number(s)] on the decimal-digit grammar: surrounding white space is
    dropped, the empty string is 0, a run of decimal digits is its value.
    The other numeric literal forms (sign, fraction, exponent, radix
    prefix, Infinity) are outside the integer model and read as [NaN];
    no date string or timestamp below is written in them. *)
Definition StringToNumber (s : string) : num :=
  match NilEmpty.uint_of_string (trim s) with
  | Some u => Int (Z.of_uint u)
  | None => NaN
  end.

(** [ToNumber] *)
Definition to_number (v : value) : num :=
  match v with
  | VUndefined => NaN
  | VNull => Int 0
  | VNum n => n
  | VStr s => StringToNumber s
  end.

(** [isNaN(v)] *)
Definition isNaN (v : value) : bool :=
  match to_number v with NaN => true | Int _ => false end.

(** Value of a digit in radix [r], [None] for any other code unit. *)
Definition digit_value (r : Z) (c : ascii) : option Z :=
  let n := Z.of_N (N_of_ascii c) in
  let v := if (48 <=? n) && (n <=? 57) then n - 48
           else if (97 <=? n) && (n <=? 122) then n - 87
           else if (65 <=? n) && (n <=? 90) then n - 55
           else r in
  if v <? r then Some v else None.

(** Value of the longest run of radix-[r] digits at the head of [s],
    [None] when there is none; [acc] holds the digits read so far. *)
Fixpoint digits_prefix (r : Z) (s : string) (acc : option Z) : option Z :=
  match s with
  | EmptyString => acc
  | String c s' =>
      match digit_value r c with
      | Some d =>
          digits_prefix r s'
            (Some (r * match acc with Some a => a | None => 0 end + d))
      | None => acc
      end
  end.

(** [parseInt(s)] without a radix argument: leading white space, an
    optional sign, an optional [0x] or [0X] prefix selecting radix 16,
    then the longest run of digits; [NaN] when no digit follows. *)
Definition parseInt (s : string) : num :=
  let t := trimStart s in
  let '(sign, body) :=
    match t with
    | String c t' =>
        if Ascii.eqb c "-" then (-1, t')
        else if Ascii.eqb c "+" then (1, t')
        else (1, t)
    | EmptyString => (1, t)
    end in
  let '(radix, digits) :=
    match body with
    | String c0 (String c1 rest) =>
        if Ascii.eqb c0 "0" && (Ascii.eqb c1 "x" || Ascii.eqb c1 "X")
        then (16, rest) else (10, body)
    | _ => (10, body)
    end in
  match digits_prefix radix digits None with
  | Some n => Int (sign * n)
  | None => NaN
  end.

(** Decimal rendering of an integer, as a template literal prints it. *)
Definition string_of_Z (z : Z) : string :=
  NilZero.string_of_int (Z.to_int z).

End JS.
Export JS.

(** ** The proleptic Gregorian calendar behind [Date] *)

Module Calendar.

Definition msPerDay : Z := 86400000.

(** Largest magnitude of a time value ([TimeClip]). *)
Definition maxTime : Z := 8640000000000000.

(** Day number (days since 1970-01-01) of the civil date [y]-[m]-[d],
    [m] in 1..12. *)
Definition days_from_civil (y m d : Z) : Z :=
  let y' := if m <=? 2 then y - 1 else y in
  let era := y' / 400 in
  let yoe := y' - era * 400 in
  let mp := if 2 <? m then m - 3 else m + 9 in
  let doy := (153 * mp + 2) / 5 + d - 1 in
  let doe := yoe * 365 + yoe / 4 - yoe / 100 + doy in
  era * 146097 + doe - 719468.

(** Civil date (year, month 1..12, day of month) of a day number. *)
Definition civil_from_days (n : Z) : Z * Z * Z :=
  let z := n + 719468 in
  let era := z / 146097 in
  let doe := z - era * 146097 in
  let yoe := (doe - doe / 1460 + doe / 36524 - doe / 146096) / 365 in
  let doy := doe - (365 * yoe + yoe / 4 - yoe / 100) in
  let mp := (5 * doy + 2) / 153 in
  let d := doy - (153 * mp + 2) / 5 + 1 in
  let m := if mp <? 10 then mp + 3 else mp - 9 in
  let y := yoe + era * 400 in
  ((if m <=? 2 then y + 1 else y), m, d).

Definition year_of_day (n : Z) : Z := fst (fst (civil_from_days n)).
Definition month_of_day (n : Z) : Z := snd (fst (civil_from_days n)).
Definition date_of_day (n : Z) : Z := snd (civil_from_days n).

(** [WeekDay]: 0 is Sunday, 1 is Monday; day 0 was a Thursday. *)
Definition week_day (n : Z) : Z := (n + 4) mod 7.

(** [MakeDay(year, month, date)] with a zero-based, possibly overflowing
    month. *)
Definition MakeDay (year month date : Z) : Z :=
  let ym := year + month / 12 in
  let mn := month mod 12 in
  days_from_civil ym (mn + 1) 1 + date - 1.

(** Year of era and day of year of a day of era, as [civil_from_days]
    computes them. *)
Definition yoe_of (doe : Z) : Z :=
  (doe - doe / 1460 + doe / 36524 - doe / 146096) / 365.

Definition doy_of (doe : Z) : Z :=
  let yoe := yoe_of doe in doe - (365 * yoe + yoe / 4 - yoe / 100).

End Calendar.

(** ** [Date] in a zone at a fixed offset from UTC *)

Section DateModel.

(** Offset of local time from UTC, in milliseconds ([LocalTZA]); the
    zone keeps one offset (no daylight-saving transitions). *)
Variable tz : Z.

(** A [Date] object is its time value; [None] is the invalid date. *)
Definition jsdate : Type := option Z.

Definition TimeClip (t : Z) : jsdate :=
  if Z.abs t <=? Calendar.maxTime then Some t else None.

Definition Day (t : Z) : Z := t / Calendar.msPerDay.
Definition TimeWithinDay (t : Z) : Z := t mod Calendar.msPerDay.
Definition LocalTime (t : Z) : Z := t + tz.
Definition UTC (t : Z) : Z := t - tz.
Definition MakeDate (day time : Z) : Z := day * Calendar.msPerDay + time.

(** [new Date(value)] for a number. *)
Definition Date_of_num (n : num) : jsdate :=
  match n with
  | Int t => TimeClip t
  | NaN => None
  end.

(** [new Date(y, m, d)]: local midnight of a day given by year, zero-based
    month and day of month; years 0..99 stand for 1900..1999. *)
Definition Date_ymd (y m d : num) : jsdate :=
  match y, m, d with
  | Int y, Int m, Int d =>
      let yr := if (0 <=? y) && (y <=? 99) then 1900 + y else y in
      TimeClip (UTC (MakeDate (Calendar.MakeDay yr m d) 0))
  | _, _, _ => None
  end.

Definition getTime (d : jsdate) : num :=
  match d with Some t => Int t | None => NaN end.

Definition getFullYear (d : jsdate) : num :=
  match d with
  | Some t => Int (Calendar.year_of_day (Day (LocalTime t)))
  | None => NaN
  end.

(** Zero-based month. *)
Definition getMonth (d : jsdate) : num :=
  match d with
  | Some t => Int (Calendar.month_of_day (Day (LocalTime t)) - 1)
  | None => NaN
  end.

Definition getDate (d : jsdate) : num :=
  match d with
  | Some t => Int (Calendar.date_of_day (Day (LocalTime t)))
  | None => NaN
  end.

(** Day of the week, 0 for Sunday. *)
Definition getDay (d : jsdate) : num :=
  match d with
  | Some t => Int (Calendar.week_day (Day (LocalTime t)))
  | None => NaN
  end.

(** [d.setDate(dt)]: the new time value of [d]. *)
Definition setDate (d : jsdate) (dt : num) : jsdate :=
  match d, dt with
  | Some t, Int dt =>
      let lt := LocalTime t in
      TimeClip (UTC (MakeDate
        (Calendar.MakeDay (Calendar.year_of_day (Day lt))
                          (Calendar.month_of_day (Day lt) - 1) dt)
        (TimeWithinDay lt)))
  | _, _ => None
  end.

(** [d.setHours(0, 0, 0, 0)]: the new time value of [d]. *)
Definition setHours0 (d : jsdate) : jsdate :=
  match d with
  | Some t => TimeClip (UTC (MakeDate (Day (LocalTime t)) 0))
  | None => None
  end.

Definition pad2 (n : Z) : string :=
  if n <? 10 then String "0" (string_of_Z n) else string_of_Z n.

(** The [en-CA] short date of a day number: year, two-digit month and
    two-digit day of the month, joined by hyphens. *)
Definition date_string_of_day (n : Z) : string :=
  let '(y, m, dd) := Calendar.civil_from_days n in
  (string_of_Z y ++ "-" ++ pad2 m ++ "-" ++ pad2 dd)%string.

(** [d.toLocaleDateString('en-CA')] *)
Definition toLocaleDateString (d : jsdate) : string :=
  match d with
  | Some t => date_string_of_day (Day (LocalTime t))
  | None => "Invalid Date"
  end.

End DateModel.

(** ** Objects used as dictionaries, and [Set] *)

Module Obj.

Section Dict.
Context {V : Type}.

(** Own properties in insertion order. *)
Definition t : Type := list (string * V).

Fixpoint get (k : string) (o : t) : option V :=
  match o with
  | [] => None
  | (k', v) :: o' => if (k' =? k)%string then Some v else get k o'
  end.

(** [o[k] = v]: an existing key keeps its place, a new one goes last. *)
Fixpoint set (k : string) (v : V) (o : t) : t :=
  match o with
  | [] => [(k, v)]
  | (k', v') :: o' =>
      if (k' =? k)%string then (k, v) :: o' else (k', v') :: set k v o'
  end.

(** [Object.keys(o)] *)
Definition keys (o : t) : list string := map fst o.

End Dict.

Arguments t V : clear implicits.

End Obj.

Module StrSet.

Definition t : Type := list string.

Definition has (x : string) (s : t) : bool :=
  existsb (fun y => (y =? x)%string) s.

(** [s.add(x)] *)
Definition add (x : string) (s : t) : t :=
  if has x s then s else (s ++ [x])%list.

(** [s.size] *)
Definition size (s : t) : Z := Z.of_nat (List.length s).

End StrSet.

(** ** Data model *)

(** One day of activity on one platform. *)
Record Entry : Type := { date : string; count : Z }.

(** What an adapter returns and a user stores per platform. *)
Record PlatformStats : Type := { totalSolved : Z; history : list Entry }.

Module CF.
(** A record of the Codeforces [user.status] list. *)
Record Problem : Type := { contestId : Z; index : string }.
Record Submission : Type :=
  { verdict : string; problem : Problem; creationTimeSeconds : value }.
(** The parsed response body. *)
Record Response : Type := { status : string; result : list Submission }.
End CF.

Module LC.
(** The parsed response body; [submissionCalendar] as [Object.entries]
    enumerates it, [None] when the field is missing. *)
Record Response : Type :=
  { status : string;
    totalSolved : Z;
    submissionCalendar : option (list (string * Z)) }.
End LC.

Module Handles.
(** An empty string stands for a platform that is not tracked. *)
Record t : Type := { leetcode : string; codeforces : string }.
End Handles.

Module Data.
(** [None] is a platform without stored stats ([undefined] or [null]). *)
Record t : Type :=
  { leetcode : option PlatformStats; codeforces : option PlatformStats }.
End Data.

(** A tracked profile; a missing [data] reads like the empty object
    through [?.] and spread, so [data] is always present here. *)
Record User : Type :=
  { id : Z; username : string; handles : option Handles.t; data : Data.t }.

(** The object passed to [updateUser]: the keys it carries. *)
Record Updates : Type :=
  { up_username : option string;
    up_handles : option Handles.t;
    up_data : option Data.t }.

(** A user together with the derived score, as the ranking lists it. *)
Record RankedUser : Type := { user : User; weeklyScore : Z }.

(** ** The application *)

Section App.

Variable tz : Z.

(** The two endpoints: the parsed JSON body for a handle, [None] when
    [fetch] or [response.json()] rejects. *)
Variable cf_api : string -> option CF.Response.
Variable lc_api : string -> option LC.Response.

(** *** API utilities *)

(** [getLocalDate(timestamp)], called at time [now]. Nothing in the
    guarded body raises, so the handler of the [try] is never entered. *)
Definition getLocalDate (now : Z) (timestamp : value) : string :=
  if negb (truthy timestamp) || isNaN timestamp
  then toLocaleDateString tz (Some now)
  else toLocaleDateString tz
         (Date_of_num (num_mul (to_number timestamp) (Int 1000))).

Definition problemId (sub : CF.Submission) : string :=
  (string_of_Z (CF.contestId (CF.problem sub)) ++ "-"
   ++ CF.index (CF.problem sub))%string.

(** The body of the [forEach] callback on the pair
    ([dailySolved], [totalUnique]). *)
Definition cf_step (now : Z)
    (st : Obj.t StrSet.t * StrSet.t) (sub : CF.Submission)
    : Obj.t StrSet.t * StrSet.t :=
  let '(dailySolved, totalUnique) := st in
  if (CF.verdict sub =? "OK")%string then
    let totalUnique := StrSet.add (problemId sub) totalUnique in
    if truthy (CF.creationTimeSeconds sub) then
      let date := getLocalDate now (CF.creationTimeSeconds sub) in
      let dailySolved :=
        match Obj.get date dailySolved with
        | None => Obj.set date [] dailySolved
        | Some _ => dailySolved
        end in
      let day :=
        match Obj.get date dailySolved with Some s => s | None => [] end in
      (Obj.set date (StrSet.add (problemId sub) day) dailySolved,
       totalUnique)
    else (dailySolved, totalUnique)
  else (dailySolved, totalUnique).

Definition cf_fold (now : Z) (subs : list CF.Submission)
    : Obj.t StrSet.t * StrSet.t :=
  fold_left (cf_step now) subs ([], []).

(** [fetchCodeforcesData(handle)]; [None] is the [null] of the handler. *)
Definition fetchCodeforcesData (now : Z) (handle : string)
    : option PlatformStats :=
  match cf_api handle with
  | None => None
  | Some data =>
      if negb (CF.status data =? "OK")%string then None
      else
        let '(dailySolved, totalUnique) := cf_fold now (CF.result data) in
        let history :=
          map (fun date =>
                 {| date := date;
                    count := StrSet.size
                      match Obj.get date dailySolved with
                      | Some s => s
                      | None => []
                      end |})
              (Obj.keys dailySolved) in
        Some {| totalSolved := StrSet.size totalUnique; history := history |}
  end.

(** [Object.entries(data.submissionCalendar || {})] *)
Definition entries_of_calendar (data : LC.Response) : list (string * Z) :=
  match LC.submissionCalendar data with
  | Some c => c
  | None => []
  end.

(** [fetchLeetCodeData(handle)] *)
Definition fetchLeetCodeData (now : Z) (handle : string)
    : option PlatformStats :=
  match lc_api handle with
  | None => None
  | Some data =>
      if negb (LC.status data =? "success")%string then None
      else
        let calendar := entries_of_calendar data in
        let history :=
          map (fun '(ts, count) =>
                 {| date := getLocalDate now (VNum (parseInt ts));
                    count := count |})
              calendar in
        Some {| totalSolved := LC.totalSolved data; history := history |}
  end.

(** *** Handle extraction *)

(** The rest of [s] after the literal [p], when [s] starts with it. *)
Fixpoint strip_prefix (p s : string) : option string :=
  match p, s with
  | EmptyString, _ => Some s
  | String a p', String b s' =>
      if Ascii.eqb a b then strip_prefix p' s' else None
  | String _ _, EmptyString => None
  end.

(** The greedy [[^\/]+] at the head of [s]: the longest run without a
    slash, [None] when it is empty. *)
Fixpoint non_slash_run (s : string) : string :=
  match s with
  | EmptyString => EmptyString
  | String c s' =>
      if Ascii.eqb c "/" then EmptyString else String c (non_slash_run s')
  end.

Definition capture (s : string) : option string :=
  match non_slash_run s with
  | EmptyString => None
  | r => Some r
  end.

(** [/leetcode\.com\/(?:u\/)?([^\/]+)/] tried at the head of [s]: the
    optional group is taken first and given up when the capture fails
    behind it. *)
Definition leetcode_at (s : string) : option string :=
  match strip_prefix "leetcode.com/" s with
  | None => None
  | Some r =>
      match
        match strip_prefix "u/" r with
        | Some r' => capture r'
        | None => None
        end
      with
      | Some h => Some h
      | None => capture r
      end
  end.

(** [/codeforces\.com\/profile\/([^\/]+)/] tried at the head of [s]. *)
Definition codeforces_at (s : string) : option string :=
  match strip_prefix "codeforces.com/profile/" s with
  | None => None
  | Some r => capture r
  end.

(** [s.match(re)] for an unanchored pattern: the first group of the
    leftmost match. *)
Fixpoint re_match (at_head : string -> option string) (s : string)
    : option string :=
  match at_head s with
  | Some h => Some h
  | None =>
      match s with
      | EmptyString => None
      | String _ s' => re_match at_head s'
      end
  end.

(** [extractHandle(input, platform)]; a truthy value that is not a string
    has no [trim] method. *)
Definition extractHandle (input : value) (platform : string)
    : result string :=
  if negb (truthy input) then Ok ""
  else
    match input with
    | VStr s =>
        let cleanInput := trim s in
        if (platform =? "LeetCode")%string then
          match re_match leetcode_at cleanInput with
          | Some h => Ok h
          | None => Ok cleanInput
          end
        else if (platform =? "Codeforces")%string then
          match re_match codeforces_at cleanInput with
          | Some h => Ok h
          | None => Ok cleanInput
          end
        else Ok cleanInput
    | _ => Throw
    end.

(** *** Date utilities *)

(** [getStartOfWeek()], called at time [now]. *)
Definition getStartOfWeek (now : Z) : jsdate :=
  let now := Some now in
  let d :=
    Date_ymd tz (getFullYear tz now) (getMonth tz now) (getDate tz now) in
  let day := getDay tz d in
  let diff :=
    num_add (num_sub (getDate tz d) day)
            (match day with Int 0 => Int (-6) | _ => Int 1 end) in
  let d := setDate tz d diff in
  let d := setHours0 tz d in
  d.

(** The body of [isDateInCurrentWeek] for a non-empty string; a component
    the destructuring does not find is [undefined], hence [NaN]. *)
Definition inCurrentWeek (now : Z) (dateStr : string) : bool :=
  let parts := map StringToNumber (split_on "-" dateStr) in
  let y := nth 0 parts NaN in
  let m := nth 1 parts NaN in
  let d := nth 2 parts NaN in
  let date := Date_ymd tz y (num_sub m (Int 1)) d in
  let startOfWeek := getStartOfWeek now in
  let endOfWeek := startOfWeek in
  let endOfWeek :=
    setDate tz endOfWeek (num_add (getDate tz endOfWeek) (Int 7)) in
  num_geb (getTime date) (getTime startOfWeek)
  && num_ltb (getTime date) (getTime endOfWeek).

(** [isDateInCurrentWeek(dateStr)]; a truthy value that is not a string
    has no [split] method. *)
Definition isDateInCurrentWeek (now : Z) (dateStr : value) : result bool :=
  if negb (truthy dateStr) then Ok false
  else
    match dateStr with
    | VStr s => Ok (inCurrentWeek now s)
    | _ => Throw
    end.

(** *** Profile view: merged history and manual sync *)

(** [user.data?.leetcode?.history] and its Codeforces twin. *)
Definition leetcode_history (u : User) : option (list Entry) :=
  option_map history (Data.leetcode (data u)).

Definition codeforces_history (u : User) : option (list Entry) :=
  option_map history (Data.codeforces (data u)).

(** [historyMap[k] || 0] *)
Definition get_or_zero (k : string) (historyMap : Obj.t Z) : Z :=
  match Obj.get k historyMap with
  | Some v => v
  | None => 0
  end.

(** The inner [merge(hist)] of [combinedHistory], on the [historyMap] it
    updates. *)
Definition merge (historyMap : Obj.t Z) (hist : option (list Entry))
    : Obj.t Z :=
  match hist with
  | None => historyMap
  | Some h =>
      fold_left
        (fun historyMap entry =>
           Obj.set (date entry)
                   (get_or_zero (date entry) historyMap + count entry)
                   historyMap)
        h historyMap
  end.

(** The [historyMap] that [combinedHistory] builds for a user, before the
    time-frame filter of the view is applied to its keys. *)
Definition historyMap (u : User) : Obj.t Z :=
  merge (merge [] (leetcode_history u)) (codeforces_history u).

Definition handle_of (sel : Handles.t -> string) (u : User) : value :=
  match handles u with
  | Some h => VStr (sel h)
  | None => VUndefined
  end.

(** [manualSync()] on the profile [user]: the object handed to
    [onUpdateUser]. *)
Definition manualSync (now : Z) (u : User) : Updates :=
  let updates_data := data u in
  let updates_data :=
    match handle_of Handles.leetcode u with
    | VStr h =>
        if truthy (VStr h) then
          match fetchLeetCodeData now h with
          | Some d =>
              {| Data.leetcode := Some d;
                 Data.codeforces := Data.codeforces updates_data |}
          | None => updates_data
          end
        else updates_data
    | _ => updates_data
    end in
  let updates_data :=
    match handle_of Handles.codeforces u with
    | VStr h =>
        if truthy (VStr h) then
          match fetchCodeforcesData now h with
          | Some d =>
              {| Data.leetcode := Data.leetcode updates_data;
                 Data.codeforces := Some d |}
          | None => updates_data
          end
        else updates_data
    | _ => updates_data
    end in
  {| up_username := None; up_handles := None; up_data := Some updates_data |}.

(** [{ ...u, ...updates }] *)
Definition apply_updates (u : User) (updates : Updates) : User :=
  {| id := id u;
     username :=
       match up_username updates with Some n => n | None => username u end;
     handles :=
       match up_handles updates with Some h => Some h | None => handles u end;
     data := match up_data updates with Some d => d | None => data u end |}.

(** [updateUser(id, updates)] on the stored collection. *)
Definition updateUser (users : list User) (uid : Z) (updates : Updates)
    : list User :=
  map (fun u => if id u =? uid then apply_updates u updates else u) users.

(** *** Ranking *)

Definition sumWeekly (now : Z) (history : option (list Entry)) : Z :=
  match history with
  | None => 0
  | Some h =>
      fold_left (fun acc curr => acc + count curr)
                (filter (fun h => inCurrentWeek now (date h)) h) 0
  end.

Definition calculateWeeklyScore (now : Z) (u : User) : Z :=
  let score := 0 in
  let score := score + sumWeekly now (leetcode_history u) in
  let score := score + sumWeekly now (codeforces_history u) in
  score.

End App.

(** [Array.prototype.sort] with a comparator: a stable sort, as the
    language requires; an element moves in front of the ones it compares
    strictly smaller than. *)
Section Sort.
Context {A : Type}.
Variable compare : A -> A -> Z.

Fixpoint sort_insert (x : A) (l : list A) : list A :=
  match l with
  | [] => [x]
  | y :: l' =>
      if compare x y <=? 0 then x :: y :: l' else y :: sort_insert x l'
  end.

Definition sort (l : list A) : list A := fold_right sort_insert [] l.

End Sort.

(** [rankedUsers] for the collection [users], computed at time [now]. *)
Definition rankedUsers (tz now : Z) (users : list User) : list RankedUser :=
  sort (fun a b => weeklyScore b - weeklyScore a)
       (map (fun u =>
               {| user := u; weeklyScore := calculateWeeklyScore tz now u |})
            users).

(** ** Vocabulary of the statements *)

(** Entries of a stored history; nothing when the platform holds none. *)
Definition entries_of (h : option (list Entry)) : list Entry :=
  match h with
  | Some l => l
  | None => []
  end.

(** Sum of the counts that a history records for the day [d]. *)
Definition day_total (d : string) (h : list Entry) : Z :=
  fold_right (fun e acc => if (date e =? d)%string then count e + acc else acc)
             0 h.

(** Sum of the values of a date-keyed map over the dates that satisfy
    [p]. *)
Definition sum_where (p : string -> bool) (m : Obj.t Z) : Z :=
  fold_right (fun kv acc => if p (fst kv) then snd kv + acc else acc) 0 m.

(** An accepted submission with a usable timestamp that falls on the
    local day [d]. *)
Definition accepted_on (tz now : Z) (d : string) (sub : CF.Submission) : bool :=
  (CF.verdict sub =? "OK")%string
  && truthy (CF.creationTimeSeconds sub)
  && (getLocalDate tz now (CF.creationTimeSeconds sub) =? d)%string.

(** The distinct problems with an accepted submission on the day [d]. *)
Definition solved_on (tz now : Z) (subs : list CF.Submission) (d : string)
    : list string :=
  nodup string_dec (map problemId (filter (accepted_on tz now d) subs)).

(** Follows the specification's words: a problem is credited to the day
    of the first accepted submission for it met in the fetched list, and
    to no other day. [seen] holds the problems already credited. *)
Fixpoint first_acceptances (tz now : Z) (subs : list CF.Submission)
    (seen : list string) : list (string * string) :=
  match subs with
  | [] => []
  | sub :: rest =>
      if (CF.verdict sub =? "OK")%string
         && negb (StrSet.has (problemId sub) seen)
      then (problemId sub, getLocalDate tz now (CF.creationTimeSeconds sub))
           :: first_acceptances tz now rest (problemId sub :: seen)
      else first_acceptances tz now rest seen
  end.

Definition first_acceptance_total (tz now : Z) (subs : list CF.Submission)
    (d : string) : Z :=
  Z.of_nat (List.length
    (filter (fun pd => (snd pd =? d)%string)
            (first_acceptances tz now subs []))).

Definition credits_first_acceptance_only (tz now : Z)
    (subs : list CF.Submission) (hist : list Entry) : Prop :=
  forall d, day_total d hist = first_acceptance_total tz now subs d.

(** What the Codeforces loop maintains after the submissions [l]. *)
Definition cf_inv (tz now : Z) (l : list CF.Submission)
    (st : Obj.t StrSet.t * StrSet.t) : Prop :=
  let '(dailySolved, totalUnique) := st in
  NoDup totalUnique
  /\ (forall p, In p totalUnique <->
        In p (map problemId
                (filter (fun s => (CF.verdict s =? "OK")%string) l)))
  /\ NoDup (Obj.keys dailySolved)
  /\ forall d,
       match Obj.get d dailySolved with
       | Some s =>
           NoDup s /\ s <> []
           /\ (forall p, In p s <->
                 In p (map problemId (filter (accepted_on tz now d) l)))
           /\ (forall p, In p s -> In p totalUnique)
       | None => filter (accepted_on tz now d) l = []
       end.

(** Follows the specification's words: a calendar entry whose key does
    not parse as a timestamp is dropped from the history, the others are
    bucketed under their local day. *)
Definition leetcode_history_dropping (tz : Z) (calendar : list (string * Z))
    : list Entry :=
  map (fun tc =>
         {| date := toLocaleDateString tz
                      (Date_of_num (num_mul (parseInt (fst tc)) (Int 1000)));
            count := snd tc |})
      (filter (fun tc => match parseInt (fst tc) with
                         | NaN => false
                         | Int _ => true
                         end)
              calendar).

(** The submissions that carry a timestamp. *)
Definition with_timestamp (subs : list CF.Submission) : list CF.Submission :=
  filter (fun s => truthy (CF.creationTimeSeconds s)) subs.

(** Every code unit of [s] satisfies [p]. *)
Fixpoint all_chars (p : ascii -> bool) (s : string) : bool :=
  match s with
  | EmptyString => true
  | String c s' => p c && all_chars p s'
  end.

Definition not_slash (c : ascii) : bool := negb (Ascii.eqb c "/").
Definition not_hyphen (c : ascii) : bool := negb (Ascii.eqb c "-").
Definition is_digit (c : ascii) : bool :=
  let n := N_of_ascii c in ((48 <=? n) && (n <=? 57))%N.
Definition not_ws (c : ascii) : bool := negb (is_ws c).

(** Time value of local midnight at the start of day number [n]. *)
Definition midnight (tz n : Z) : Z := n * Calendar.msPerDay - tz.

(** Follows the specification's words: the most recent Monday relative
    to the day [today], which is [today] itself on a Monday and six days
    back on a Sunday. *)
Definition most_recent_monday (today : Z) : Z :=
  today - (Calendar.week_day today + 6) mod 7.

(** Day number of 1 January of the year 100: from this day on,
    [new Date(y, m, d)] takes the year as written. *)
Definition first_day : Z := Calendar.days_from_civil 100 1 1.

(** ** Sample inputs *)

Module Sample.

(** 3 January 2024, 00:00 UTC. *)
Definition now : Z := 1704240000000.

(** Sunday 7 January 2024, 15:06:40 UTC, read five hours west of it. *)
Definition sunday : Z := 1704640000000.
Definition west5 : Z := -18000000.

Definition accepted (c : Z) (i : string) (ts : Z) : CF.Submission :=
  {| CF.verdict := "OK";
     CF.problem := {| CF.contestId := c; CF.index := i |};
     CF.creationTimeSeconds := VNum (Int ts) |}.

(** Problem 1900-A accepted on 1 January 2024 and again a day later. *)
Definition cf_two_days : CF.Response :=
  {| CF.status := "OK";
     CF.result := [ accepted 1900 "A" 1704067200;
                    accepted 1900 "A" 1704153600 ] |}.

Definition cf_two_days_stats : PlatformStats :=
  {| totalSolved := 1;
     history := [ {| date := "2024-01-01"; count := 1 |};
                  {| date := "2024-01-02"; count := 1 |} ] |}.

(** A calendar with one key that is not a timestamp. *)
Definition lc_bad_key : LC.Response :=
  {| LC.status := "success";
     LC.totalSolved := 7;
     LC.submissionCalendar :=
       Some [ ("1704067200", 2); ("not-a-time", 3) ] |}.

Definition old_stats : PlatformStats :=
  {| totalSolved := 41;
     history := [ {| date := "2023-12-30"; count := 4 |} ] |}.

(** A stored user tracked on both platforms. *)
Definition rival : User :=
  {| id := 1700000000000;
     username := "rival";
     handles := Some {| Handles.leetcode := "rival_lc";
                        Handles.codeforces := "rival_cf" |};
     data := {| Data.leetcode := Some old_stats;
                Data.codeforces := Some old_stats |} |}.

(** The LeetCode endpoint is down, Codeforces answers. *)
Definition lc_down : string -> option LC.Response := fun _ => None.
Definition cf_up : string -> option CF.Response := fun _ => Some cf_two_days.

End Sample.

(** * The handlers around the claims' functions *)

Module NewUser.
(** The add-user form. *)
Record t : Type := { name : string; leetcode : string; codeforces : string }.
End NewUser.

Section Handlers.

Variable tz : Z.
Variable cf_api : string -> option CF.Response.
Variable lc_api : string -> option LC.Response.

(** [a !== v] for a string [a]. *)
Definition strict_neq_string (a : string) (v : value) : bool :=
  match v with
  | VStr b => negb (a =? b)%string
  | _ => true
  end.

(** [saveProfile()] on the profile [u], with the three fields of the edit
    form: the object handed to [onUpdateUser]. *)
Definition saveProfile (now : Z) (editName lcHandle cfHandle : string)
    (u : User) : result Updates :=
  match extractHandle (VStr lcHandle) "LeetCode" with
  | Throw => Throw
  | Ok lc =>
      match extractHandle (VStr cfHandle) "Codeforces" with
      | Throw => Throw
      | Ok cf =>
          let updates_data := data u in
          let updates_data :=
            if truthy (VStr lc)
               && strict_neq_string lc (handle_of Handles.leetcode u)
            then
              match fetchLeetCodeData tz lc_api now lc with
              | Some d =>
                  {| Data.leetcode := Some d;
                     Data.codeforces := Data.codeforces updates_data |}
              | None => updates_data
              end
            else updates_data in
          let updates_data :=
            if truthy (VStr cf)
               && strict_neq_string cf (handle_of Handles.codeforces u)
            then
              match fetchCodeforcesData tz cf_api now cf with
              | Some d =>
                  {| Data.leetcode := Data.leetcode updates_data;
                     Data.codeforces := Some d |}
              | None => updates_data
              end
            else updates_data in
          Ok {| up_username := Some editName;
                up_handles := Some {| Handles.leetcode := lc;
                                      Handles.codeforces := cf |};
                up_data := Some updates_data |}
      end
  end.

(** [handleAddUser(e)] on the stored collection, with the add-user form
    [newUser]; [Date.now()] reads [now]. A failed fetch stores [null]. *)
Definition handleAddUser (now : Z) (newUser : NewUser.t) (users : list User)
    : result (list User) :=
  if negb (truthy (VStr (NewUser.name newUser))) then Ok users
  else
    match extractHandle (VStr (NewUser.leetcode newUser)) "LeetCode" with
    | Throw => Throw
    | Ok lc =>
        match extractHandle (VStr (NewUser.codeforces newUser)) "Codeforces"
        with
        | Throw => Throw
        | Ok cf =>
            let userObj_data :=
              {| Data.leetcode := None; Data.codeforces := None |} in
            let userObj_data :=
              if truthy (VStr lc) then
                {| Data.leetcode := fetchLeetCodeData tz lc_api now lc;
                   Data.codeforces := Data.codeforces userObj_data |}
              else userObj_data in
            let userObj_data :=
              if truthy (VStr cf) then
                {| Data.leetcode := Data.leetcode userObj_data;
                   Data.codeforces := fetchCodeforcesData tz cf_api now cf |}
              else userObj_data in
            Ok (users ++
                [ {| id := now;
                     username := NewUser.name newUser;
                     handles := Some {| Handles.leetcode := lc;
                                        Handles.codeforces := cf |};
                     data := userObj_data |} ])%list
        end
    end.

(** [deleteUser(id)] on the stored collection. *)
Definition deleteUser (users : list User) (uid : Z) : list User :=
  filter (fun u => negb (id u =? uid)) users.

(** [users.find(u => u.id === selectedUserId)]; no user is selected while
    [selectedUserId] is [null]. *)
Definition selectedUser (users : list User) (selectedUserId : option Z)
    : option User :=
  match selectedUserId with
  | Some uid => find (fun u => id u =? uid) users
  | None => None
  end.

(** [(user.data?.leetcode?.totalSolved || 0)
     + (user.data?.codeforces?.totalSolved || 0)] *)
Definition profile_totalSolved (u : User) : Z :=
  match Data.leetcode (data u) with Some s => totalSolved s | None => 0 end
  + match Data.codeforces (data u) with Some s => totalSolved s | None => 0 end.

(** *** The activity log of the profile view *)

(** [Date.parse] is left to the engine for every string that is not in
    the standard date-time format: it is a parameter. *)
Variable Date_parse : string -> num.

(** [new Date(b) - new Date(a)], with [NaN] read as 0 by the sort. *)
Definition recent_first (a b : string) : Z :=
  match num_sub (getTime (Date_of_num (Date_parse b)))
                (getTime (Date_of_num (Date_parse a))) with
  | Int z => z
  | NaN => 0
  end.

(** The [cutoff] date of a time frame: [now] moved back by 7, 30 or 365
    days of the month, unmoved for any other tag. *)
Definition timeframe_cutoff (now : Z) (timeframe : string) : jsdate :=
  let now_date := Some now in
  let cutoff := Some now in
  let cutoff :=
    if (timeframe =? "Week")%string
    then setDate tz cutoff (num_sub (getDate tz now_date) (Int 7))
    else cutoff in
  let cutoff :=
    if (timeframe =? "Month")%string
    then setDate tz cutoff (num_sub (getDate tz now_date) (Int 30))
    else cutoff in
  let cutoff :=
    if (timeframe =? "Year")%string
    then setDate tz cutoff (num_sub (getDate tz now_date) (Int 365))
    else cutoff in
  cutoff.

(** The filter callback: [new Date(y, m - 1, d) >= cutoff]. *)
Definition on_or_after (cutoff : jsdate) (dateStr : string) : bool :=
  let parts := map StringToNumber (split_on "-" dateStr) in
  let y := nth 0 parts NaN in
  let m := nth 1 parts NaN in
  let d := nth 2 parts NaN in
  num_geb (getTime (Date_ymd tz y (num_sub m (Int 1)) d)) (getTime cutoff).

(** [combinedHistory] for the profile [user] (none while no user is
    selected) and the chosen time frame. *)
Definition combinedHistory (now : Z) (timeframe : string)
    (user : option User) : list Entry :=
  match user with
  | None => []
  | Some u =>
      let historyMap := historyMap u in
      let cutoff := timeframe_cutoff now timeframe in
      map (fun date =>
             {| date := date;
                count := match Obj.get date historyMap with
                         | Some v => v
                         | None => 0
                         end |})
          (sort recent_first
             (filter (on_or_after cutoff) (Obj.keys historyMap)))
  end.

End Handlers.

(** Days a time frame reaches back. *)
Definition timeframe_days (timeframe : string) : Z :=
  if (timeframe =? "Year")%string then 365
  else if (timeframe =? "Month")%string then 30
  else if (timeframe =? "Week")%string then 7
  else 0.

(** Time value a date string parses to, 0 when it parses to none. *)
Definition parsed_time (Date_parse : string -> num) (s : string) : Z :=
  match getTime (Date_of_num (Date_parse s)) with
  | Int t => t
  | NaN => 0
  end.

(** Sum of the counts of a history. *)
Definition total_count (h : list Entry) : Z :=
  fold_right (fun e acc => count e + acc) 0 h.

(** Number of problem ids held by the per-day sets of the Codeforces
    loop. *)
Definition days_size (dailySolved : Obj.t StrSet.t) : Z :=
  fold_right (fun kv acc => StrSet.size (snd kv) + acc) 0 dailySolved.

(** The accepted submissions of a list. *)
Definition accepted_subs (subs : list CF.Submission) : list CF.Submission :=
  filter (fun s => (CF.verdict s =? "OK")%string) subs.

(** * The first revision of [App.jsx]: one handle per user, manual logs *)

(** ** Date strings in the standard format *)

Module IsoDate.

Definition digit_char (k : Z) : ascii := ascii_of_N (Z.to_N (48 + k)).

(** The [width] lowest decimal digits of [n], highest first. *)
Fixpoint fixed (width : nat) (n : Z) : string :=
  match width with
  | O => EmptyString
  | S w =>
      (fixed w (n / 10) ++ String (digit_char (n mod 10)) EmptyString)%string
  end.

(** The date part of [toISOString()] for a day number: four digits for
    the years 0..9999, a sign and six digits for the others. *)
Definition date_string (n : Z) : string :=
  let '(y, m, d) := Calendar.civil_from_days n in
  let sign := if 0 <=? y then "+" else "-" in
  let year :=
    if (0 <=? y) && (y <=? 9999) then fixed 4 y
    else (sign ++ fixed 6 (Z.abs y))%string in
  (year ++ "-" ++ fixed 2 m ++ "-" ++ fixed 2 d)%string.

Definition digit (c : ascii) : option Z := digit_value 10 c.

(** Time value of a string of the date-only form [YYYY-MM-DD] that names
    a day of the calendar: midnight UTC of that day. *)
Definition parse_date (s : string) : option Z :=
  match s with
  | String y1 (String y2 (String y3 (String y4 (String h1
      (String m1 (String m2 (String h2
        (String d1 (String d2 EmptyString))))))))) =>
      if Ascii.eqb h1 "-" && Ascii.eqb h2 "-" then
        match digit y1, digit y2, digit y3, digit y4,
              digit m1, digit m2, digit d1, digit d2 with
        | Some a, Some b, Some c, Some e,
          Some f, Some g, Some i, Some j =>
            let y := 1000 * a + 100 * b + 10 * c + e in
            let m := 10 * f + g in
            let d := 10 * i + j in
            let n := Calendar.days_from_civil y m d in
            if ((Calendar.year_of_day n =? y)
                && (Calendar.month_of_day n =? m)
                && (Calendar.date_of_day n =? d)) && (1 <=? m) && (m <=? 12)
            then Some (n * Calendar.msPerDay)
            else None
        | _, _, _, _, _, _, _, _ => None
        end
      else None
  | _ => None
  end.

End IsoDate.

Module V1.

Record Log : Type := { title : string; log_date : string }.

(** A tracked user; [None] is a field the stored object lacks. *)
Record User : Type :=
  { id : Z;
    username : string;
    handle : string;
    platform : string;
    totalSolved : option Z;
    streak : Z;
    history : option (list Entry);
    manualLogs : option (list Log) }.

Section App.

Variable tz : Z.

(** What [Date.parse] makes of a string outside the date-only form is
    the engine's business. *)
Variable legacy_parse : string -> num.

(** [Date.parse(s)] *)
Definition Date_parse (s : string) : num :=
  match IsoDate.parse_date s with
  | Some t => Int t
  | None => legacy_parse s
  end.

(** [new Date(v)] for a string or a number. *)
Definition Date_of_value (v : value) : jsdate :=
  match v with
  | VStr s => Date_of_num (Date_parse s)
  | VNum n => Date_of_num n
  | VNull => Date_of_num (Int 0)
  | VUndefined => None
  end.

(** [new Date().toISOString().split('T')[0]]; an invalid date raises. *)
Definition toISOString_date (d : jsdate) : result string :=
  match d with
  | Some t => Ok (IsoDate.date_string (Day t))
  | None => Throw
  end.

(** [isDateInCurrentWeek(dateStr)] of this revision: the string goes to
    the [Date] constructor as it is. *)
Definition isDateInCurrentWeek (now : Z) (dateStr : value) : bool :=
  if negb (truthy dateStr) then false
  else
    let date := Date_of_value dateStr in
    let startOfWeek := getStartOfWeek tz now in
    let endOfWeek := startOfWeek in
    let endOfWeek :=
      setDate tz endOfWeek (num_add (getDate tz endOfWeek) (Int 7)) in
    let dateTime := getTime date in
    num_geb dateTime (getTime startOfWeek)
    && num_ltb dateTime (getTime endOfWeek).

(** The score of the leaderboard, the user card and the profile:
    [(user.history || []).filter(...).reduce(...)]. *)
Definition weeklyCount (now : Z) (u : User) : Z :=
  fold_left (fun acc curr => acc + count curr)
            (filter (fun h => isDateInCurrentWeek now (VStr (date h)))
                    (match history u with Some h => h | None => [] end))
            0.

(** [rankedUsers] of [WeeklyLeaderboard]: users with their count. *)
Definition rankedUsers (now : Z) (users : list User) : list (User * Z) :=
  sort (fun a b => snd b - snd a)
       (map (fun u => (u, weeklyCount now u)) users).

(** [l.findIndex(p)], [None] for -1. *)
Fixpoint findIndex {A : Type} (p : A -> bool) (l : list A) : option nat :=
  match l with
  | [] => None
  | x :: l' =>
      if p x then Some O
      else match findIndex p l' with
           | Some i => Some (S i)
           | None => None
           end
  end.

(** [l[i] = x] for an index inside the list. *)
Fixpoint set_at {A : Type} (i : nat) (x : A) (l : list A) : list A :=
  match l, i with
  | [], _ => []
  | _ :: l', O => x :: l'
  | y :: l', S i' => y :: set_at i' x l'
  end.

(** The history of the user a point is logged for. *)
Definition log_history (today : string) (h : option (list Entry))
    : list Entry :=
  let newHistory := match h with Some l => l | None => [] end in
  match findIndex (fun e => (date e =? today)%string) newHistory with
  | Some existingIdx =>
      match nth_error newHistory existingIdx with
      | Some e =>
          set_at existingIdx
                 {| date := date e; count := count e + 1 |} newHistory
      | None => newHistory
      end
  | None => (newHistory ++ [ {| date := today; count := 1 |} ])%list
  end.

(** [submitLog()] on the stored collection, with the title typed into
    the modal and the id the modal was opened for. *)
Definition submitLog (now : Z) (newLogTitle : string) (logUserId : option Z)
    (users : list User) : result (list User) :=
  match logUserId with
  | None => Ok users
  | Some uid =>
      if negb (truthy (VStr newLogTitle)) then Ok users
      else
        match toISOString_date (Some now) with
        | Throw => Throw
        | Ok today =>
            Ok (map (fun u =>
                       if id u =? uid then
                         {| id := id u;
                            username := username u;
                            handle := handle u;
                            platform := platform u;
                            totalSolved :=
                              Some (match totalSolved u with
                                    | Some t => t
                                    | None => 0
                                    end + 1);
                            streak := streak u;
                            history := Some (log_history today (history u));
                            manualLogs :=
                              Some (match manualLogs u with
                                    | Some l => l
                                    | None => []
                                    end
                                    ++ [ {| title := newLogTitle;
                                            log_date := today |} ])%list |}
                       else u)
                    users)
        end
  end.

End App.

End V1.

(** * The single-platform revision ([part_000]) *)

Module Part000.

(** The stored user has the shape of the first revision. *)
Definition User : Type := V1.User.

Section App.

(** The Codeforces endpoint, as before, and the LeetCode endpoint of this
    revision: the [acSubmissionNum] list of the matched user as pairs of
    difficulty and count, [None] when the request, the parsing of the
    proxy's answer or the lookup of the matched user raises. *)
Variable cf_api : string -> option CF.Response.
Variable lc_api : string -> option (list (string * Z)).

Definition problemId (sub : CF.Submission) : string :=
  (string_of_Z (CF.contestId (CF.problem sub))
   ++ CF.index (CF.problem sub))%string.

(** The body of the [forEach] callback on the pair ([historyMap],
    [solvedSet]); [toISOString] raises on an invalid date and the
    exception leaves the loop. *)
Definition cf_step (st : result (Obj.t Z * StrSet.t)) (sub : CF.Submission)
    : result (Obj.t Z * StrSet.t) :=
  match st with
  | Throw => Throw
  | Ok (historyMap, solvedSet) =>
      if (CF.verdict sub =? "OK")%string then
        let solvedSet := StrSet.add (problemId sub) solvedSet in
        match
          V1.toISOString_date
            (Date_of_num
               (num_mul (to_number (CF.creationTimeSeconds sub)) (Int 1000)))
        with
        | Throw => Throw
        | Ok date =>
            Ok (Obj.set date (get_or_zero date historyMap + 1) historyMap,
                solvedSet)
        end
      else Ok (historyMap, solvedSet)
  end.

(** [fetchCodeforcesData(handle)] *)
Definition fetchCodeforcesData (handle : string) : option PlatformStats :=
  match cf_api handle with
  | None => None
  | Some data =>
      if negb (CF.status data =? "OK")%string then None
      else
        match fold_left cf_step (CF.result data) (Ok ([], [])) with
        | Throw => None
        | Ok (historyMap, solvedSet) =>
            Some {| totalSolved := StrSet.size solvedSet;
                    history :=
                      map (fun date =>
                             {| date := date;
                                count := match Obj.get date historyMap with
                                         | Some v => v
                                         | None => 0
                                         end |})
                          (Obj.keys historyMap) |}
        end
  end.

(** [fetchLeetCodeData(handle)]: the count filed under ["All"], and no
    history. *)
Definition fetchLeetCodeData (handle : string) : option PlatformStats :=
  match lc_api handle with
  | None => None
  | Some acSubmissionNum =>
      match find (fun d => (fst d =? "All")%string) acSubmissionNum with
      | Some d => Some {| totalSolved := snd d; history := [] |}
      | None => None
      end
  end.

(** [syncUser(userId)] on the stored collection. *)
Definition syncUser (users : list User) (userId : Z) : list User :=
  match find (fun u => V1.id u =? userId) users with
  | None => users
  | Some user =>
      let updatedData := None in
      let updatedData :=
        if (V1.platform user =? "Codeforces")%string
        then fetchCodeforcesData (V1.handle user) else updatedData in
      let updatedData :=
        if (V1.platform user =? "LeetCode")%string
        then fetchLeetCodeData (V1.handle user) else updatedData in
      match updatedData with
      | Some d =>
          map (fun u =>
                 if V1.id u =? userId then
                   {| V1.id := V1.id u;
                      V1.username := V1.username u;
                      V1.handle := V1.handle u;
                      V1.platform := V1.platform u;
                      V1.totalSolved := Some (totalSolved d);
                      V1.streak := V1.streak u;
                      V1.history :=
                        if (0 <? Z.of_nat (List.length (history d)))
                        then Some (history d) else V1.history u;
                      V1.manualLogs := V1.manualLogs u |}
                 else u)
              users
      | None => users
      end
  end.

End App.

End Part000.

(** A timestamp in seconds that [new Date(ts * 1000)] turns into a valid
    date. *)
Definition valid_timestamp (ts : value) : bool :=
  match Date_of_num (num_mul (to_number ts) (Int 1000)) with
  | Some _ => true
  | None => false
  end.

(** ** More sample inputs *)

Module SampleMore.

Definition cf_down : string -> option CF.Response := fun _ => None.
Definition lc_up : string -> option LC.Response :=
  fun _ => Some Sample.lc_bad_key.

(** An engine that knows the standard date format and nothing else. *)
Definition strict_parse : string -> num := fun _ => NaN.
Definition iso_parse : string -> num := V1.Date_parse strict_parse.

Definition newbie : NewUser.t :=
  {| NewUser.name := "newbie";
     NewUser.leetcode := "https://leetcode.com/u/newbie/";
     NewUser.codeforces := "" |}.

(** The same form with a Codeforces address as well. *)
Definition both : NewUser.t :=
  {| NewUser.name := "newbie";
     NewUser.leetcode := "https://leetcode.com/u/newbie/";
     NewUser.codeforces := "codeforces.com/profile/newbie_cf" |}.




(** A user with three days of history, the Codeforces days oldest
    first. *)
Definition three_days : User :=
  {| id := 1700000000001;
     username := "three";
     handles := handles Sample.rival;
     data := {| Data.leetcode := Some Sample.old_stats;
                Data.codeforces := Some Sample.cf_two_days_stats |} |}.

(** A user whose LeetCode handle was captured from the address
    [leetcode.com/ abc/]. *)
Definition blank_lead : User :=
  {| id := 1700000000002;
     username := "abc";
     handles := Some {| Handles.leetcode := " abc";
                        Handles.codeforces := "" |};
     data := {| Data.leetcode := Some Sample.old_stats;
                Data.codeforces := None |} |}.

(** A user of the first revision with one day of history. *)
Definition logger : V1.User :=
  {| V1.id := 7;
     V1.username := "logger";
     V1.handle := "logger";
     V1.platform := "LeetCode";
     V1.totalSolved := Some 10;
     V1.streak := 1;
     V1.history := Some [ {| date := "2024-01-02"; count := 2 |} ];
     V1.manualLogs := None |}.

(** An accepted submission without a timestamp next to a dated one. *)
Definition cf_undated : CF.Response :=
  {| CF.status := "OK";
     CF.result :=
       [ Sample.accepted 1900 "A" 1704067200;
         {| CF.verdict := "OK";
            CF.problem := {| CF.contestId := 1900; CF.index := "B" |};
            CF.creationTimeSeconds := VUndefined |} ] |}.

Definition lc_all : string -> option (list (string * Z)) :=
  fun _ => Some [ ("All", 120); ("Easy", 80) ].

Definition cf_undated_api : string -> option CF.Response :=
  fun _ => Some cf_undated.

(** A calendar none of whose keys is a timestamp. *)
Definition lc_unparsable : LC.Response :=
  {| LC.status := "success";
     LC.totalSolved := 5;
     LC.submissionCalendar := Some [ ("monday", 2); ("tuesday", 3) ] |}.

Definition lc_unparsable_api : string -> option LC.Response :=
  fun _ => Some lc_unparsable.

End SampleMore.
(** * Properties *)

(** ** The model on known values *)

Example calendar_known_days :
  Calendar.civil_from_days 0 = (1970, 1, 1)
  /\ Calendar.civil_from_days (-1) = (1969, 12, 31)
  /\ Calendar.civil_from_days 19782 = (2024, 2, 29)
  /\ Calendar.days_from_civil 2024 3 1 = 19783
  /\ Calendar.week_day 19723 = 1
  /\ date_string_of_day 19723 = "2024-01-01".
Proof. repeat split. Qed.

Example toLocaleDateString_follows_zone :
  toLocaleDateString 0 (Some 1704067200000) = "2024-01-01"
  /\ toLocaleDateString Sample.west5 (Some 1704067200000) = "2023-12-31"
  /\ toLocaleDateString 0 None = "Invalid Date".
Proof. repeat split. Qed.

Example number_parsing :
  parseInt "1704067200" = Int 1704067200
  /\ parseInt "  -12abc" = Int (-12)
  /\ parseInt "0x1f" = Int 31
  /\ parseInt "not-a-time" = NaN
  /\ StringToNumber "01" = Int 1
  /\ StringToNumber "" = Int 0
  /\ StringToNumber "Invalid Date" = NaN
  /\ split_on "-" "2024-01-07" = ["2024"; "01"; "07"].
Proof. repeat split. Qed.

Example extractHandle_known_inputs :
  extractHandle (VStr "  https://leetcode.com/u/rival_lc/  ") "LeetCode"
  = Ok "rival_lc"
  /\ extractHandle (VStr "https://leetcode.com/rival_lc") "LeetCode"
     = Ok "rival_lc"
  /\ extractHandle (VStr "leetcode.com/u/") "LeetCode" = Ok "u"
  /\ extractHandle (VStr "https://codeforces.com/profile/rival_cf")
       "Codeforces" = Ok "rival_cf"
  /\ extractHandle (VStr " rival_cf ") "Codeforces" = Ok "rival_cf"
  /\ extractHandle (VStr "") "Codeforces" = Ok ""
  /\ extractHandle (VNum (Int 7)) "Codeforces" = Throw.
Proof. repeat split. Qed.

Example getStartOfWeek_known_weeks :
  getStartOfWeek 0 1704240000000 = Some 1704067200000
  /\ getStartOfWeek Sample.west5 Sample.sunday = Some 1704085200000
  /\ isDateInCurrentWeek 0 1704240000000 (VStr "2023-12-31") = Ok false
  /\ isDateInCurrentWeek 0 1704240000000 (VStr "Invalid Date") = Ok false
  /\ isDateInCurrentWeek 0 1704240000000 (VNum (Int 7)) = Throw.
Proof. repeat split. Qed.

(** ** Calendar round trip *)

Lemma era_day_range (doe : Z) :
  0 <= doe < 146097 ->
  0 <= Calendar.yoe_of doe <= 399 /\ 0 <= Calendar.doy_of doe <= 365.
Proof.
  intros H. unfold Calendar.doy_of, Calendar.yoe_of.
  Z.to_euclidean_division_equations. lia.
Qed.

Lemma days_from_civil_from_days (n : Z) :
  let '(y, m, d) := Calendar.civil_from_days n in
  Calendar.days_from_civil y m d = n.
Proof.
  unfold Calendar.civil_from_days.
  set (z := n + 719468).
  set (era := z / 146097).
  set (doe := z - era * 146097).
  assert (Hdoe : 0 <= doe < 146097).
  { unfold doe, era. pose proof (Z.mod_pos_bound z 146097 ltac:(lia)).
    rewrite Z.mod_eq in H by lia. lia. }
  destruct (era_day_range doe Hdoe) as (Hy & Hd).
  unfold Calendar.yoe_of, Calendar.doy_of in *.
  fold (Calendar.yoe_of doe) in *.
  set (yoe := Calendar.yoe_of doe) in *.
  set (doy := doe - (365 * yoe + yoe / 4 - yoe / 100)) in *.
  set (mp := (5 * doy + 2) / 153).
  assert (Hmp : 0 <= mp <= 11).
  { unfold mp. split.
    - apply Z.div_pos; lia.
    - apply Z.lt_succ_r. apply Z.div_lt_upper_bound; lia. }
  unfold Calendar.days_from_civil.
  destruct (mp <? 10) eqn:Hlt.
  - apply Z.ltb_lt in Hlt.
    replace (mp + 3 <=? 2) with false by (symmetry; apply Z.leb_gt; lia).
    replace (2 <? mp + 3) with true by (symmetry; apply Z.ltb_lt; lia).
    replace (mp + 3 - 3) with mp by lia.
    assert (He : (yoe + era * 400) / 400 = era).
    { rewrite Z.div_add by lia. rewrite Z.div_small by lia. lia. }
    rewrite He.
    replace (yoe + era * 400 - era * 400) with yoe by lia.
    unfold doy, doe, z. lia.
  - apply Z.ltb_ge in Hlt.
    replace (mp - 9 <=? 2) with true by (symmetry; apply Z.leb_le; lia).
    replace (2 <? mp - 9) with false by (symmetry; apply Z.ltb_ge; lia).
    replace (mp - 9 + 9) with mp by lia.
    replace (yoe + era * 400 + 1 - 1) with (yoe + era * 400) by lia.
    assert (He : (yoe + era * 400) / 400 = era).
    { rewrite Z.div_add by lia. rewrite Z.div_small by lia. lia. }
    rewrite He.
    replace (yoe + era * 400 - era * 400) with yoe by lia.
    unfold doy, doe, z. lia.
Qed.


(** ** Sorting with a comparator *)

Section SortFacts.
Context {A : Type}.
Variable compare : A -> A -> Z.

Lemma sort_insert_perm (x : A) (l : list A) :
  Permutation (sort_insert compare x l) (x :: l).
Proof.
  induction l as [|y l IH]; cbn [sort_insert].
  - apply Permutation_refl.
  - destruct (compare x y <=? 0).
    + apply Permutation_refl.
    + eapply perm_trans; [apply perm_skip, IH | apply perm_swap].
Qed.

Lemma sort_perm (l : list A) : Permutation (sort compare l) l.
Proof.
  induction l as [|x l IH]; cbn [sort fold_right].
  - constructor.
  - eapply perm_trans; [apply sort_insert_perm | apply perm_skip, IH].
Qed.

End SortFacts.

(** The comparator [(a, b) => key(b) - key(a)]. *)
Section SortDescending.
Context {A : Type}.
Variable key : A -> Z.

Lemma sort_insert_sorted (x : A) (l : list A) :
  StronglySorted (fun a b => key b <= key a) l ->
  StronglySorted (fun a b => key b <= key a)
                 (sort_insert (fun a b => key b - key a) x l).
Proof.
  induction 1 as [|y l Hs IH Hall]; cbn [sort_insert].
  - repeat constructor.
  - destruct (key y - key x <=? 0) eqn:E.
    + apply Z.leb_le in E. constructor.
      * constructor; assumption.
      * constructor; [lia|].
        eapply Forall_impl; [|exact Hall]. cbn. intros; lia.
    + apply Z.leb_gt in E. constructor; [exact IH|].
      eapply Permutation_Forall.
      * apply Permutation_sym, sort_insert_perm.
      * constructor; [lia|exact Hall].
Qed.

Lemma sort_sorted (l : list A) :
  StronglySorted (fun a b => key b <= key a)
                 (sort (fun a b => key b - key a) l).
Proof.
  induction l as [|x l IH]; cbn [sort fold_right].
  - constructor.
  - apply sort_insert_sorted, IH.
Qed.

Lemma sort_insert_filter (k : Z) (x : A) (l : list A) :
  filter (fun a => key a =? k) (sort_insert (fun a b => key b - key a) x l)
  = filter (fun a => key a =? k) (x :: l).
Proof.
  induction l as [|y l IH]; cbn [sort_insert]; [reflexivity|].
  destruct (key y - key x <=? 0) eqn:E;
    [reflexivity|].
  apply Z.leb_gt in E. cbn [filter] in *. rewrite IH.
  destruct (key x =? k) eqn:Ex; [|reflexivity].
  apply Z.eqb_eq in Ex.
  replace (key y =? k) with false by (symmetry; apply Z.eqb_neq; lia).
  reflexivity.
Qed.

Lemma sort_filter (k : Z) (l : list A) :
  filter (fun a => key a =? k) (sort (fun a b => key b - key a) l)
  = filter (fun a => key a =? k) l.
Proof.
  induction l as [|x l IH]; cbn [sort fold_right]; [reflexivity|].
  rewrite sort_insert_filter. cbn [filter].
  fold (sort (fun a b => key b - key a) l).
  rewrite IH. reflexivity.
Qed.

End SortDescending.

(** ** Ranking *)

(** C4: the ranking is the input collection, each user paired with its
    weekly score, rearranged so that scores never increase down the list;
    users with the same score keep the order they have in the input. *)
Theorem rankedUsers_sorted_stable (tz now : Z) (users : list User) :
  let ranked := rankedUsers tz now users in
  let scored :=
    map (fun u => {| user := u; weeklyScore := calculateWeeklyScore tz now u |})
        users in
  Permutation ranked scored
  /\ StronglySorted (fun a b => weeklyScore b <= weeklyScore a) ranked
  /\ (forall s,
        filter (fun r => weeklyScore r =? s) ranked
        = filter (fun r => weeklyScore r =? s) scored)
  /\ (forall s,
        map user (filter (fun r => weeklyScore r =? s) ranked)
        = filter (fun u => calculateWeeklyScore tz now u =? s) users).
Proof.
  cbv zeta. unfold rankedUsers.
  split; [apply sort_perm|].
  split; [apply (sort_sorted weeklyScore)|].
  split; [intros s; apply (sort_filter weeklyScore)|].
  intros s. rewrite (sort_filter weeklyScore).
  induction users as [|u us IH]; [reflexivity|].
  cbn [map filter weeklyScore].
  destruct (calculateWeeklyScore tz now u =? s); cbn [map user];
    rewrite IH; reflexivity.
Qed.

(** ** Week window: the guard *)

(** C9: the membership test answers [false], without raising, for the
    empty string, [null] and [undefined]. *)
Theorem isDateInCurrentWeek_falsy_input (tz now : Z) :
  isDateInCurrentWeek tz now (VStr "") = Ok false
  /\ isDateInCurrentWeek tz now VNull = Ok false
  /\ isDateInCurrentWeek tz now VUndefined = Ok false.
Proof. repeat split. Qed.

(** ** Dictionaries *)

Section ObjFacts.
Context {V : Type}.
Implicit Types (o : Obj.t V) (k : string) (v : V).

Lemma get_set_same k v o : Obj.get k (Obj.set k v o) = Some v.
Proof.
  induction o as [|[k' v'] o IH]; cbn [Obj.get Obj.set].
  - rewrite String.eqb_refl. reflexivity.
  - destruct (k' =? k)%string eqn:E; cbn [Obj.get].
    + rewrite String.eqb_refl. reflexivity.
    + rewrite E. exact IH.
Qed.

Lemma get_set_other k k' v o :
  k <> k' -> Obj.get k' (Obj.set k v o) = Obj.get k' o.
Proof.
  intros Hne. induction o as [|[k0 v0] o IH]; cbn [Obj.get Obj.set].
  - apply String.eqb_neq in Hne. rewrite Hne. reflexivity.
  - destruct (k0 =? k)%string eqn:E; cbn [Obj.get].
    + apply String.eqb_eq in E. subst k0.
      apply String.eqb_neq in Hne. rewrite Hne. reflexivity.
    + rewrite IH. reflexivity.
Qed.

Lemma get_None_keys k o : Obj.get k o = None <-> ~ In k (Obj.keys o).
Proof.
  induction o as [|[k' v'] o IH]; cbn [Obj.get Obj.keys map fst In].
  - tauto.
  - destruct (k' =? k)%string eqn:E.
    + apply String.eqb_eq in E. split; [discriminate|]. intros H.
      exfalso. apply H. left. exact E.
    + apply String.eqb_neq in E. unfold Obj.keys in IH. rewrite IH. tauto.
Qed.

Lemma keys_set k v o :
  Obj.keys (Obj.set k v o)
  = match Obj.get k o with
    | Some _ => Obj.keys o
    | None => (Obj.keys o ++ [k])%list
    end.
Proof.
  induction o as [|[k' v'] o IH]; cbn [Obj.get Obj.set Obj.keys map fst];
    [reflexivity|].
  destruct (k' =? k)%string eqn:E; cbn [map fst].
  - apply String.eqb_eq in E. subst. reflexivity.
  - unfold Obj.keys in IH. rewrite IH.
    destruct (Obj.get k o); reflexivity.
Qed.

Lemma keys_set_In k k' v o :
  In k' (Obj.keys (Obj.set k v o)) <-> k' = k \/ In k' (Obj.keys o).
Proof.
  rewrite keys_set. destruct (Obj.get k o) eqn:E.
  - split; [tauto|]. intros [->|H]; [|exact H].
    destruct (in_dec string_dec k (Obj.keys o)) as [Hin|Hnin]; [exact Hin|].
    apply get_None_keys in Hnin. congruence.
  - rewrite in_app_iff. cbn [In]. intuition congruence.
Qed.

Lemma keys_set_NoDup k v o :
  NoDup (Obj.keys o) -> NoDup (Obj.keys (Obj.set k v o)).
Proof.
  intros Hnd. rewrite keys_set. destruct (Obj.get k o) eqn:E; [exact Hnd|].
  apply get_None_keys in E.
  apply (Permutation_NoDup (l := k :: Obj.keys o)).
  - apply Permutation_cons_append.
  - constructor; assumption.
Qed.

End ObjFacts.

(** ** Merged history *)

Lemma get_or_zero_set_same k v (m : Obj.t Z) :
  get_or_zero k (Obj.set k v m) = v.
Proof. unfold get_or_zero. rewrite get_set_same. reflexivity. Qed.

Lemma get_or_zero_set_other k k' v (m : Obj.t Z) :
  k <> k' -> get_or_zero k' (Obj.set k v m) = get_or_zero k' m.
Proof.
  intros H. unfold get_or_zero. rewrite get_set_other by exact H.
  reflexivity.
Qed.

Lemma merge_get_or_zero (h : list Entry) (m : Obj.t Z) (d : string) :
  get_or_zero d (merge m (Some h)) = get_or_zero d m + day_total d h.
Proof.
  cbn [merge]. revert m.
  induction h as [|e h IH]; intros m; cbn [fold_left day_total fold_right].
  - lia.
  - rewrite IH. fold (day_total d h).
    destruct (date e =? d)%string eqn:E.
    + apply String.eqb_eq in E. subst d.
      rewrite get_or_zero_set_same. lia.
    + apply String.eqb_neq in E.
      rewrite get_or_zero_set_other by exact E. lia.
Qed.

Lemma merge_keys_In (h : list Entry) (m : Obj.t Z) (d : string) :
  In d (Obj.keys (merge m (Some h)))
  <-> In d (Obj.keys m) \/ In d (map date h).
Proof.
  cbn [merge]. revert m.
  induction h as [|e h IH]; intros m; cbn [fold_left map In].
  - tauto.
  - rewrite IH, keys_set_In. intuition congruence.
Qed.

Lemma merge_keys_NoDup (h : option (list Entry)) (m : Obj.t Z) :
  NoDup (Obj.keys m) -> NoDup (Obj.keys (merge m h)).
Proof.
  destruct h as [h|]; [|trivial]. cbn [merge]. revert m.
  induction h as [|e h IH]; intros m Hm; cbn [fold_left]; [exact Hm|].
  apply IH, keys_set_NoDup, Hm.
Qed.

Lemma merge_entries (h : option (list Entry)) (m : Obj.t Z) :
  merge m h = merge m (Some (entries_of h)).
Proof. destruct h; reflexivity. Qed.

Lemma sum_where_set (p : string -> bool) (k : string) (c : Z) (m : Obj.t Z) :
  sum_where p (Obj.set k (get_or_zero k m + c) m)
  = sum_where p m + (if p k then c else 0).
Proof.
  unfold get_or_zero.
  induction m as [|[k' v'] m IH];
    cbn [Obj.set Obj.get sum_where fold_right fst snd].
  - destruct (p k); lia.
  - destruct (k' =? k)%string eqn:E;
      cbn [sum_where fold_right fst snd].
    + apply String.eqb_eq in E. subst k'. destruct (p k); lia.
    + fold (sum_where p (Obj.set k (match Obj.get k m with
                                     | Some v => v | None => 0 end + c) m)).
      fold (sum_where p m). rewrite IH. destruct (p k'), (p k); lia.
Qed.

Lemma fold_left_add_acc (f : Entry -> Z) (l : list Entry) (a : Z) :
  fold_left (fun acc curr => acc + f curr) l a
  = a + fold_left (fun acc curr => acc + f curr) l 0.
Proof.
  revert a. induction l as [|x l IH]; intros a; cbn [fold_left]; [lia|].
  rewrite IH, (IH (0 + f x)). lia.
Qed.

Lemma sum_where_merge (tz now : Z) (h : list Entry) (m : Obj.t Z) :
  sum_where (inCurrentWeek tz now) (merge m (Some h))
  = sum_where (inCurrentWeek tz now) m + sumWeekly tz now (Some h).
Proof.
  cbn [merge sumWeekly]. revert m.
  induction h as [|e h IH]; intros m; cbn [fold_left filter]; [lia|].
  rewrite IH, sum_where_set.
  destruct (inCurrentWeek tz now (date e)); cbn [fold_left]; [|lia].
  rewrite (fold_left_add_acc count _ (0 + count e)). lia.
Qed.

Lemma sumWeekly_entries (tz now : Z) (h : option (list Entry)) :
  sumWeekly tz now h = sumWeekly tz now (Some (entries_of h)).
Proof. destruct h; reflexivity. Qed.

(** C6: the merged map holds exactly the dates that occur in a history of
    the user, each with the sum of the counts recorded for it on both
    platforms; keys are unique; the two-platform example of the
    specification evaluates as stated, and a user without platform data
    gets the empty map. *)
Theorem historyMap_sums_platforms (u : User) :
  let lc := entries_of (leetcode_history u) in
  let cf := entries_of (codeforces_history u) in
  (forall d,
     Obj.get d (historyMap u)
     = if in_dec string_dec d (map date (lc ++ cf))
       then Some (day_total d lc + day_total d cf)
       else None)
  /\ NoDup (Obj.keys (historyMap u))
  /\ (forall i n hs t1 t2,
        historyMap
          {| id := i; username := n; handles := hs;
             data :=
               {| Data.leetcode :=
                    Some {| totalSolved := t1;
                            history :=
                              [ {| date := "2024-01-01"; count := 2 |} ] |};
                  Data.codeforces :=
                    Some {| totalSolved := t2;
                            history :=
                              [ {| date := "2024-01-01"; count := 3 |};
                                {| date := "2024-01-02"; count := 1 |} ] |}
               |} |}
        = [ ("2024-01-01", 5); ("2024-01-02", 1) ])
  /\ (forall i n hs,
        historyMap
          {| id := i; username := n; handles := hs;
             data := {| Data.leetcode := None; Data.codeforces := None |} |}
        = []).
Proof.
  cbv zeta. split; [|split; [|split; reflexivity]].
  - intros d. unfold historyMap.
    rewrite (merge_entries (codeforces_history u)),
            (merge_entries (leetcode_history u)).
    set (lc := entries_of (leetcode_history u)).
    set (cf := entries_of (codeforces_history u)).
    pose proof (merge_get_or_zero cf (merge [] (Some lc)) d) as Hv.
    rewrite (merge_get_or_zero lc [] d) in Hv.
    pose proof (merge_keys_In cf (merge [] (Some lc)) d) as Hk.
    rewrite (merge_keys_In lc [] d) in Hk. cbn [Obj.keys map In] in Hk.
    destruct (in_dec string_dec d (map date (lc ++ cf))) as [Hin|Hnin].
    + rewrite map_app, in_app_iff in Hin.
      destruct (Obj.get d (merge (merge [] (Some lc)) (Some cf))) eqn:G.
      * unfold get_or_zero in Hv. rewrite G in Hv. cbn in Hv.
        f_equal. lia.
      * apply get_None_keys in G. tauto.
    + rewrite map_app, in_app_iff in Hnin.
      apply get_None_keys. tauto.
  - unfold historyMap. apply merge_keys_NoDup, merge_keys_NoDup. constructor.
Qed.

(** C5: the weekly score is the sum of the merged map over its dates
    inside the current week, each date being a key of the map once, and
    a profile that holds no platform stats scores 0 over an empty merged
    map. *)
Theorem weeklyScore_sums_unified_window (tz now : Z) (u : User) :
  calculateWeeklyScore tz now u
  = sum_where (inCurrentWeek tz now) (historyMap u)
  /\ NoDup (Obj.keys (historyMap u))
  /\ (forall i n hs,
        let fresh :=
          {| id := i; username := n; handles := hs;
             data := {| Data.leetcode := None; Data.codeforces := None |} |} in
        calculateWeeklyScore tz now fresh = 0 /\ historyMap fresh = []).
Proof.
  split; [|split; [|intros; split; reflexivity]].
  2:{ unfold historyMap. apply merge_keys_NoDup, merge_keys_NoDup.
      constructor. }
  unfold calculateWeeklyScore, historyMap.
  rewrite (merge_entries (codeforces_history u)),
          (merge_entries (leetcode_history u)).
  rewrite !sum_where_merge.
  rewrite <- !sumWeekly_entries. cbn [sum_where fold_right]. lia.
Qed.

(** ** Sets of strings *)

Lemma has_In (x : string) (s : StrSet.t) : StrSet.has x s = true <-> In x s.
Proof.
  unfold StrSet.has. rewrite existsb_exists. split.
  - intros (y & Hy & E). apply String.eqb_eq in E. subst. exact Hy.
  - intros H. exists x. split; [exact H|apply String.eqb_refl].
Qed.

Lemma add_In (x p : string) (s : StrSet.t) :
  In p (StrSet.add x s) <-> p = x \/ In p s.
Proof.
  unfold StrSet.add. destruct (StrSet.has x s) eqn:E.
  - apply has_In in E. intuition congruence.
  - rewrite in_app_iff. cbn [In]. intuition congruence.
Qed.

Lemma add_NoDup (x : string) (s : StrSet.t) :
  NoDup s -> NoDup (StrSet.add x s).
Proof.
  intros Hs. unfold StrSet.add. destruct (StrSet.has x s) eqn:E; [exact Hs|].
  apply (Permutation_NoDup (l := x :: s)).
  - apply Permutation_cons_append.
  - constructor; [|exact Hs]. intros Hin. apply has_In in Hin. congruence.
Qed.

Lemma add_nonempty (x : string) (s : StrSet.t) : StrSet.add x s <> [].
Proof.
  intros H. assert (Hin : In x (StrSet.add x s)) by (apply add_In; now left).
  rewrite H in Hin. exact Hin.
Qed.

(** ** The Codeforces loop *)

Section CodeforcesLoop.
Variables tz now : Z.

Lemma accepted_on_date d sub :
  accepted_on tz now d sub = true ->
  CF.verdict sub = "OK" /\ truthy (CF.creationTimeSeconds sub) = true
  /\ getLocalDate tz now (CF.creationTimeSeconds sub) = d.
Proof.
  unfold accepted_on. rewrite !andb_true_iff, !String.eqb_eq. tauto.
Qed.

Lemma cf_inv_init : cf_inv tz now [] ([], []).
Proof.
  cbn. repeat split; try constructor; intros; contradiction.
Qed.

Lemma cf_inv_step l st sub :
  cf_inv tz now l st -> cf_inv tz now (l ++ [sub]) (cf_step tz now st sub).
Proof.
  destruct st as [ds tu]. intros (Htu & Htu_in & Hkeys & Hday).
  unfold cf_step.
  destruct (CF.verdict sub =? "OK")%string eqn:Ev.
  - (* accepted *)
    assert (Htu' : NoDup (StrSet.add (problemId sub) tu))
      by (apply add_NoDup, Htu).
    assert (Htu_in' : forall p, In p (StrSet.add (problemId sub) tu) <->
              In p (map problemId
                (filter (fun s => (CF.verdict s =? "OK")%string)
                        (l ++ [sub])))).
    { intros p. rewrite filter_app, map_app, in_app_iff.
      cbn [filter]. rewrite Ev. cbn [map In].
      rewrite add_In, Htu_in. intuition congruence. }
    destruct (truthy (CF.creationTimeSeconds sub)) eqn:Et.
    + set (d0 := getLocalDate tz now (CF.creationTimeSeconds sub)).
      set (ds' := match Obj.get d0 ds with
                  | Some _ => ds
                  | None => Obj.set d0 [] ds
                  end).
      set (day := match Obj.get d0 ds' with Some s => s | None => [] end).
      assert (Hkeys' : NoDup (Obj.keys ds')).
      { unfold ds'. destruct (Obj.get d0 ds); [exact Hkeys|].
        apply keys_set_NoDup, Hkeys. }
      assert (Hother : forall d, d0 <> d -> Obj.get d ds' = Obj.get d ds).
      { intros d Hne. unfold ds'. destruct (Obj.get d0 ds); [reflexivity|].
        apply get_set_other, Hne. }
      assert (Hday0 : NoDup day
                /\ (forall p, In p day <->
                      In p (map problemId (filter (accepted_on tz now d0) l)))
                /\ (forall p, In p day -> In p tu)).
      { unfold day, ds'. pose proof (Hday d0) as H0.
        destruct (Obj.get d0 ds) as [s|] eqn:G.
        - rewrite G. tauto.
        - rewrite get_set_same, H0. cbn. repeat split;
            try constructor; intros; contradiction. }
      destruct Hday0 as (Hnd0 & Hin0 & Hsub0).
      split; [exact Htu'|]. split; [exact Htu_in'|].
      split; [apply keys_set_NoDup, Hkeys'|].
      intros d. destruct (string_dec d0 d) as [<-|Hne].
      * rewrite get_set_same.
        split; [apply add_NoDup, Hnd0|]. split; [apply add_nonempty|].
        assert (Ea : accepted_on tz now d0 sub = true).
        { unfold accepted_on. rewrite Ev, Et. cbn. apply String.eqb_refl. }
        split.
        -- intros p. rewrite add_In, filter_app, map_app, in_app_iff.
           cbn [filter]. rewrite Ea. cbn [map In]. rewrite Hin0.
           intuition congruence.
        -- intros p Hp. apply add_In. apply add_In in Hp.
           destruct Hp as [->|Hp]; [now left|right; apply Hsub0, Hp].
      * rewrite get_set_other by exact Hne. rewrite (Hother d Hne).
        assert (Ea : accepted_on tz now d sub = false).
        { destruct (accepted_on tz now d sub) eqn:Ea; [|reflexivity].
          apply accepted_on_date in Ea. exfalso. apply Hne. apply Ea. }
        pose proof (Hday d) as Hd. rewrite filter_app. cbn [filter].
        rewrite Ea, List.app_nil_r.
        destruct (Obj.get d ds) as [s|]; [|exact Hd].
        destruct Hd as (Hn & Hne' & Hin & Hs).
        split; [exact Hn|]. split; [exact Hne'|]. split; [exact Hin|].
        intros p Hp. apply add_In. right. apply Hs, Hp.
    + split; [exact Htu'|]. split; [exact Htu_in'|]. split; [exact Hkeys|].
      intros d. pose proof (Hday d) as Hd. rewrite filter_app. cbn [filter].
      assert (Ea : accepted_on tz now d sub = false).
      { unfold accepted_on. rewrite Ev, Et. reflexivity. }
      rewrite Ea, List.app_nil_r.
      destruct (Obj.get d ds) as [s|]; [|exact Hd].
      destruct Hd as (Hn & Hne' & Hin & Hs).
      split; [exact Hn|]. split; [exact Hne'|]. split; [exact Hin|].
      intros p Hp. apply add_In. right. apply Hs, Hp.
  - (* any other verdict *)
    split; [exact Htu|]. split.
    { intros p. rewrite filter_app, map_app, in_app_iff.
      cbn [filter]. rewrite Ev. cbn [map In]. rewrite Htu_in. tauto. }
    split; [exact Hkeys|].
    intros d. pose proof (Hday d) as Hd. rewrite filter_app. cbn [filter].
    assert (Ea : accepted_on tz now d sub = false).
    { unfold accepted_on. rewrite Ev. reflexivity. }
    rewrite Ea, List.app_nil_r. exact Hd.
Qed.

Lemma cf_fold_snoc l sub :
  cf_fold tz now (l ++ [sub]) = cf_step tz now (cf_fold tz now l) sub.
Proof. unfold cf_fold. rewrite fold_left_app. reflexivity. Qed.

Lemma cf_fold_inv l : cf_inv tz now l (cf_fold tz now l).
Proof.
  induction l as [|sub l IH] using rev_ind.
  - apply cf_inv_init.
  - rewrite cf_fold_snoc. apply cf_inv_step, IH.
Qed.

End CodeforcesLoop.

(** ** The Codeforces adapter *)

Lemma day_total_of_keys (f : string -> Z) (d : string) (ks : list string) :
  NoDup ks ->
  day_total d (map (fun k => {| date := k; count := f k |}) ks)
  = if in_dec string_dec d ks then f d else 0.
Proof.
  induction 1 as [|k ks Hk Hnd IH]; [reflexivity|].
  cbn [map day_total fold_right date count].
  fold (day_total d (map (fun k => {| date := k; count := f k |}) ks)).
  rewrite IH. destruct (k =? d)%string eqn:E.
  - apply String.eqb_eq in E. subst k.
    destruct (in_dec string_dec d ks) as [Hin|_]; [contradiction|].
    destruct (in_dec string_dec d (d :: ks)) as [_|Hn];
      [lia|exfalso; apply Hn; now left].
  - apply String.eqb_neq in E.
    destruct (in_dec string_dec d ks) as [Hin|Hnin];
      destruct (in_dec string_dec d (k :: ks)) as [Hin'|Hnin'];
      try reflexivity.
    + exfalso. apply Hnin'. now right.
    + exfalso. destruct Hin' as [->|Hin']; [now apply E|contradiction].
Qed.

Lemma same_elements_length (a b : list string) :
  NoDup a -> NoDup b -> (forall p, In p a <-> In p b) ->
  List.length a = List.length b.
Proof.
  intros Ha Hb Hab. apply Permutation_length, NoDup_Permutation; assumption.
Qed.

(** When the request or the status check fails the adapter returns
    nothing. *)
Lemma fetchCodeforcesData_failure tz cf_api now handle :
  match cf_api handle with
  | None => True
  | Some resp => CF.status resp <> "OK"
  end ->
  fetchCodeforcesData tz cf_api now handle = None.
Proof.
  unfold fetchCodeforcesData. destruct (cf_api handle) as [resp|];
    [|reflexivity].
  intros H. apply String.eqb_neq in H. rewrite H. reflexivity.
Qed.

Lemma fetchCodeforcesData_success tz cf_api now handle resp :
  cf_api handle = Some resp -> CF.status resp = "OK" ->
  fetchCodeforcesData tz cf_api now handle
  = Some {| totalSolved := StrSet.size (snd (cf_fold tz now (CF.result resp)));
            history :=
              map (fun d =>
                     {| date := d;
                        count := StrSet.size
                          match
                            Obj.get d (fst (cf_fold tz now (CF.result resp)))
                          with
                          | Some s => s
                          | None => []
                          end |})
                  (Obj.keys (fst (cf_fold tz now (CF.result resp)))) |}.
Proof.
  intros Hr Hs. unfold fetchCodeforcesData. rewrite Hr.
  apply String.eqb_eq in Hs. rewrite Hs. cbn [negb].
  destruct (cf_fold tz now (CF.result resp)). reflexivity.
Qed.

(** C10: in a successful Codeforces result every history record counts at
    least one problem and at most [totalSolved]. *)
Theorem codeforces_counts_bounded tz cf_api now handle stats :
  fetchCodeforcesData tz cf_api now handle = Some stats ->
  Forall (fun e => 1 <= count e <= totalSolved stats) (history stats).
Proof.
  intros Hf.
  destruct (cf_api handle) as [resp|] eqn:Hr;
    [|unfold fetchCodeforcesData in Hf; rewrite Hr in Hf; discriminate].
  destruct (string_dec (CF.status resp) "OK") as [Hs|Hs].
  2:{ rewrite fetchCodeforcesData_failure in Hf; [discriminate|].
      rewrite Hr. exact Hs. }
  rewrite (fetchCodeforcesData_success _ _ _ _ _ Hr Hs) in Hf.
  injection Hf as <-. cbn [history totalSolved].
  pose proof (cf_fold_inv tz now (CF.result resp)) as Hinv.
  destruct (cf_fold tz now (CF.result resp)) as [ds tu].
  destruct Hinv as (Htu & _ & _ & Hday). cbn [fst snd].
  apply Forall_forall. intros e He. apply in_map_iff in He.
  destruct He as (d & <- & Hd). cbn [count].
  specialize (Hday d). destruct (Obj.get d ds) as [s|] eqn:G.
  - destruct Hday as (Hnd & Hne & _ & Hsub). unfold StrSet.size. split.
    + destruct s; [contradiction|]. cbn [List.length]. lia.
    + apply Nat2Z.inj_le, NoDup_incl_length; [exact Hnd|exact Hsub].
  - apply get_None_keys in G. contradiction.
Qed.

(** C1, as the code has it: every local day in the history counts the
    distinct problems that have an accepted submission dated that day, so
    a problem accepted on several days is counted once on each of them;
    days are listed once, and [totalSolved] counts the distinct accepted
    problems of the whole list. *)
Theorem codeforces_history_distinct_per_day tz cf_api now handle resp :
  cf_api handle = Some resp -> CF.status resp = "OK" ->
  exists stats,
    fetchCodeforcesData tz cf_api now handle = Some stats
    /\ (forall d,
          day_total d (history stats)
          = Z.of_nat (List.length (solved_on tz now (CF.result resp) d)))
    /\ NoDup (map date (history stats))
    /\ totalSolved stats
       = Z.of_nat (List.length (nodup string_dec
           (map problemId
              (filter (fun s => (CF.verdict s =? "OK")%string)
                      (CF.result resp))))).
Proof.
  intros Hr Hs. eexists. split;
    [apply (fetchCodeforcesData_success _ _ _ _ _ Hr Hs)|].
  cbn [history totalSolved].
  pose proof (cf_fold_inv tz now (CF.result resp)) as Hinv.
  destruct (cf_fold tz now (CF.result resp)) as [ds tu].
  destruct Hinv as (Htu & Htu_in & Hkeys & Hday). cbn [fst snd].
  split; [|split].
  - intros d. rewrite (day_total_of_keys _ d _ Hkeys).
    specialize (Hday d). unfold solved_on, StrSet.size.
    destruct (in_dec string_dec d (Obj.keys ds)) as [Hin|Hnin].
    + destruct (Obj.get d ds) as [s|] eqn:G.
      * destruct Hday as (Hnd & _ & Hin_s & _). f_equal.
        apply same_elements_length; [exact Hnd|apply NoDup_nodup|].
        intros p. rewrite nodup_In. apply Hin_s.
      * apply get_None_keys in G. contradiction.
    + apply get_None_keys in Hnin. rewrite Hnin in Hday. rewrite Hday.
      reflexivity.
  - rewrite map_map. cbn [date]. rewrite map_id. exact Hkeys.
  - unfold StrSet.size. f_equal.
    apply same_elements_length; [exact Htu|apply NoDup_nodup|].
    intros p. rewrite nodup_In. apply Htu_in.
Qed.

(** ** Timestamps that are missing or do not parse *)

Lemma getLocalDate_fallback tz now v :
  truthy v = false ->
  getLocalDate tz now v = toLocaleDateString tz (Some now).
Proof. intros H. unfold getLocalDate. rewrite H. reflexivity. Qed.

Lemma cf_step_days_only tz now ds tu tu' sub :
  fst (cf_step tz now (ds, tu) sub) = fst (cf_step tz now (ds, tu') sub).
Proof.
  unfold cf_step. destruct (CF.verdict sub =? "OK")%string; [|reflexivity].
  destruct (truthy (CF.creationTimeSeconds sub)); reflexivity.
Qed.

Lemma cf_step_no_timestamp tz now ds tu sub :
  truthy (CF.creationTimeSeconds sub) = false ->
  fst (cf_step tz now (ds, tu) sub) = ds.
Proof.
  intros H. unfold cf_step. rewrite H.
  destruct (CF.verdict sub =? "OK")%string; reflexivity.
Qed.

Lemma cf_fold_with_timestamp tz now subs ds tu tu' :
  fst (fold_left (cf_step tz now) subs (ds, tu))
  = fst (fold_left (cf_step tz now) (with_timestamp subs) (ds, tu')).
Proof.
  revert ds tu tu'.
  induction subs as [|sub subs IH]; intros ds tu tu'; [reflexivity|].
  cbn [fold_left with_timestamp filter].
  destruct (truthy (CF.creationTimeSeconds sub)) eqn:Et.
  - cbn [fold_left].
    pose proof (cf_step_days_only tz now ds tu tu' sub) as E.
    destruct (cf_step tz now (ds, tu) sub) as [ds1 tu1].
    destruct (cf_step tz now (ds, tu') sub) as [ds2 tu2].
    cbn [fst] in E. subst ds2. apply IH.
  - pose proof (cf_step_no_timestamp tz now ds tu sub Et) as E.
    destruct (cf_step tz now (ds, tu) sub) as [ds1 tu1].
    cbn [fst] in E. subst ds1. apply IH.
Qed.

Lemma cf_fold_days_with_timestamp tz now subs :
  fst (cf_fold tz now subs) = fst (cf_fold tz now (with_timestamp subs)).
Proof. apply cf_fold_with_timestamp. Qed.

(** C2, as the code has it: no timestamp aborts a fetch. The Codeforces
    adapter builds its history from the submissions that carry a
    timestamp alone; [getLocalDate] dates a falsy timestamp ([NaN]
    included) today, so the LeetCode adapter keeps one record per
    calendar entry and dates the ones whose key does not parse today. *)
Theorem adapters_tolerate_bad_timestamps tz now handle :
  (forall v, truthy v = false ->
     getLocalDate tz now v = toLocaleDateString tz (Some now))
  /\ (forall lc_api resp,
        lc_api handle = Some resp -> LC.status resp = "success" ->
        exists stats,
          fetchLeetCodeData tz lc_api now handle = Some stats
          /\ List.length (history stats)
             = List.length (entries_of_calendar resp)
          /\ forall ts c,
               In (ts, c) (entries_of_calendar resp) ->
               parseInt ts = NaN ->
               In {| date := toLocaleDateString tz (Some now); count := c |}
                  (history stats))
  /\ (forall cf_api resp,
        cf_api handle = Some resp -> CF.status resp = "OK" ->
        exists stats,
          fetchCodeforcesData tz cf_api now handle = Some stats
          /\ Some (history stats)
             = option_map history
                 (fetchCodeforcesData tz
                    (fun _ =>
                       Some {| CF.status := "OK";
                               CF.result := with_timestamp (CF.result resp) |})
                    now handle)).
Proof.
  split; [apply getLocalDate_fallback|]. split.
  - intros lc_api resp Hr Hs. unfold fetchLeetCodeData. rewrite Hr.
    apply String.eqb_eq in Hs. rewrite Hs. cbn [negb].
    eexists. split; [reflexivity|]. cbn [history].
    fold (entries_of_calendar resp).
    split; [apply length_map|].
    intros ts c Hin Hnan. apply in_map_iff. exists (ts, c).
    split; [|exact Hin]. rewrite Hnan. reflexivity.
  - intros cf_api resp Hr Hs.
    rewrite (fetchCodeforcesData_success _ _ _ _ _ Hr Hs).
    eexists. split; [reflexivity|].
    rewrite (fetchCodeforcesData_success tz _ now handle
               {| CF.status := "OK";
                  CF.result := with_timestamp (CF.result resp) |}
               eq_refl eq_refl).
    cbn [option_map history CF.result].
    rewrite <- (cf_fold_days_with_timestamp tz now (CF.result resp)).
    reflexivity.
Qed.

(** ** Manual sync *)

Lemma fetchLeetCodeData_failure tz lc_api now handle :
  match lc_api handle with
  | None => True
  | Some resp => LC.status resp <> "success"
  end ->
  fetchLeetCodeData tz lc_api now handle = None.
Proof.
  unfold fetchLeetCodeData. destruct (lc_api handle) as [resp|];
    [|reflexivity].
  intros H. apply String.eqb_neq in H. rewrite H. reflexivity.
Qed.

Lemma truthy_VStr (h : string) : truthy (VStr h) = true <-> h <> "".
Proof.
  cbn [truthy]. rewrite negb_true_iff. apply String.eqb_neq.
Qed.



(** ** Trimming *)

Lemma trimEnd_cons c s :
  trimEnd (String c s)
  = match trimEnd s with
    | EmptyString => if is_ws c then EmptyString else String c EmptyString
    | t => String c t
    end.
Proof. reflexivity. Qed.

Lemma trimEnd_cons_keep c s :
  is_ws c = false -> trimEnd (String c s) = String c (trimEnd s).
Proof.
  intros H. cbn [trimEnd]. destruct (trimEnd s); [rewrite H|]; reflexivity.
Qed.

Lemma trimEnd_idem s : trimEnd (trimEnd s) = trimEnd s.
Proof.
  induction s as [|c s IH]; [reflexivity|]. cbn [trimEnd].
  destruct (trimEnd s) as [|c' t] eqn:E.
  - destruct (is_ws c) eqn:W; [reflexivity|].
    cbn [trimEnd]. rewrite W. reflexivity.
  - rewrite trimEnd_cons, IH. reflexivity.
Qed.

Lemma trimStart_head s :
  trimStart s = "" \/ exists c r, trimStart s = String c r /\ is_ws c = false.
Proof.
  induction s as [|c s IH]; [now left|]. cbn [trimStart].
  destruct (is_ws c) eqn:W; [exact IH|].
  right. exists c, s. split; [reflexivity|exact W].
Qed.

Lemma trim_idem s : trim (trim s) = trim s.
Proof.
  unfold trim. destruct (trimStart_head s) as [->|(c & r & -> & W)];
    [reflexivity|].
  rewrite (trimEnd_cons_keep c r W). cbn [trimStart]. rewrite W.
  rewrite (trimEnd_cons_keep c _ W), trimEnd_idem. reflexivity.
Qed.

Lemma trimEnd_no_ws s : all_chars not_ws s = true -> trimEnd s = s.
Proof.
  induction s as [|c s IH]; [reflexivity|]. cbn [all_chars].
  intros H. apply andb_true_iff in H. destruct H as [Hc Hs].
  unfold not_ws in Hc. apply negb_true_iff in Hc.
  rewrite (trimEnd_cons_keep c s Hc), (IH Hs). reflexivity.
Qed.

Lemma trim_no_ws s : all_chars not_ws s = true -> trim s = s.
Proof.
  intros H. unfold trim. destruct s as [|c s]; [reflexivity|].
  pose proof H as H'. cbn [all_chars] in H'. apply andb_true_iff in H'.
  destruct H' as [Hc _]. unfold not_ws in Hc. apply negb_true_iff in Hc.
  cbn [trimStart]. rewrite Hc. apply trimEnd_no_ws, H.
Qed.

(** ** Code units that survive the handle extraction *)

Section AllChars.
Variable p : ascii -> bool.

Lemma all_chars_trimStart s :
  all_chars p s = true -> all_chars p (trimStart s) = true.
Proof.
  induction s as [|c s IH]; [trivial|]. intros H. cbn [trimStart].
  destruct (is_ws c); [|exact H].
  cbn [all_chars] in H. apply andb_true_iff in H. apply IH, H.
Qed.

Lemma all_chars_trimEnd s :
  all_chars p s = true -> all_chars p (trimEnd s) = true.
Proof.
  induction s as [|c s IH]; [trivial|]. cbn [all_chars]. intros H.
  apply andb_true_iff in H. destruct H as [Hc Hs]. cbn [trimEnd].
  specialize (IH Hs). destruct (trimEnd s) as [|c' t].
  - destruct (is_ws c); [reflexivity|]. cbn [all_chars]. rewrite Hc.
    reflexivity.
  - cbn [all_chars] in *. rewrite Hc, IH. reflexivity.
Qed.

Lemma all_chars_trim s : all_chars p s = true -> all_chars p (trim s) = true.
Proof. intros H. apply all_chars_trimEnd, all_chars_trimStart, H. Qed.

Lemma all_chars_non_slash_run s :
  all_chars p s = true -> all_chars p (non_slash_run s) = true.
Proof.
  induction s as [|c s IH]; [trivial|]. cbn [all_chars non_slash_run].
  intros H. apply andb_true_iff in H. destruct H as [Hc Hs].
  destruct (Ascii.eqb c "/"); [reflexivity|].
  cbn [all_chars]. rewrite Hc, (IH Hs). reflexivity.
Qed.

Lemma all_chars_capture s r :
  capture s = Some r -> all_chars p s = true -> all_chars p r = true.
Proof.
  unfold capture. intros H Hs. apply all_chars_non_slash_run in Hs.
  destruct (non_slash_run s); [discriminate|]. injection H as <-. exact Hs.
Qed.

Lemma all_chars_strip_prefix pre s r :
  strip_prefix pre s = Some r -> all_chars p s = true -> all_chars p r = true.
Proof.
  revert s. induction pre as [|a pre IH]; intros s H Hs.
  - destruct s; injection H as <-; exact Hs.
  - destruct s as [|b s]; [discriminate|]. cbn [strip_prefix] in H.
    destruct (Ascii.eqb a b); [|discriminate].
    cbn [all_chars] in Hs. apply andb_true_iff in Hs.
    apply (IH s H), Hs.
Qed.

Lemma all_chars_leetcode_at s r :
  leetcode_at s = Some r -> all_chars p s = true -> all_chars p r = true.
Proof.
  unfold leetcode_at. intros H Hs.
  destruct (strip_prefix "leetcode.com/" s) as [t|] eqn:E; [|discriminate].
  pose proof (all_chars_strip_prefix _ _ _ E Hs) as Ht.
  destruct (strip_prefix "u/" t) as [t'|] eqn:E'.
  - pose proof (all_chars_strip_prefix _ _ _ E' Ht) as Ht'.
    destruct (capture t') as [h|] eqn:C.
    + injection H as <-. apply (all_chars_capture _ _ C Ht').
    + apply (all_chars_capture _ _ H Ht).
  - apply (all_chars_capture _ _ H Ht).
Qed.

Lemma all_chars_codeforces_at s r :
  codeforces_at s = Some r -> all_chars p s = true -> all_chars p r = true.
Proof.
  unfold codeforces_at. intros H Hs.
  destruct (strip_prefix "codeforces.com/profile/" s) as [t|] eqn:E;
    [|discriminate].
  apply (all_chars_capture _ _ H), (all_chars_strip_prefix _ _ _ E Hs).
Qed.

Lemma all_chars_re_match (at_head : string -> option string) :
  (forall s r, at_head s = Some r -> all_chars p s = true ->
     all_chars p r = true) ->
  forall s r, re_match at_head s = Some r -> all_chars p s = true ->
    all_chars p r = true.
Proof.
  intros Hat. induction s as [|c s IH]; intros r H Hs; cbn [re_match] in H.
  - destruct (at_head "") eqn:E; [|discriminate]. injection H as <-.
    apply (Hat _ _ E Hs).
  - destruct (at_head (String c s)) eqn:E.
    + injection H as <-. apply (Hat _ _ E Hs).
    + cbn [all_chars] in Hs. apply andb_true_iff in Hs. apply (IH r H), Hs.
Qed.

End AllChars.

(** ** Handle extraction *)

Lemma non_slash_run_no_slash s : all_chars not_slash (non_slash_run s) = true.
Proof.
  induction s as [|c s IH]; [reflexivity|]. cbn [non_slash_run].
  destruct (Ascii.eqb c "/") eqn:E; [reflexivity|].
  cbn [all_chars]. unfold not_slash at 1. rewrite E, IH. reflexivity.
Qed.

Lemma capture_no_slash s r : capture s = Some r -> all_chars not_slash r = true.
Proof.
  unfold capture. pose proof (non_slash_run_no_slash s) as H.
  destruct (non_slash_run s); [discriminate|]. intros [= <-]. exact H.
Qed.

Lemma leetcode_at_no_slash s r :
  leetcode_at s = Some r -> all_chars not_slash r = true.
Proof.
  unfold leetcode_at.
  destruct (strip_prefix "leetcode.com/" s) as [t|]; [|discriminate].
  destruct (strip_prefix "u/" t) as [t'|].
  - destruct (capture t') as [h|] eqn:C.
    + intros [= <-]. apply (capture_no_slash _ _ C).
    + apply capture_no_slash.
  - apply capture_no_slash.
Qed.

Lemma codeforces_at_no_slash s r :
  codeforces_at s = Some r -> all_chars not_slash r = true.
Proof.
  unfold codeforces_at.
  destruct (strip_prefix "codeforces.com/profile/" s) as [t|];
    [|discriminate].
  apply capture_no_slash.
Qed.

Lemma re_match_from_head (at_head : string -> option string)
    (Q : string -> Prop) :
  (forall s r, at_head s = Some r -> Q r) ->
  forall s r, re_match at_head s = Some r -> Q r.
Proof.
  intros Hat. induction s as [|c s IH]; intros r H; cbn [re_match] in H.
  - destruct (at_head "") eqn:E; [|discriminate]. injection H as <-.
    apply (Hat _ _ E).
  - destruct (at_head (String c s)) eqn:E.
    + injection H as <-. apply (Hat _ _ E).
    + apply (IH r H).
Qed.

Lemma strip_prefix_app pre s r :
  strip_prefix pre s = Some r -> s = (pre ++ r)%string.
Proof.
  revert s. induction pre as [|a pre IH]; intros s H.
  - destruct s; injection H as <-; reflexivity.
  - destruct s as [|b s]; [discriminate|]. cbn [strip_prefix] in H.
    destruct (Ascii.eqb a b) eqn:E; [|discriminate].
    apply Ascii.eqb_eq in E. subst b. cbn [append]. f_equal. apply IH, H.
Qed.

Lemma all_chars_app p a b :
  all_chars p (a ++ b)%string = all_chars p a && all_chars p b.
Proof.
  induction a as [|c a IH]; [reflexivity|]. cbn [append all_chars].
  rewrite IH, andb_assoc. reflexivity.
Qed.

Lemma strip_prefix_needs_slash pre s :
  all_chars not_slash pre = false -> all_chars not_slash s = true ->
  strip_prefix pre s = None.
Proof.
  intros Hpre Hs. destruct (strip_prefix pre s) as [r|] eqn:E; [|reflexivity].
  apply strip_prefix_app in E. subst s.
  rewrite all_chars_app, Hpre in Hs. discriminate.
Qed.

Lemma re_match_no_slash (at_head : string -> option string) :
  (forall s, all_chars not_slash s = true -> at_head s = None) ->
  forall s, all_chars not_slash s = true -> re_match at_head s = None.
Proof.
  intros Hat. induction s as [|c s IH]; intros Hs; cbn [re_match];
    rewrite (Hat _ Hs); [reflexivity|].
  cbn [all_chars] in Hs. apply andb_true_iff in Hs. apply IH, Hs.
Qed.

Lemma leetcode_no_slash_no_match s :
  all_chars not_slash s = true -> re_match leetcode_at s = None.
Proof.
  apply re_match_no_slash. intros t Ht. unfold leetcode_at.
  rewrite strip_prefix_needs_slash; [reflexivity|reflexivity|exact Ht].
Qed.

Lemma codeforces_no_slash_no_match s :
  all_chars not_slash s = true -> re_match codeforces_at s = None.
Proof.
  apply re_match_no_slash. intros t Ht. unfold codeforces_at.
  rewrite strip_prefix_needs_slash; [reflexivity|reflexivity|exact Ht].
Qed.

Lemma extractHandle_string s platform :
  extractHandle (VStr s) platform
  = Ok (if (s =? "")%string then ""
        else if (platform =? "LeetCode")%string then
          match re_match leetcode_at (trim s) with
          | Some h => h
          | None => trim s
          end
        else if (platform =? "Codeforces")%string then
          match re_match codeforces_at (trim s) with
          | Some h => h
          | None => trim s
          end
        else trim s).
Proof.
  unfold extractHandle. cbn [truthy]. destruct (s =? "")%string;
    cbn [negb]; [reflexivity|].
  destruct (platform =? "LeetCode")%string.
  - destruct (re_match leetcode_at (trim s)); reflexivity.
  - destruct (platform =? "Codeforces")%string; [|reflexivity].
    destruct (re_match codeforces_at (trim s)); reflexivity.
Qed.

Lemma trim_empty : trim "" = "".
Proof. reflexivity. Qed.

(** A handle cut out of a profile address holds no slash, so a second
    pass finds no address in it and only trims it. *)
Lemma extractHandle_of_capture r platform :
  all_chars not_slash r = true ->
  extractHandle (VStr r) platform = Ok (trim r).
Proof.
  intros Hr. rewrite extractHandle_string.
  destruct (r =? "")%string eqn:E.
  - apply String.eqb_eq in E. subst r. reflexivity.
  - pose proof (all_chars_trim not_slash r Hr) as Ht.
    rewrite (leetcode_no_slash_no_match _ Ht),
            (codeforces_no_slash_no_match _ Ht).
    destruct (platform =? "LeetCode")%string; [reflexivity|].
    destruct (platform =? "Codeforces")%string; reflexivity.
Qed.

(** When the pattern finds nothing in [trim s], the second pass sees
    the same trimmed text and returns it again. *)
Lemma extractHandle_of_trimmed s platform :
  (platform = "LeetCode" -> re_match leetcode_at (trim s) = None) ->
  (platform = "Codeforces" -> re_match codeforces_at (trim s) = None) ->
  extractHandle (VStr (trim s)) platform = Ok (trim s).
Proof.
  intros Hl Hc. rewrite extractHandle_string, trim_idem.
  destruct (trim s =? "")%string eqn:E.
  - apply String.eqb_eq in E. rewrite E. reflexivity.
  - destruct (platform =? "LeetCode")%string eqn:Pl.
    + apply String.eqb_eq in Pl. rewrite (Hl Pl). reflexivity.
    + destruct (platform =? "Codeforces")%string eqn:Pc; [|reflexivity].
      apply String.eqb_eq in Pc. rewrite (Hc Pc). reflexivity.
Qed.

(** On a string the extraction never raises and yields a string; a
    second pass yields the first result trimmed, so two passes differ
    only when the first result has white space at its ends, which no
    input free of white space gives; the falsy inputs yield the empty
    handle. *)
Theorem extractHandle_second_pass_trims (s platform : string) :
  exists r,
    extractHandle (VStr s) platform = Ok r
    /\ extractHandle (VStr r) platform = Ok (trim r)
    /\ (all_chars not_ws s = true -> extractHandle (VStr r) platform = Ok r)
    /\ extractHandle VUndefined platform = Ok ""
    /\ extractHandle VNull platform = Ok "".
Proof.
  assert (Hmain : exists r,
    extractHandle (VStr s) platform = Ok r
    /\ extractHandle (VStr r) platform = Ok (trim r)
    /\ (all_chars not_ws s = true -> all_chars not_ws r = true)).
  { rewrite extractHandle_string. eexists. split; [reflexivity|].
    destruct (s =? "")%string eqn:E; [split; [reflexivity|trivial]|].
    assert (Htrimmed :
      extractHandle (VStr (trim s)) platform = Ok (trim s) ->
      extractHandle (VStr (trim s)) platform = Ok (trim (trim s))
      /\ (all_chars not_ws s = true -> all_chars not_ws (trim s) = true)).
    { intros H. rewrite trim_idem. split; [exact H|apply all_chars_trim]. }
    destruct (platform =? "LeetCode")%string eqn:Pl.
    - apply String.eqb_eq in Pl.
      destruct (re_match leetcode_at (trim s)) as [h|] eqn:M.
      + split.
        * apply extractHandle_of_capture.
          apply (re_match_from_head leetcode_at _ leetcode_at_no_slash _ _ M).
        * intros Hs.
          apply (all_chars_re_match not_ws leetcode_at
                   (all_chars_leetcode_at not_ws) _ _ M).
          apply all_chars_trim, Hs.
      + apply Htrimmed, extractHandle_of_trimmed; [intros _; exact M|].
        intros Pc. rewrite Pl in Pc. discriminate.
    - apply String.eqb_neq in Pl.
      destruct (platform =? "Codeforces")%string eqn:Pc.
      + apply String.eqb_eq in Pc.
        destruct (re_match codeforces_at (trim s)) as [h|] eqn:M.
        * split.
          -- apply extractHandle_of_capture.
             apply (re_match_from_head codeforces_at _
                      codeforces_at_no_slash _ _ M).
          -- intros Hs.
             apply (all_chars_re_match not_ws codeforces_at
                      (all_chars_codeforces_at not_ws) _ _ M).
             apply all_chars_trim, Hs.
        * apply Htrimmed, extractHandle_of_trimmed; [|intros _; exact M].
          intros Pl'. contradiction.
      + apply String.eqb_neq in Pc.
        apply Htrimmed, extractHandle_of_trimmed; intros; contradiction. }
  destruct Hmain as (r & H1 & H2 & H3). exists r.
  split; [exact H1|]. split; [exact H2|].
  split; [|split; reflexivity].
  intros Hs. rewrite H2, (trim_no_ws r (H3 Hs)). reflexivity.
Qed.

(** ** Calendar facts behind the week window *)

Lemma civil_from_days_range (n : Z) :
  1 <= Calendar.month_of_day n <= 12 /\ 1 <= Calendar.date_of_day n <= 31.
Proof.
  unfold Calendar.month_of_day, Calendar.date_of_day, Calendar.civil_from_days.
  cbn [fst snd].
  set (z := n + 719468).
  set (era := z / 146097).
  set (doe := z - era * 146097).
  assert (Hdoe : 0 <= doe < 146097).
  { unfold doe, era. pose proof (Z.mod_pos_bound z 146097 ltac:(lia)) as H.
    rewrite Z.mod_eq in H by lia. lia. }
  destruct (era_day_range doe Hdoe) as (_ & Hd).
  unfold Calendar.doy_of, Calendar.yoe_of in Hd.
  set (yoe := (doe - doe / 1460 + doe / 36524 - doe / 146096) / 365) in *.
  set (doy := doe - (365 * yoe + yoe / 4 - yoe / 100)) in *.
  clearbody doy. clear -Hd.
  destruct ((5 * doy + 2) / 153 <? 10) eqn:E;
    [apply Z.ltb_lt in E|apply Z.ltb_ge in E];
    Z.to_euclidean_division_equations; lia.
Qed.

Lemma civil_from_days_eq (n : Z) :
  Calendar.civil_from_days n
  = (Calendar.year_of_day n, Calendar.month_of_day n, Calendar.date_of_day n).
Proof.
  unfold Calendar.year_of_day, Calendar.month_of_day, Calendar.date_of_day.
  destruct (Calendar.civil_from_days n) as [[y m] d]. reflexivity.
Qed.

Lemma days_from_civil_day (y m d d' : Z) :
  Calendar.days_from_civil y m d' = Calendar.days_from_civil y m d - d + d'.
Proof. unfold Calendar.days_from_civil. lia. Qed.

(** [setDate] arithmetic: within the month of day [n], day of month [dt]
    is day number [n - date + dt]. *)
Lemma MakeDay_of_day (n dt : Z) :
  Calendar.MakeDay (Calendar.year_of_day n) (Calendar.month_of_day n - 1) dt
  = n - Calendar.date_of_day n + dt.
Proof.
  pose proof (civil_from_days_range n) as (Hm & _).
  pose proof (days_from_civil_from_days n) as Hrt.
  rewrite civil_from_days_eq in Hrt.
  unfold Calendar.MakeDay.
  replace ((Calendar.month_of_day n - 1) / 12) with 0
    by (symmetry; apply Z.div_small; lia).
  rewrite Z.mod_small by lia.
  replace (Calendar.month_of_day n - 1 + 1) with (Calendar.month_of_day n)
    by lia.
  rewrite Z.add_0_r.
  rewrite (days_from_civil_day _ _ (Calendar.date_of_day n) 1), Hrt. lia.
Qed.

Lemma week_day_range (n : Z) : 0 <= Calendar.week_day n <= 6.
Proof.
  unfold Calendar.week_day. pose proof (Z.mod_pos_bound (n + 4) 7). lia.
Qed.

(** ** [Date] arithmetic at local midnight *)

Section DateFacts.
Variable tz : Z.

Lemma TimeClip_in_range t :
  - Calendar.maxTime <= t <= Calendar.maxTime -> TimeClip t = Some t.
Proof.
  intros H. unfold TimeClip.
  replace (Z.abs t <=? Calendar.maxTime) with true; [reflexivity|].
  symmetry. apply Z.leb_le. lia.
Qed.

Lemma TimeClip_out_of_range t :
  ~ (- Calendar.maxTime <= t <= Calendar.maxTime) -> TimeClip t = None.
Proof.
  intros H. unfold TimeClip.
  replace (Z.abs t <=? Calendar.maxTime) with false; [reflexivity|].
  symmetry. apply Z.leb_gt. lia.
Qed.

Lemma Day_midnight n : Day (LocalTime tz (midnight tz n)) = n.
Proof.
  unfold Day, LocalTime, midnight.
  replace (n * Calendar.msPerDay - tz + tz) with (n * Calendar.msPerDay) by lia.
  apply Z.div_mul. discriminate.
Qed.

Lemma TimeWithinDay_midnight n :
  TimeWithinDay (LocalTime tz (midnight tz n)) = 0.
Proof.
  unfold TimeWithinDay, LocalTime, midnight.
  replace (n * Calendar.msPerDay - tz + tz) with (n * Calendar.msPerDay) by lia.
  apply Z.mod_mul. discriminate.
Qed.

Lemma midnight_of_today now :
  now - Calendar.msPerDay < midnight tz (Day (LocalTime tz now)) <= now.
Proof.
  unfold midnight, Day, LocalTime, Calendar.msPerDay.
  Z.to_euclidean_division_equations. lia.
Qed.

Lemma midnight_mono a b : a <= b <-> midnight tz a <= midnight tz b.
Proof. unfold midnight, Calendar.msPerDay. lia. Qed.

Lemma midnight_strict_mono a b : a < b <-> midnight tz a < midnight tz b.
Proof. unfold midnight, Calendar.msPerDay. lia. Qed.

(** [new Date(y, m - 1, d)] for the civil date of day [n]. *)
Lemma Date_ymd_of_day n :
  ~ (0 <= Calendar.year_of_day n <= 99) ->
  Date_ymd tz (Int (Calendar.year_of_day n))
              (Int (Calendar.month_of_day n - 1))
              (Int (Calendar.date_of_day n))
  = TimeClip (midnight tz n).
Proof.
  intros Hy. unfold Date_ymd.
  replace ((0 <=? Calendar.year_of_day n) && (Calendar.year_of_day n <=? 99))
    with false.
  2:{ symmetry. apply andb_false_iff.
      destruct (Z.leb_spec 0 (Calendar.year_of_day n)); [right|now left].
      apply Z.leb_gt. lia. }
  rewrite MakeDay_of_day. unfold UTC, MakeDate, midnight. f_equal. lia.
Qed.

(** [d.setDate(dt)] on a date at local midnight of day [n]. *)
Lemma setDate_midnight n dt :
  setDate tz (Some (midnight tz n)) (Int dt)
  = TimeClip (midnight tz (n - Calendar.date_of_day n + dt)).
Proof.
  unfold setDate. rewrite Day_midnight, TimeWithinDay_midnight, MakeDay_of_day.
  unfold UTC, MakeDate, midnight. f_equal. lia.
Qed.

Lemma setHours0_midnight n :
  setHours0 tz (Some (midnight tz n)) = TimeClip (midnight tz n).
Proof.
  unfold setHours0. rewrite Day_midnight.
  unfold UTC, MakeDate, midnight. f_equal. lia.
Qed.

Lemma most_recent_monday_spec today :
  Calendar.week_day (most_recent_monday today) = 1
  /\ most_recent_monday today <= today < most_recent_monday today + 7.
Proof.
  unfold most_recent_monday, Calendar.week_day.
  Z.to_euclidean_division_equations. lia.
Qed.

Lemma most_recent_monday_code today :
  today - Calendar.week_day today
  + (if Calendar.week_day today =? 0 then -6 else 1)
  = most_recent_monday today.
Proof.
  unfold most_recent_monday. pose proof (week_day_range today) as Hr.
  destruct (Calendar.week_day today =? 0) eqn:E.
  - apply Z.eqb_eq in E. rewrite E. change ((0 + 6) mod 7) with 6. lia.
  - apply Z.eqb_neq in E.
    replace ((Calendar.week_day today + 6) mod 7)
      with (Calendar.week_day today - 1); [lia|].
    apply Z.mod_unique_pos with (q := 1); lia.
Qed.

(** The start of the week computed at [now]. *)
Lemma getStartOfWeek_monday now :
  - Calendar.maxTime + 7 * Calendar.msPerDay <= now
    <= Calendar.maxTime - 7 * Calendar.msPerDay ->
  ~ (0 <= Calendar.year_of_day (Day (LocalTime tz now)) <= 99) ->
  getStartOfWeek tz now
  = Some (midnight tz (most_recent_monday (Day (LocalTime tz now)))).
Proof.
  intros Hnow Hyear. set (today := Day (LocalTime tz now)) in *.
  pose proof (midnight_of_today now) as Ht. fold today in Ht.
  pose proof (most_recent_monday_spec today) as (_ & Hs).
  assert (Hs1 : midnight tz today - 6 * Calendar.msPerDay
                <= midnight tz (most_recent_monday today)
                <= midnight tz today).
  { unfold midnight, Calendar.msPerDay. lia. }
  unfold getStartOfWeek.
  cbn [getFullYear getMonth getDate]. fold today.
  rewrite (Date_ymd_of_day today Hyear).
  rewrite TimeClip_in_range by (unfold Calendar.msPerDay in *; lia).
  cbn [getDay getDate]. rewrite Day_midnight.
  cbn [num_sub num_add].
  replace (match Calendar.week_day today with
           | 0 => Int (-6)
           | _ => Int 1
           end)
    with (Int (if Calendar.week_day today =? 0 then -6 else 1))
    by (destruct (Calendar.week_day today); reflexivity).
  cbn [num_add]. rewrite setDate_midnight.
  replace (today - Calendar.date_of_day today
           + (Calendar.date_of_day today - Calendar.week_day today
              + (if Calendar.week_day today =? 0 then -6 else 1)))
    with (most_recent_monday today)
    by (rewrite <- most_recent_monday_code; lia).
  rewrite TimeClip_in_range by (unfold Calendar.msPerDay in *; lia).
  rewrite setHours0_midnight.
  apply TimeClip_in_range. unfold Calendar.msPerDay in *. lia.
Qed.

End DateFacts.

(** ** Reading a date string back *)

Lemma all_chars_impl (p q : ascii -> bool) s :
  (forall c, p c = true -> q c = true) ->
  all_chars p s = true -> all_chars q s = true.
Proof.
  intros Hpq. induction s as [|c s IH]; [trivial|]. cbn [all_chars].
  rewrite !andb_true_iff. intros [Hc Hs]. split; [apply Hpq, Hc|apply IH, Hs].
Qed.

Lemma is_digit_not_ws c : is_digit c = true -> not_ws c = true.
Proof.
  destruct c as [[] [] [] [] [] [] [] []]; intros H;
    solve [reflexivity | discriminate H].
Qed.

Lemma is_digit_not_hyphen c : is_digit c = true -> not_hyphen c = true.
Proof.
  destruct c as [[] [] [] [] [] [] [] []]; intros H;
    solve [reflexivity | discriminate H].
Qed.

Lemma string_of_uint_digits u :
  all_chars is_digit (NilEmpty.string_of_uint u) = true.
Proof. induction u; cbn; trivial. Qed.

Lemma string_of_Z_nonneg y :
  0 <= y ->
  exists u, string_of_Z y = NilEmpty.string_of_uint u /\ Z.of_uint u = y.
Proof.
  intros Hy. unfold string_of_Z. pose proof (DecimalZ.of_to y) as Hrt.
  destruct y as [|p|p]; [| |lia].
  - exists (Decimal.D0 Decimal.Nil). split; reflexivity.
  - cbn [Z.to_int] in *. exists (Pos.to_uint p). split; [|exact Hrt].
    cbn [NilZero.string_of_int]. unfold NilZero.string_of_uint.
    destruct (Pos.to_uint p) eqn:E; try reflexivity.
    exfalso. cbn in Hrt. discriminate.
Qed.

Lemma string_of_Z_digits y :
  0 <= y -> all_chars is_digit (string_of_Z y) = true.
Proof.
  intros Hy. destruct (string_of_Z_nonneg y Hy) as (u & -> & _).
  apply string_of_uint_digits.
Qed.

Lemma StringToNumber_digits u :
  StringToNumber (NilEmpty.string_of_uint u) = Int (Z.of_uint u).
Proof.
  unfold StringToNumber. rewrite trim_no_ws.
  - rewrite NilEmpty.usu. reflexivity.
  - apply (all_chars_impl is_digit); [apply is_digit_not_ws|].
    apply string_of_uint_digits.
Qed.

Lemma StringToNumber_string_of_Z y :
  0 <= y -> StringToNumber (string_of_Z y) = Int y.
Proof.
  intros Hy. destruct (string_of_Z_nonneg y Hy) as (u & -> & <-).
  apply StringToNumber_digits.
Qed.

Lemma pad2_digits k : 0 <= k -> all_chars is_digit (pad2 k) = true.
Proof.
  intros Hk. unfold pad2. destruct (k <? 10); [cbn [all_chars]|];
    rewrite string_of_Z_digits by exact Hk; reflexivity.
Qed.

Lemma StringToNumber_pad2 k : 0 <= k -> StringToNumber (pad2 k) = Int k.
Proof.
  intros Hk. unfold pad2. destruct (k <? 10);
    [|apply StringToNumber_string_of_Z, Hk].
  destruct (string_of_Z_nonneg k Hk) as (u & -> & <-).
  apply (StringToNumber_digits (Decimal.D0 u)).
Qed.

Lemma split_on_no_sep sep s :
  all_chars (fun c => negb (Ascii.eqb c sep)) s = true ->
  split_on sep s = [s].
Proof.
  induction s as [|c s IH]; [reflexivity|]. cbn [all_chars split_on].
  rewrite andb_true_iff, negb_true_iff. intros [Hc Hs].
  rewrite Hc, (IH Hs). reflexivity.
Qed.

Lemma split_on_app sep a b :
  all_chars (fun c => negb (Ascii.eqb c sep)) a = true ->
  split_on sep (a ++ String sep b)%string = a :: split_on sep b.
Proof.
  induction a as [|c a IH]; cbn [append all_chars split_on].
  - intros _. rewrite Ascii.eqb_refl. reflexivity.
  - rewrite andb_true_iff, negb_true_iff. intros [Hc Ha].
    rewrite Hc, (IH Ha). reflexivity.
Qed.

(** The date string of a day reads back as its year, month and day. *)
Lemma date_string_parts n :
  0 <= Calendar.year_of_day n ->
  map StringToNumber (split_on "-" (date_string_of_day n))
  = [ Int (Calendar.year_of_day n);
      Int (Calendar.month_of_day n);
      Int (Calendar.date_of_day n) ].
Proof.
  intros Hy. pose proof (civil_from_days_range n) as (Hm & Hd).
  assert (E : date_string_of_day n
              = (string_of_Z (Calendar.year_of_day n)
                 ++ String "-" (pad2 (Calendar.month_of_day n)
                 ++ String "-" (pad2 (Calendar.date_of_day n))))%string).
  { unfold date_string_of_day. rewrite civil_from_days_eq. reflexivity. }
  rewrite E. clear E.
  assert (Hsep : forall s, all_chars is_digit s = true ->
            all_chars (fun c => negb (Ascii.eqb c "-")) s = true).
  { intros s. apply all_chars_impl. apply is_digit_not_hyphen. }
  rewrite split_on_app by (apply Hsep, string_of_Z_digits, Hy).
  rewrite split_on_app by (apply Hsep, pad2_digits; lia).
  rewrite split_on_no_sep by (apply Hsep, pad2_digits; lia).
  cbn [map].
  rewrite StringToNumber_string_of_Z by exact Hy.
  rewrite !StringToNumber_pad2 by lia. reflexivity.
Qed.

Lemma yoe_lower doe : 36465 <= doe < 146097 -> 99 <= Calendar.yoe_of doe.
Proof.
  intros H. unfold Calendar.yoe_of. Z.to_euclidean_division_equations. lia.
Qed.

(** Days from [first_day] on lie in the year 100 or later. *)
Lemma year_of_day_lower n : first_day <= n -> 100 <= Calendar.year_of_day n.
Proof.
  change first_day with (-683003). intros H.
  unfold Calendar.year_of_day, Calendar.civil_from_days. cbn [fst snd].
  set (z := n + 719468).
  set (era := z / 146097).
  set (doe := z - era * 146097).
  assert (Hdoe : 0 <= doe < 146097).
  { unfold doe, era. pose proof (Z.mod_pos_bound z 146097 ltac:(lia)) as Hm.
    rewrite Z.mod_eq in Hm by lia. lia. }
  assert (Hera : 0 <= era) by (apply Z.div_pos; lia).
  destruct (era_day_range doe Hdoe) as (Hy & Hd).
  unfold Calendar.doy_of in Hd. fold (Calendar.yoe_of doe).
  set (yoe := Calendar.yoe_of doe) in *.
  set (doy := doe - (365 * yoe + yoe / 4 - yoe / 100)) in *.
  set (mp := (5 * doy + 2) / 153).
  assert (Hmp : 0 <= mp <= 11).
  { unfold mp. split.
    - apply Z.div_pos; lia.
    - apply Z.lt_succ_r. apply Z.div_lt_upper_bound; lia. }
  destruct (Z.eq_dec era 0) as [E0|E0].
  - assert (Hz : doe = z) by (unfold doe; rewrite E0; lia).
    assert (Hy99 : 99 <= yoe) by (apply yoe_lower; lia).
    rewrite E0.
    destruct (mp <? 10) eqn:E; [apply Z.ltb_lt in E|apply Z.ltb_ge in E].
    + replace (mp + 3 <=? 2) with false by (symmetry; apply Z.leb_gt; lia).
      destruct (Z.eq_dec yoe 99) as [E99|E99]; [|lia].
      exfalso. unfold mp, doy in E. rewrite E99 in E.
      change (365 * 99 + 99 / 4 - 99 / 100) with 36159 in E.
      clear -E Hz H. subst doe z.
      Z.to_euclidean_division_equations. lia.
    + replace (mp - 9 <=? 2) with true by (symmetry; apply Z.leb_le; lia).
      lia.
  - destruct ((if mp <? 10 then mp + 3 else mp - 9) <=? 2); lia.
Qed.

Lemma date_string_nonempty n : (date_string_of_day n =? "")%string = false.
Proof.
  unfold date_string_of_day. rewrite civil_from_days_eq.
  destruct (string_of_Z (Calendar.year_of_day n)); reflexivity.
Qed.

(** ** The week window *)

Section WeekWindow.
Variables tz now monday : Z.

Hypothesis now_range :
  - Calendar.maxTime + 7 * Calendar.msPerDay <= now
  <= Calendar.maxTime - 7 * Calendar.msPerDay.
Hypothesis today_range : first_day + 6 <= Day (LocalTime tz now).
Hypothesis monday_def : monday = most_recent_monday (Day (LocalTime tz now)).

Lemma monday_bounds :
  Calendar.week_day monday = 1
  /\ monday <= Day (LocalTime tz now) < monday + 7.
Proof. rewrite monday_def. apply most_recent_monday_spec. Qed.

Lemma startOfWeek_is_monday :
  getStartOfWeek tz now = Some (midnight tz monday).
Proof.
  rewrite monday_def. apply getStartOfWeek_monday; [exact now_range|].
  pose proof (year_of_day_lower (Day (LocalTime tz now)) ltac:(lia)). lia.
Qed.

Lemma week_in_range n :
  monday <= n <= monday + 7 ->
  - Calendar.maxTime <= midnight tz n <= Calendar.maxTime.
Proof.
  intros Hn. pose proof monday_bounds as (_ & Hm).
  pose proof (midnight_of_today tz now) as Ht.
  unfold midnight, Calendar.msPerDay, Calendar.maxTime in *. lia.
Qed.

Lemma inCurrentWeek_day n :
  first_day <= n ->
  inCurrentWeek tz now (date_string_of_day n)
  = (monday <=? n) && (n <? monday + 7).
Proof.
  intros Hn. pose proof (year_of_day_lower n Hn) as Hy.
  pose proof monday_bounds as (_ & Hm).
  unfold inCurrentWeek. rewrite date_string_parts by lia. cbn [nth num_sub].
  rewrite Date_ymd_of_day by lia.
  rewrite startOfWeek_is_monday. cbn [getDate]. rewrite Day_midnight.
  cbn [num_add]. rewrite setDate_midnight.
  replace (monday - Calendar.date_of_day monday
           + (Calendar.date_of_day monday + 7)) with (monday + 7) by lia.
  rewrite (TimeClip_in_range (midnight tz (monday + 7)))
    by (apply week_in_range; lia).
  cbn [getTime].
  destruct (Z_le_dec monday n) as [Hlo|Hlo];
    [destruct (Z_lt_dec n (monday + 7)) as [Hhi|Hhi]|].
  - rewrite TimeClip_in_range by (apply week_in_range; lia).
    cbn [getTime num_geb num_ltb].
    repeat match goal with
           | |- context [?a <=? ?b] =>
               replace (a <=? b) with true
                 by (symmetry; apply Z.leb_le;
                     unfold midnight, Calendar.msPerDay; lia)
           | |- context [?a <? ?b] =>
               replace (a <? b) with true
                 by (symmetry; apply Z.ltb_lt;
                     unfold midnight, Calendar.msPerDay; lia)
           end.
    reflexivity.
  - replace (n <? monday + 7) with false by (symmetry; apply Z.ltb_ge; lia).
    rewrite andb_false_r.
    destruct (TimeClip (midnight tz n)) as [t|] eqn:E;
      cbn [getTime num_geb num_ltb]; [|reflexivity].
    unfold TimeClip in E.
    destruct (Z.abs (midnight tz n) <=? Calendar.maxTime); [|discriminate].
    injection E as <-.
    replace (midnight tz n <? midnight tz (monday + 7)) with false
      by (symmetry; apply Z.ltb_ge; unfold midnight, Calendar.msPerDay; lia).
    apply andb_false_r.
  - replace (monday <=? n) with false by (symmetry; apply Z.leb_gt; lia).
    cbn [andb].
    destruct (TimeClip (midnight tz n)) as [t|] eqn:E;
      cbn [getTime num_geb num_ltb]; [|reflexivity].
    unfold TimeClip in E.
    destruct (Z.abs (midnight tz n) <=? Calendar.maxTime); [|discriminate].
    injection E as <-.
    replace (midnight tz monday <=? midnight tz n) with false
      by (symmetry; apply Z.leb_gt; unfold midnight, Calendar.msPerDay; lia).
    reflexivity.
Qed.

Lemma isDateInCurrentWeek_day n :
  first_day <= n ->
  isDateInCurrentWeek tz now (VStr (date_string_of_day n))
  = Ok ((monday <=? n) && (n <? monday + 7)).
Proof.
  intros Hn. unfold isDateInCurrentWeek. cbn [truthy].
  rewrite date_string_nonempty. cbn [negb].
  rewrite (inCurrentWeek_day n Hn). reflexivity.
Qed.

End WeekWindow.

(** C3: the window opens at local midnight of the most recent Monday
    (six days back when today is a Sunday) and a calendar day is inside
    it exactly when it is that Monday or one of the six days after it:
    the Monday and the following Sunday are in, the following Monday is
    out. *)
Theorem week_window_membership (tz now : Z) :
  - Calendar.maxTime + 7 * Calendar.msPerDay <= now
    <= Calendar.maxTime - 7 * Calendar.msPerDay ->
  first_day + 6 <= Day (LocalTime tz now) ->
  let today := Day (LocalTime tz now) in
  let monday := most_recent_monday today in
  Calendar.week_day monday = 1
  /\ monday <= today < monday + 7
  /\ (Calendar.week_day today = 0 -> monday = today - 6)
  /\ getStartOfWeek tz now = Some (midnight tz monday)
  /\ (forall n, first_day <= n ->
        isDateInCurrentWeek tz now (VStr (date_string_of_day n))
        = Ok ((monday <=? n) && (n <? monday + 7)))
  /\ isDateInCurrentWeek tz now (VStr (date_string_of_day monday)) = Ok true
  /\ isDateInCurrentWeek tz now (VStr (date_string_of_day (monday + 6)))
     = Ok true
  /\ isDateInCurrentWeek tz now (VStr (date_string_of_day (monday + 7)))
     = Ok false.
Proof.
  intros Hnow Htoday today monday.
  pose proof (monday_bounds tz now monday eq_refl) as (Hwd & Hm).
  pose proof (isDateInCurrentWeek_day tz now monday Hnow Htoday eq_refl)
    as Hin.
  split; [exact Hwd|]. split; [exact Hm|]. split.
  { intros Hsun. unfold monday, most_recent_monday. rewrite Hsun.
    reflexivity. }
  split; [apply (startOfWeek_is_monday tz now monday Hnow Htoday eq_refl)|].
  split; [exact Hin|].
  fold today in Htoday, Hm.
  split; [|split].
  - rewrite Hin by lia. f_equal.
    rewrite andb_true_iff, Z.leb_le, Z.ltb_lt. lia.
  - rewrite Hin by lia. f_equal.
    rewrite andb_true_iff, Z.leb_le, Z.ltb_lt. lia.
  - rewrite Hin by lia. f_equal.
    rewrite andb_false_iff, Z.ltb_ge. right. lia.
Qed.

(** ** The statements on sample inputs *)

(** C1 at a sample input: the repeated problem is counted on both days,
    where the claim credits the first day alone. *)
Lemma codeforces_credits_every_acceptance_day :
  fetchCodeforcesData 0 Sample.cf_up Sample.now "rival_cf"
  = Some Sample.cf_two_days_stats
  /\ first_acceptance_total 0 Sample.now (CF.result Sample.cf_two_days)
       "2024-01-02" = 0
  /\ ~ credits_first_acceptance_only 0 Sample.now
         (CF.result Sample.cf_two_days) (history Sample.cf_two_days_stats).
Proof.
  split; [vm_compute; reflexivity|]. split; [vm_compute; reflexivity|].
  intros H. specialize (H "2024-01-02"). vm_compute in H. discriminate H.
Qed.

Lemma codeforces_history_distinct_per_day_witness :
  exists stats,
    fetchCodeforcesData 0 Sample.cf_up Sample.now "rival_cf" = Some stats
    /\ (forall d,
          day_total d (history stats)
          = Z.of_nat (List.length
              (solved_on 0 Sample.now (CF.result Sample.cf_two_days) d)))
    /\ NoDup (map date (history stats))
    /\ totalSolved stats
       = Z.of_nat (List.length (nodup string_dec
           (map problemId
              (filter (fun s => (CF.verdict s =? "OK")%string)
                      (CF.result Sample.cf_two_days))))).
Proof.
  exact (codeforces_history_distinct_per_day 0 Sample.cf_up Sample.now
           "rival_cf" Sample.cf_two_days eq_refl eq_refl).
Defined.

Lemma codeforces_counts_bounded_witness :
  fetchCodeforcesData 0 Sample.cf_up Sample.now "rival_cf"
  = Some Sample.cf_two_days_stats
  /\ Forall (fun e => 1 <= count e <= totalSolved Sample.cf_two_days_stats)
            (history Sample.cf_two_days_stats).
Proof.
  split; [vm_compute; reflexivity|].
  apply (codeforces_counts_bounded 0 Sample.cf_up Sample.now "rival_cf").
  vm_compute. reflexivity.
Defined.

(** C2 at a sample input: the calendar key that is not a timestamp is
    kept and dated 3 January 2024, the day of the fetch, where the claim
    drops it. *)
Lemma leetcode_unparsable_key_dated_today :
  toLocaleDateString 0 (Some Sample.now) = "2024-01-03"
  /\ fetchLeetCodeData 0 (fun _ => Some Sample.lc_bad_key) Sample.now "rival_lc"
     = Some {| totalSolved := 7;
               history := [ {| date := "2024-01-01"; count := 2 |};
                            {| date := "2024-01-03"; count := 3 |} ] |}
  /\ leetcode_history_dropping 0 (entries_of_calendar Sample.lc_bad_key)
     = [ {| date := "2024-01-01"; count := 2 |} ]
  /\ ~ (forall stats,
          fetchLeetCodeData 0 (fun _ => Some Sample.lc_bad_key)
            Sample.now "rival_lc" = Some stats ->
          history stats
          = leetcode_history_dropping 0
              (entries_of_calendar Sample.lc_bad_key)).
Proof.
  split; [vm_compute; reflexivity|]. split; [vm_compute; reflexivity|].
  split; [vm_compute; reflexivity|].
  intros H. specialize (H _ eq_refl). vm_compute in H. discriminate H.
Qed.

Lemma adapters_tolerate_bad_timestamps_witness :
  (exists stats,
     fetchLeetCodeData 0 (fun _ => Some Sample.lc_bad_key) Sample.now "rival_lc"
     = Some stats
     /\ In {| date := "2024-01-03"; count := 3 |} (history stats))
  /\ getLocalDate 0 Sample.now (VNum NaN) = "2024-01-03".
Proof.
  destruct (adapters_tolerate_bad_timestamps 0 Sample.now "rival_lc")
    as (Hfallback & Hlc & _).
  split.
  - destruct (Hlc (fun _ => Some Sample.lc_bad_key) Sample.lc_bad_key
                eq_refl eq_refl) as (stats & Hs & _ & Hin).
    exists stats. split; [exact Hs|].
    apply (Hin "not-a-time" 3); [right; left; reflexivity|reflexivity].
  - apply (Hfallback (VNum NaN)). reflexivity.
Defined.

(** C8: the handle captured from an address is returned untrimmed,
    where every other branch returns trimmed text. A profile address
    with a blank before the handle yields a handle that a second pass
    shortens, so the extraction is not idempotent; and saving the
    profile of a user stored with that handle, the form left as it was
    opened, stores another handle and fetches the platform again. *)
Theorem extractHandle_not_idempotent :
  extractHandle (VStr "leetcode.com/ abc/") "LeetCode" = Ok " abc"
  /\ extractHandle (VStr " abc") "LeetCode" = Ok "abc"
  /\ ~ (forall x p r,
          extractHandle (VStr x) p = Ok r ->
          extractHandle (VStr r) p = Ok r)
  /\ extractHandle (VStr " abc") "Codeforces" = Ok "abc"
  /\ handle_of Handles.leetcode SampleMore.blank_lead = VStr " abc"
  /\ saveProfile 0 SampleMore.cf_down SampleMore.lc_up Sample.now
       "abc" " abc" "" SampleMore.blank_lead
     = Ok {| up_username := Some "abc";
             up_handles := Some {| Handles.leetcode := "abc";
                                   Handles.codeforces := "" |};
             up_data :=
               Some {| Data.leetcode :=
                         fetchLeetCodeData 0 SampleMore.lc_up Sample.now "abc";
                       Data.codeforces := None |} |}
  /\ fetchLeetCodeData 0 SampleMore.lc_up Sample.now "abc"
     <> Data.leetcode (data SampleMore.blank_lead).
Proof.
  split; [reflexivity|]. split; [reflexivity|].
  split.
  { intros H. specialize (H "leetcode.com/ abc/" "LeetCode" " abc" eq_refl).
    vm_compute in H. discriminate H. }
  split; [reflexivity|]. split; [reflexivity|].
  split; [vm_compute; reflexivity|].
  vm_compute. discriminate.
Qed.

Lemma extractHandle_second_pass_trims_witness :
  all_chars not_ws "https://leetcode.com/u/rival_lc/" = true
  /\ exists r,
       extractHandle (VStr "https://leetcode.com/u/rival_lc/") "LeetCode" = Ok r
       /\ extractHandle (VStr r) "LeetCode" = Ok r.
Proof.
  split; [reflexivity|].
  destruct (extractHandle_second_pass_trims
              "https://leetcode.com/u/rival_lc/" "LeetCode")
    as (r & H1 & _ & H3 & _).
  exists r. split; [exact H1|apply H3; reflexivity].
Defined.



Lemma week_window_membership_witness :
  (- Calendar.maxTime + 7 * Calendar.msPerDay <= Sample.sunday
   <= Calendar.maxTime - 7 * Calendar.msPerDay)
  /\ first_day + 6 <= Day (LocalTime Sample.west5 Sample.sunday)
  /\ getStartOfWeek Sample.west5 Sample.sunday
     = Some (midnight Sample.west5 19723)
  /\ isDateInCurrentWeek Sample.west5 Sample.sunday (VStr "2024-01-01")
     = Ok true
  /\ isDateInCurrentWeek Sample.west5 Sample.sunday (VStr "2024-01-07")
     = Ok true
  /\ isDateInCurrentWeek Sample.west5 Sample.sunday (VStr "2024-01-08")
     = Ok false.
Proof.
  assert (Hrange : - Calendar.maxTime + 7 * Calendar.msPerDay <= Sample.sunday
                   <= Calendar.maxTime - 7 * Calendar.msPerDay).
  { vm_compute. split; discriminate. }
  assert (Hday : first_day + 6 <= Day (LocalTime Sample.west5 Sample.sunday)).
  { vm_compute. discriminate. }
  split; [exact Hrange|]. split; [exact Hday|].
  destruct (week_window_membership Sample.west5 Sample.sunday Hrange Hday)
    as (_ & _ & _ & Hstart & _ & Hmon & Hsun & Hnext).
  split; [exact Hstart|]. split; [exact Hmon|]. split; [exact Hsun|].
  exact Hnext.
Defined.

(** * Further properties *)

(** ** Handle extraction on addresses and bare handles *)

Lemma non_slash_run_prefix (h rest : string) :
  all_chars not_slash h = true ->
  rest = "" \/ (exists t, rest = String "/" t) ->
  non_slash_run (h ++ rest) = h.
Proof.
  intros Hh Hrest. induction h as [|c h IH]; cbn [append non_slash_run].
  - destruct Hrest as [->|(t & ->)]; reflexivity.
  - cbn [all_chars] in Hh. apply andb_true_iff in Hh. destruct Hh as [Hc Hh].
    unfold not_slash in Hc. apply negb_true_iff in Hc. rewrite Hc.
    rewrite (IH Hh). reflexivity.
Qed.

Lemma capture_handle (h rest : string) :
  h <> "" -> all_chars not_slash h = true ->
  rest = "" \/ (exists t, rest = String "/" t) ->
  capture (h ++ rest) = Some h.
Proof.
  intros Hne Hh Hrest. unfold capture.
  rewrite (non_slash_run_prefix h rest Hh Hrest).
  destruct h; [contradiction|reflexivity].
Qed.

Lemma strip_u_of_handle (h rest : string) :
  all_chars not_slash h = true ->
  rest = "" \/ rest = "/" ->
  match strip_prefix "u/" (h ++ rest) with
  | Some r' => capture r' = None
  | None => True
  end.
Proof.
  intros Hh Hrest.
  destruct h as [|c [|c' h]].
  - destruct Hrest as [->| ->]; exact I.
  - destruct Hrest as [->| ->]; cbn [append strip_prefix];
      destruct (Ascii.eqb "u" c); try exact I.
    rewrite Ascii.eqb_refl. reflexivity.
  - cbn [append strip_prefix]. destruct (Ascii.eqb "u" c); [|exact I].
    destruct (Ascii.eqb "/" c') eqn:E; [|exact I].
    apply Ascii.eqb_eq in E. subst c'. cbn in Hh.
    rewrite andb_false_r in Hh. discriminate.
Qed.

Lemma string_app_nonempty (a b : string) :
  a <> "" -> ((a ++ b)%string =? "")%string = false.
Proof. intros H. destruct a; [contradiction|reflexivity]. Qed.

Lemma strip_prefix_append (p s : string) :
  strip_prefix p (p ++ s) = Some s.
Proof.
  induction p as [|a p IH]; cbn [append strip_prefix].
  - destruct s; reflexivity.
  - rewrite Ascii.eqb_refl. exact IH.
Qed.

Lemma re_match_head (at_head : string -> option string) (s h : string) :
  at_head s = Some h -> re_match at_head s = Some h.
Proof. intros H. destruct s; cbn [re_match]; rewrite H; reflexivity. Qed.

(** Code units at which the pattern cannot start are skipped. *)
Lemma re_match_skip (at_head : string -> option string)
    (p : ascii -> bool) (pre s : string) :
  (forall c t, p c = true -> at_head (String c t) = None) ->
  all_chars p pre = true ->
  re_match at_head (pre ++ s) = re_match at_head s.
Proof.
  intros Hat. induction pre as [|c pre IH]; [reflexivity|].
  cbn [all_chars append]. rewrite andb_true_iff. intros [Hc Hpre].
  cbn [re_match]. rewrite (Hat c _ Hc). apply IH, Hpre.
Qed.

Lemma leetcode_at_other_head (c : ascii) (t : string) :
  negb (Ascii.eqb "l" c) = true -> leetcode_at (String c t) = None.
Proof.
  rewrite negb_true_iff. intros H. unfold leetcode_at.
  cbn [strip_prefix]. rewrite H. reflexivity.
Qed.

Lemma codeforces_at_other_head (c : ascii) (t : string) :
  negb (Ascii.eqb "c" c) = true -> codeforces_at (String c t) = None.
Proof.
  rewrite negb_true_iff. intros H. unfold codeforces_at.
  cbn [strip_prefix]. rewrite H. reflexivity.
Qed.

(** X1: a profile address built from a handle (non-empty, free of
    slashes and white space) gives that handle back, with or without the
    [u/] segment of LeetCode and with or without a closing slash. *)
Theorem extractHandle_profile_address (h rest : string) :
  h <> "" -> all_chars not_slash h = true -> all_chars not_ws h = true ->
  rest = "" \/ rest = "/" ->
  extractHandle (VStr ("https://leetcode.com/u/" ++ h ++ rest)) "LeetCode"
  = Ok h
  /\ extractHandle (VStr ("https://leetcode.com/" ++ h ++ rest)) "LeetCode"
     = Ok h
  /\ extractHandle (VStr ("https://codeforces.com/profile/" ++ h ++ rest))
       "Codeforces" = Ok h.
Proof.
  intros Hne Hslash Hws Hrest.
  assert (Hrest' : rest = "" \/ (exists t, rest = String "/" t)).
  { destruct Hrest as [->| ->]; [now left|right; now exists ""]. }
  assert (Hws_rest : all_chars not_ws (h ++ rest) = true).
  { rewrite all_chars_app, Hws. destruct Hrest as [->| ->]; reflexivity. }
  pose proof (capture_handle h rest Hne Hslash Hrest') as Hcap.
  assert (Hlc_u : leetcode_at ("leetcode.com/" ++ "u/" ++ h ++ rest) = Some h).
  { unfold leetcode_at. rewrite strip_prefix_append.
    rewrite (strip_prefix_append "u/"), Hcap. reflexivity. }
  assert (Hlc : leetcode_at ("leetcode.com/" ++ h ++ rest) = Some h).
  { unfold leetcode_at. rewrite strip_prefix_append.
    pose proof (strip_u_of_handle h rest Hslash Hrest) as Hu.
    destruct (strip_prefix "u/" (h ++ rest)) as [r'|];
      [rewrite Hu|]; exact Hcap. }
  assert (Hcf : codeforces_at ("codeforces.com/profile/" ++ h ++ rest)
                = Some h).
  { unfold codeforces_at. rewrite strip_prefix_append. exact Hcap. }
  repeat split; rewrite extractHandle_string;
    rewrite trim_no_ws by (rewrite all_chars_app, Hws_rest; reflexivity);
    rewrite string_app_nonempty by discriminate; cbn [String.eqb].
  - change ("https://leetcode.com/u/" ++ h ++ rest)%string
      with ("https://" ++ "leetcode.com/" ++ "u/" ++ h ++ rest)%string.
    rewrite (re_match_skip leetcode_at _ "https://" _ leetcode_at_other_head)
      by reflexivity.
    rewrite (re_match_head _ _ _ Hlc_u). reflexivity.
  - change ("https://leetcode.com/" ++ h ++ rest)%string
      with ("https://" ++ "leetcode.com/" ++ h ++ rest)%string.
    rewrite (re_match_skip leetcode_at _ "https://" _ leetcode_at_other_head)
      by reflexivity.
    rewrite (re_match_head _ _ _ Hlc). reflexivity.
  - change ("https://codeforces.com/profile/" ++ h ++ rest)%string
      with ("https://" ++ "codeforces.com/profile/" ++ h ++ rest)%string.
    rewrite (re_match_skip codeforces_at _ "https://" _
               codeforces_at_other_head) by reflexivity.
    rewrite (re_match_head _ _ _ Hcf). reflexivity.
Qed.

(** X2: an input without a slash is no address on any platform: it comes
    back trimmed and otherwise untouched. *)
Theorem extractHandle_bare_handle (s platform : string) :
  all_chars not_slash s = true ->
  extractHandle (VStr s) platform = Ok (trim s).
Proof. apply extractHandle_of_capture. Qed.

(** X3: whatever the input, the handle extracted for a platform holds no
    profile address of that platform any more: the pattern finds nothing
    in it. *)
Theorem extractHandle_leaves_no_address (s : string) :
  (exists r, extractHandle (VStr s) "LeetCode" = Ok r
             /\ re_match leetcode_at r = None)
  /\ (exists r, extractHandle (VStr s) "Codeforces" = Ok r
                /\ re_match codeforces_at r = None).
Proof.
  split; rewrite extractHandle_string; eexists; (split; [reflexivity|]);
    cbn [String.eqb Ascii.eqb Bool.eqb];
    (destruct (s =? "")%string; [reflexivity|]).
  - destruct (re_match leetcode_at (trim s)) as [h|] eqn:M; [|exact M].
    apply leetcode_no_slash_no_match.
    apply (re_match_from_head leetcode_at _ leetcode_at_no_slash _ _ M).
  - destruct (re_match codeforces_at (trim s)) as [h|] eqn:M; [|exact M].
    apply codeforces_no_slash_no_match.
    apply (re_match_from_head codeforces_at _ codeforces_at_no_slash _ _ M).
Qed.

(** ** Saving a profile *)

Lemma extractHandle_total (s platform : string) :
  exists r, extractHandle (VStr s) platform = Ok r.
Proof. rewrite extractHandle_string. eexists. reflexivity. Qed.


Section SaveProfile.
Variable tz : Z.
Variable cf_api : string -> option CF.Response.
Variable lc_api : string -> option LC.Response.
Variables (now : Z) (editName lcHandle cfHandle : string) (u : User).



End SaveProfile.

(** ** Adding, selecting, updating and deleting users *)

Section Collection.
Variable tz : Z.
Variable cf_api : string -> option CF.Response.
Variable lc_api : string -> option LC.Response.

Lemma handleAddUser_cases (now : Z) (nu : NewUser.t) (users : list User) :
  (NewUser.name nu = ""
   /\ handleAddUser tz cf_api lc_api now nu users = Ok users)
  \/ (NewUser.name nu <> ""
      /\ exists lc cf d,
           extractHandle (VStr (NewUser.leetcode nu)) "LeetCode" = Ok lc
           /\ extractHandle (VStr (NewUser.codeforces nu)) "Codeforces"
              = Ok cf
           /\ Data.leetcode d
              = (if truthy (VStr lc)
                 then fetchLeetCodeData tz lc_api now lc else None)
           /\ Data.codeforces d
              = (if truthy (VStr cf)
                 then fetchCodeforcesData tz cf_api now cf else None)
           /\ handleAddUser tz cf_api lc_api now nu users
              = Ok (users ++
                    [ {| id := now;
                         username := NewUser.name nu;
                         handles := Some {| Handles.leetcode := lc;
                                            Handles.codeforces := cf |};
                         data := d |} ])%list).
Proof.
  unfold handleAddUser.
  destruct (truthy (VStr (NewUser.name nu))) eqn:T.
  - right. apply truthy_VStr in T. split; [exact T|].
    destruct (extractHandle_total (NewUser.leetcode nu) "LeetCode")
      as (lc & Hlc).
    destruct (extractHandle_total (NewUser.codeforces nu) "Codeforces")
      as (cf & Hcf).
    rewrite Hlc, Hcf. cbn [negb]. exists lc, cf. eexists.
    split; [reflexivity|]. split; [reflexivity|].
    split; [|split; [|reflexivity]];
      destruct (truthy (VStr lc)), (truthy (VStr cf)); reflexivity.
  - left. split; [|reflexivity].
    cbn [truthy] in T. apply negb_false_iff, String.eqb_eq in T. exact T.
Qed.

(** X6: with a name in the form a user is appended even when every
    fetch fails: the profile then holds no stats, scores 0 this week and
    has an empty merged history; with a blank name nothing is added. *)
Theorem handleAddUser_adds_without_data
    (now : Z) (nu : NewUser.t) (users : list User) :
  (forall h, fetchLeetCodeData tz lc_api now h = None) ->
  (forall h, fetchCodeforcesData tz cf_api now h = None) ->
  (NewUser.name nu = "" ->
   handleAddUser tz cf_api lc_api now nu users = Ok users)
  /\ (NewUser.name nu <> "" ->
      exists u,
        handleAddUser tz cf_api lc_api now nu users = Ok (users ++ [u])%list
        /\ id u = now /\ username u = NewUser.name nu
        /\ data u = {| Data.leetcode := None; Data.codeforces := None |}
        /\ calculateWeeklyScore tz now u = 0
        /\ historyMap u = []).
Proof.
  intros Hl Hc.
  destruct (handleAddUser_cases now nu users)
    as [(Hname & Hres)|(Hname & lc & cf & d & _ & _ & Hdl & Hdc & Hres)].
  - split; [intros _; exact Hres|intros H; contradiction].
  - split; [intros H; contradiction|]. intros _.
    eexists. split; [exact Hres|]. cbn [id username data].
    assert (Hd : d = {| Data.leetcode := None; Data.codeforces := None |}).
    { destruct d as [dl dc]. cbn [Data.leetcode Data.codeforces] in Hdl, Hdc.
      subst dl dc. rewrite Hl, Hc.
      destruct (truthy (VStr lc)), (truthy (VStr cf)); reflexivity. }
    rewrite Hd. repeat split.
Qed.

(** X7: ids stay pairwise distinct when the clock reading is not yet an
    id of the collection, and the stored users keep their places: the
    result is the old list, or the old list with one user carrying the
    id [now] at its end. *)
Theorem handleAddUser_keeps_ids_distinct
    (now : Z) (nu : NewUser.t) (users : list User) :
  NoDup (map id users) -> ~ In now (map id users) ->
  exists users',
    handleAddUser tz cf_api lc_api now nu users = Ok users'
    /\ NoDup (map id users')
    /\ firstn (List.length users) users' = users
    /\ (users' = users
        \/ exists u, users' = (users ++ [u])%list /\ id u = now).
Proof.
  intros Hnd Hfresh.
  destruct (handleAddUser_cases now nu users)
    as [(_ & Hres)|(_ & lc & cf & d & _ & _ & _ & _ & Hres)];
    eexists; (split; [exact Hres|]).
  - split; [exact Hnd|]. split; [apply firstn_all|now left].
  - split; [|split].
    + rewrite map_app. cbn [map id].
      apply (Permutation_NoDup (l := now :: map id users)).
      * apply Permutation_cons_append.
      * constructor; assumption.
    + rewrite firstn_app, Nat.sub_diag, firstn_all. cbn [firstn].
      apply List.app_nil_r.
    + right. eexists. split; reflexivity.
Qed.

(** X8: selecting by id after an update finds the user the same id found
    before, with the update applied when it is the updated id; no id,
    and no position, changes. *)
Theorem updateUser_then_select
    (users : list User) (uid : Z) (up : Updates) (sel : option Z) :
  selectedUser (updateUser users uid up) sel
  = option_map (fun u => if id u =? uid then apply_updates u up else u)
               (selectedUser users sel)
  /\ map id (updateUser users uid up) = map id users.
Proof.
  split.
  - destruct sel as [s|]; [|reflexivity]. cbn [selectedUser].
    unfold updateUser. induction users as [|u us IH]; [reflexivity|].
    cbn [map find].
    assert (Hid : id (if id u =? uid then apply_updates u up else u) = id u)
      by (destruct (id u =? uid); reflexivity).
    rewrite Hid. destruct (id u =? s); [reflexivity|exact IH].
  - unfold updateUser. rewrite map_map. apply map_ext.
    intros u. destruct (id u =? uid); reflexivity.
Qed.

(** X9: after a delete no user answers to the deleted id, every other id
    selects what it selected before, and deleting an id that is absent
    changes nothing. *)
Theorem deleteUser_then_select (users : list User) (uid : Z) :
  selectedUser (deleteUser users uid) (Some uid) = None
  /\ (forall s, s <> uid ->
        selectedUser (deleteUser users uid) (Some s)
        = selectedUser users (Some s))
  /\ (~ In uid (map id users) -> deleteUser users uid = users).
Proof.
  unfold deleteUser, selectedUser. repeat split.
  - induction users as [|u us IH]; [reflexivity|]. cbn [filter].
    destruct (id u =? uid) eqn:E; cbn [negb find]; [exact IH|].
    rewrite E. exact IH.
  - intros s Hs. induction users as [|u us IH]; [reflexivity|].
    cbn [filter find]. destruct (id u =? uid) eqn:E; cbn [negb find].
    + apply Z.eqb_eq in E.
      replace (id u =? s) with false by (symmetry; apply Z.eqb_neq; lia).
      exact IH.
    + destruct (id u =? s); [reflexivity|exact IH].
  - intros Hnin. induction users as [|u us IH]; [reflexivity|].
    cbn [filter]. cbn [map In] in Hnin.
    replace (id u =? uid) with false
      by (symmetry; apply Z.eqb_neq; intros E; apply Hnin; now left).
    cbn [negb]. f_equal. apply IH. intros H. apply Hnin. now right.
Qed.

End Collection.

(** ** Ranking and deletion *)

Section SortFilter.
Context {A : Type}.
Variable key : A -> Z.
Variable p : A -> bool.

Lemma sort_insert_front (x : A) (l : list A) :
  Forall (fun z => key z <= key x) l ->
  sort_insert (fun a b => key b - key a) x l = x :: l.
Proof.
  intros H. destruct l as [|z l]; [reflexivity|]. cbn [sort_insert].
  inversion H as [|? ? Hz _]; subst.
  replace (key z - key x <=? 0) with true by (symmetry; apply Z.leb_le; lia).
  reflexivity.
Qed.

Lemma sort_insert_filter_commute (x : A) (l : list A) :
  StronglySorted (fun a b => key b <= key a) l ->
  filter p (sort_insert (fun a b => key b - key a) x l)
  = if p x
    then sort_insert (fun a b => key b - key a) x (filter p l)
    else filter p l.
Proof.
  induction 1 as [|y l Hs IH Hall]; cbn [sort_insert].
  - cbn [filter]. destruct (p x); reflexivity.
  - destruct (key y - key x <=? 0) eqn:E.
    + apply Z.leb_le in E.
      change (filter p (x :: y :: l))
        with (if p x then x :: filter p (y :: l) else filter p (y :: l)).
      destruct (p x); [|reflexivity].
      symmetry. apply sort_insert_front.
      assert (Hle : Forall (fun z => key z <= key x) (y :: l)).
      { constructor; [lia|]. eapply Forall_impl; [|exact Hall].
        cbn. intros; lia. }
      rewrite Forall_forall in Hle |- *. intros z Hz.
      apply filter_In in Hz. apply Hle, Hz.
    + cbn [filter]. rewrite IH.
      destruct (p y), (p x); cbn [sort_insert]; try rewrite E; reflexivity.
Qed.

Lemma sort_filter_commute (l : list A) :
  filter p (sort (fun a b => key b - key a) l)
  = sort (fun a b => key b - key a) (filter p l).
Proof.
  induction l as [|x l IH]; [reflexivity|]. cbn [sort fold_right filter].
  fold (sort (fun a b => key b - key a) l).
  rewrite sort_insert_filter_commute by apply sort_sorted.
  rewrite IH. destruct (p x); reflexivity.
Qed.

End SortFilter.

Lemma filter_map_commute {A B : Type} (f : A -> B) (q : B -> bool)
    (l : list A) :
  filter q (map f l) = map f (filter (fun a => q (f a)) l).
Proof.
  induction l as [|a l IH]; [reflexivity|]. cbn [map filter].
  destruct (q (f a)); cbn [map]; rewrite IH; reflexivity.
Qed.

(** X10: deleting a user takes that user out of the ranking and moves
    nobody else: the ranking of the remaining users is the old ranking
    without the deleted id. *)
Theorem rankedUsers_after_delete (tz now : Z) (users : list User) (uid : Z) :
  rankedUsers tz now (deleteUser users uid)
  = filter (fun r => negb (id (user r) =? uid)) (rankedUsers tz now users).
Proof.
  unfold rankedUsers, deleteUser.
  rewrite (sort_filter_commute weeklyScore).
  rewrite filter_map_commute. reflexivity.
Qed.

(** X11: a manual sync in which every fetch fails leaves the stored
    collection exactly as it was, ids being pairwise distinct. *)
Theorem manualSync_all_failed_is_identity
    tz cf_api lc_api now (users : list User) (u : User) :
  NoDup (map id users) -> In u users ->
  (forall h, fetchLeetCodeData tz lc_api now h = None) ->
  (forall h, fetchCodeforcesData tz cf_api now h = None) ->
  updateUser users (id u) (manualSync tz cf_api lc_api now u) = users.
Proof.
  intros Hnd Hin Hl Hc.
  assert (Hup : manualSync tz cf_api lc_api now u
                = {| up_username := None; up_handles := None;
                     up_data := Some (data u) |}).
  { unfold manualSync. f_equal. f_equal.
    destruct (handle_of Handles.leetcode u) as [| | |hl];
      destruct (handle_of Handles.codeforces u) as [| | |hc];
      try rewrite Hl; try rewrite Hc;
      repeat match goal with
             | |- context [if ?b then _ else _] => destruct b
             end; reflexivity. }
  rewrite Hup. unfold updateUser.
  rewrite <- (map_id users) at 2. apply map_ext_in. intros v Hv.
  destruct (id v =? id u) eqn:E; [|reflexivity].
  apply Z.eqb_eq in E.
  assert (Hvu : v = u).
  { clear -Hnd Hin Hv E. induction users as [|w ws IH]; [contradiction|].
    cbn [map] in Hnd. inversion Hnd as [|? ? Hw Hws]; subst.
    destruct Hin as [->|Hin], Hv as [->|Hv]; try reflexivity.
    - exfalso. apply Hw. rewrite <- E. apply in_map, Hv.
    - exfalso. apply Hw. rewrite E. apply in_map, Hin.
    - apply IH; assumption. }
  subst v. destruct u. reflexivity.
Qed.

(** ** The activity log *)

Section DateMoves.
Variable tz : Z.

(** [d.setDate(dt)] moves [d] by whole days and keeps its time of day. *)
Lemma setDate_shift (t dt : Z) :
  setDate tz (Some t) (Int dt)
  = TimeClip (t + (dt - Calendar.date_of_day (Day (LocalTime tz t)))
                  * Calendar.msPerDay).
Proof.
  unfold setDate. rewrite MakeDay_of_day. f_equal.
  unfold UTC, MakeDate, TimeWithinDay, Day, LocalTime, Calendar.msPerDay.
  Z.to_euclidean_division_equations. lia.
Qed.

Lemma timeframe_cutoff_value (now : Z) (timeframe : string) :
  - Calendar.maxTime <= now <= Calendar.maxTime ->
  timeframe_cutoff tz now timeframe
  = TimeClip (now - timeframe_days timeframe * Calendar.msPerDay).
Proof.
  intros Hnow. unfold timeframe_cutoff, timeframe_days.
  cbn [getDate num_sub].
  destruct (timeframe =? "Week")%string eqn:W.
  - apply String.eqb_eq in W. subst timeframe. cbn [String.eqb Ascii.eqb
      Bool.eqb]. rewrite setDate_shift. f_equal. lia.
  - destruct (timeframe =? "Month")%string eqn:M.
    + apply String.eqb_eq in M. subst timeframe. cbn [String.eqb Ascii.eqb
        Bool.eqb]. rewrite setDate_shift. f_equal. lia.
    + destruct (timeframe =? "Year")%string eqn:Y.
      * rewrite setDate_shift. f_equal. lia.
      * rewrite TimeClip_in_range by lia. f_equal. lia.
Qed.

End DateMoves.

Lemma historyMap_value (u : User) (d : string) :
  match Obj.get d (historyMap u) with Some v => v | None => 0 end
  = day_total d (entries_of (leetcode_history u))
    + day_total d (entries_of (codeforces_history u)).
Proof.
  change (match Obj.get d (historyMap u) with Some v => v | None => 0 end)
    with (get_or_zero d (historyMap u)).
  unfold historyMap.
  rewrite (merge_entries (codeforces_history u)),
          (merge_entries (leetcode_history u)).
  rewrite !merge_get_or_zero. reflexivity.
Qed.

Lemma historyMap_keys_NoDup (u : User) : NoDup (Obj.keys (historyMap u)).
Proof.
  unfold historyMap. apply merge_keys_NoDup, merge_keys_NoDup. constructor.
Qed.

Lemma historyMap_keys_In (u : User) (d : string) :
  In d (Obj.keys (historyMap u))
  <-> In d (map date (entries_of (leetcode_history u)
                      ++ entries_of (codeforces_history u))).
Proof.
  unfold historyMap.
  rewrite (merge_entries (codeforces_history u)),
          (merge_entries (leetcode_history u)).
  rewrite !merge_keys_In, map_app, in_app_iff. cbn [Obj.keys map In]. tauto.
Qed.

Section ActivityLog.
Variable tz : Z.
Variable Date_parse : string -> num.

(** X12: the activity log lists each date once; a record is in the log
    exactly when its date occurs in a history of the user, passes the
    cutoff of the time frame and carries the summed count of both
    platforms; with no user selected the log is empty. *)
Theorem combinedHistory_content (now : Z) (timeframe : string) (u : User) :
  let log := combinedHistory tz Date_parse now timeframe (Some u) in
  NoDup (map date log)
  /\ (forall e,
        In e log <->
        In (date e) (map date (entries_of (leetcode_history u)
                               ++ entries_of (codeforces_history u)))
        /\ on_or_after tz (timeframe_cutoff tz now timeframe) (date e) = true
        /\ count e = day_total (date e) (entries_of (leetcode_history u))
                     + day_total (date e) (entries_of (codeforces_history u)))
  /\ List.length log
     = List.length (filter (on_or_after tz (timeframe_cutoff tz now timeframe))
                           (Obj.keys (historyMap u)))
  /\ combinedHistory tz Date_parse now timeframe None = [].
Proof.
  cbv zeta. unfold combinedHistory.
  set (pass := on_or_after tz (timeframe_cutoff tz now timeframe)).
  set (kept := filter pass (Obj.keys (historyMap u))).
  pose proof (sort_perm (recent_first Date_parse) kept) as Hperm.
  split; [|split; [|split; [|reflexivity]]].
  - rewrite map_map. cbn [date]. rewrite map_id.
    apply (Permutation_NoDup (Permutation_sym Hperm)).
    apply NoDup_filter, historyMap_keys_NoDup.
  - intros [d c]. cbn [date count]. rewrite in_map_iff. split.
    + intros (k & [= <- <-] & Hk).
      apply (Permutation_in _ Hperm) in Hk. apply filter_In in Hk.
      destruct Hk as (Hk & Hp). split; [apply historyMap_keys_In, Hk|].
      split; [exact Hp|apply historyMap_value].
    + intros (Hk & Hp & ->). exists d. split.
      * f_equal. apply historyMap_value.
      * apply (Permutation_in _ (Permutation_sym Hperm)).
        apply filter_In. split; [apply historyMap_keys_In, Hk|exact Hp].
  - rewrite length_map. apply Permutation_length, Hperm.
Qed.

Lemma sort_insert_ext {A : Type} (c1 c2 : A -> A -> Z) (x : A) (m : list A) :
  (forall b, In b m -> c1 x b = c2 x b) ->
  sort_insert c1 x m = sort_insert c2 x m.
Proof.
  induction m as [|y m IH]; intros H; [reflexivity|].
  cbn [sort_insert]. rewrite (H y) by now left.
  destruct (c2 x y <=? 0); [reflexivity|]. f_equal. apply IH.
  intros b Hb. apply H. now right.
Qed.

Lemma sort_ext {A : Type} (c1 c2 : A -> A -> Z) (l : list A) :
  (forall a b, In a l -> In b l -> c1 a b = c2 a b) ->
  sort c1 l = sort c2 l.
Proof.
  induction l as [|x l IH]; intros H; [reflexivity|].
  cbn [sort fold_right]. fold (sort c1 l). fold (sort c2 l).
  rewrite <- IH by (intros a b Ha Hb; apply H; now right).
  apply sort_insert_ext. intros b Hb. apply H; [now left|right].
  apply (Permutation_in _ (sort_perm c1 l)), Hb.
Qed.

(** X13: when the engine parses every date of the merged history to a
    valid time, the activity log runs from the most recent date to the
    oldest by those times. *)
Theorem combinedHistory_recent_first (now : Z) (timeframe : string) (u : User) :
  (forall d, In d (Obj.keys (historyMap u)) ->
     exists t, Date_parse d = Int t
               /\ - Calendar.maxTime <= t <= Calendar.maxTime) ->
  StronglySorted
    (fun a b => parsed_time Date_parse (date b)
                <= parsed_time Date_parse (date a))
    (combinedHistory tz Date_parse now timeframe (Some u)).
Proof.
  intros Hparse. unfold combinedHistory.
  set (kept := filter (on_or_after tz (timeframe_cutoff tz now timeframe))
                      (Obj.keys (historyMap u))).
  assert (Hcmp : forall a b, In a kept -> In b kept ->
            recent_first Date_parse a b
            = parsed_time Date_parse b - parsed_time Date_parse a).
  { intros a b Ha Hb. apply filter_In in Ha, Hb.
    destruct (Hparse a (proj1 Ha)) as (ta & Ea & Ra).
    destruct (Hparse b (proj1 Hb)) as (tb & Eb & Rb).
    unfold recent_first, parsed_time. rewrite Ea, Eb. cbn [Date_of_num].
    rewrite !TimeClip_in_range by assumption. reflexivity. }
  rewrite (sort_ext _ (fun a b => parsed_time Date_parse b
                                  - parsed_time Date_parse a) kept Hcmp).
  pose proof (sort_sorted (parsed_time Date_parse) kept) as Hs.
  induction Hs as [|k l Hs IH Hall]; cbn [map]; constructor.
  - exact IH.
  - apply Forall_forall. intros e He. apply in_map_iff in He.
    destruct He as (k' & <- & Hk'). cbn [date].
    rewrite Forall_forall in Hall. apply Hall, Hk'.
Qed.

(** X14: a calendar day passes the filter of a time frame exactly when
    its local midnight is not before [now] moved back by the days of the
    frame (7, 30 or 365; none for another tag): a day fewer days back
    than the frame passes, a day further back than the frame does not. *)
Theorem timeframe_filter_days (now : Z) (timeframe : string) (n : Z) :
  - Calendar.maxTime + 365 * Calendar.msPerDay <= now <= Calendar.maxTime ->
  first_day <= n -> midnight tz n <= Calendar.maxTime ->
  let days := timeframe_days timeframe in
  let today := Day (LocalTime tz now) in
  on_or_after tz (timeframe_cutoff tz now timeframe) (date_string_of_day n)
  = (now - days * Calendar.msPerDay <=? midnight tz n)
  /\ (today - days < n ->
      on_or_after tz (timeframe_cutoff tz now timeframe)
        (date_string_of_day n) = true)
  /\ (n < today - days ->
      on_or_after tz (timeframe_cutoff tz now timeframe)
        (date_string_of_day n) = false).
Proof.
  intros Hnow Hn Hmax days today.
  assert (Hdays : 0 <= days <= 365).
  { unfold days, timeframe_days.
    destruct (timeframe =? "Year")%string; [lia|].
    destruct (timeframe =? "Month")%string; [lia|].
    destruct (timeframe =? "Week")%string; lia. }
  assert (Heq : on_or_after tz (timeframe_cutoff tz now timeframe)
                  (date_string_of_day n)
                = (now - days * Calendar.msPerDay <=? midnight tz n)).
  { pose proof (year_of_day_lower n Hn) as Hy.
    unfold on_or_after. rewrite date_string_parts by lia. cbn [nth num_sub].
    rewrite Date_ymd_of_day by lia.
    rewrite timeframe_cutoff_value by (unfold Calendar.msPerDay in *; lia).
    fold days.
    rewrite (TimeClip_in_range (now - days * Calendar.msPerDay))
      by (unfold Calendar.msPerDay in *; lia).
    destruct (Z_le_dec (- Calendar.maxTime) (midnight tz n)) as [Hlo|Hlo].
    - rewrite TimeClip_in_range by lia. reflexivity.
    - rewrite TimeClip_out_of_range by lia. cbn [getTime num_geb].
      symmetry. apply Z.leb_gt. unfold Calendar.msPerDay in *. lia. }
  split; [exact Heq|].
  pose proof (midnight_of_today tz now) as Ht. fold today in Ht.
  split; intros Hcmp; rewrite Heq.
  - apply Z.leb_le. unfold midnight, Calendar.msPerDay in *. lia.
  - apply Z.leb_gt. unfold midnight, Calendar.msPerDay in *. lia.
Qed.

End ActivityLog.

(** ** Adapter dates under the week test *)

Lemma getLocalDate_of_seconds tz now ts :
  ts <> 0 -> - Calendar.maxTime <= ts * 1000 <= Calendar.maxTime ->
  getLocalDate tz now (VNum (Int ts))
  = date_string_of_day (Day (LocalTime tz (ts * 1000))).
Proof.
  intros Hts Hr. unfold getLocalDate. cbn [truthy isNaN to_number].
  replace (ts =? 0) with false by (symmetry; apply Z.eqb_neq, Hts).
  cbn [negb orb num_mul Date_of_num]. rewrite TimeClip_in_range by exact Hr.
  reflexivity.
Qed.

(** X15: a record dated by the adapters from a timestamp in seconds
    passes the week test exactly when the local day of that instant is
    the Monday of the current week or one of the six days after it,
    whenever the fetch took place. *)
Theorem timestamp_in_current_week (tz now fetched_at ts : Z) :
  - Calendar.maxTime + 7 * Calendar.msPerDay <= now
    <= Calendar.maxTime - 7 * Calendar.msPerDay ->
  first_day + 6 <= Day (LocalTime tz now) ->
  ts <> 0 -> - Calendar.maxTime <= ts * 1000 <= Calendar.maxTime ->
  first_day <= Day (LocalTime tz (ts * 1000)) ->
  let monday := most_recent_monday (Day (LocalTime tz now)) in
  let day := Day (LocalTime tz (ts * 1000)) in
  isDateInCurrentWeek tz now (VStr (getLocalDate tz fetched_at (VNum (Int ts))))
  = Ok ((monday <=? day) && (day <? monday + 7)).
Proof.
  intros Hnow Htoday Hts Hr Hday monday day.
  rewrite (getLocalDate_of_seconds tz fetched_at ts Hts Hr).
  apply (isDateInCurrentWeek_day tz now monday Hnow Htoday eq_refl day Hday).
Qed.

Lemma fold_left_add_snd (l : list (string * Z)) (f : string * Z -> Entry) :
  (forall tc, count (f tc) = snd tc) ->
  fold_left (fun acc curr => acc + count curr) (map f l) 0
  = fold_right (fun tc acc => snd tc + acc) 0 l.
Proof.
  intros Hf. induction l as [|tc l IH]; [reflexivity|].
  cbn [map fold_left fold_right].
  rewrite (fold_left_add_acc count _ (0 + count (f tc))), IH, Hf. lia.
Qed.

(** X16: the date that [getLocalDate] falls back to is always inside the
    week computed at the same instant, so a LeetCode calendar whose keys
    do not parse adds all of its counts to the weekly score of the day
    of the fetch. *)
Theorem fallback_date_counts_this_week (tz now : Z) :
  - Calendar.maxTime + 7 * Calendar.msPerDay <= now
    <= Calendar.maxTime - 7 * Calendar.msPerDay ->
  first_day + 6 <= Day (LocalTime tz now) ->
  (forall v, truthy v = false ->
     isDateInCurrentWeek tz now (VStr (getLocalDate tz now v)) = Ok true)
  /\ (forall lc_api handle resp stats,
        lc_api handle = Some resp ->
        fetchLeetCodeData tz lc_api now handle = Some stats ->
        (forall ts c, In (ts, c) (entries_of_calendar resp) ->
           parseInt ts = NaN) ->
        sumWeekly tz now (Some (history stats))
        = fold_right (fun tc acc => snd tc + acc) 0
            (entries_of_calendar resp)).
Proof.
  intros Hnow Htoday.
  pose proof (monday_bounds tz now _ eq_refl) as (_ & Hm).
  assert (Htoday_in :
    inCurrentWeek tz now (toLocaleDateString tz (Some now)) = true).
  { cbn [toLocaleDateString].
    rewrite (inCurrentWeek_day tz now _ Hnow Htoday eq_refl) by lia.
    rewrite andb_true_iff, Z.leb_le, Z.ltb_lt. lia. }
  split.
  - intros v Hv. rewrite (getLocalDate_fallback tz now v Hv).
    unfold isDateInCurrentWeek. cbn [truthy toLocaleDateString].
    rewrite date_string_nonempty. cbn [negb].
    cbn [toLocaleDateString] in Htoday_in. rewrite Htoday_in. reflexivity.
  - intros lc_api handle resp stats Hr Hf Hbad.
    unfold fetchLeetCodeData in Hf. rewrite Hr in Hf.
    destruct (negb (LC.status resp =? "success")%string); [discriminate|].
    injection Hf as <-. cbn [history sumWeekly].
    set (f := fun '(ts, count) =>
                {| date := getLocalDate tz now (VNum (parseInt ts));
                   count := count |}).
    assert (Hall : forall e, In e (map f (entries_of_calendar resp)) ->
              inCurrentWeek tz now (date e) = true).
    { intros e He. apply in_map_iff in He. destruct He as ([ts c] & <- & Hin).
      cbn [f date]. rewrite (Hbad ts c Hin).
      rewrite (getLocalDate_fallback tz now (VNum NaN) eq_refl).
      exact Htoday_in. }
    rewrite forallb_filter_id.
    + apply fold_left_add_snd. intros [ts c]. reflexivity.
    + apply forallb_forall. exact Hall.
Qed.

(** ** Codeforces: day counts against the totals *)

Lemma days_size_set (k : string) (v : StrSet.t) (o : Obj.t StrSet.t) :
  days_size (Obj.set k v o)
  = days_size o
    - StrSet.size match Obj.get k o with Some s => s | None => [] end
    + StrSet.size v.
Proof.
  induction o as [|[k' v'] o IH];
    cbn [Obj.set Obj.get days_size fold_right snd].
  - unfold StrSet.size. cbn [List.length]. lia.
  - destruct (k' =? k)%string; cbn [days_size fold_right snd].
    + lia.
    + fold (days_size (Obj.set k v o)). fold (days_size o). rewrite IH. lia.
Qed.

Lemma size_add_le (x : string) (s : StrSet.t) :
  StrSet.size s <= StrSet.size (StrSet.add x s) <= StrSet.size s + 1.
Proof.
  unfold StrSet.size, StrSet.add. destruct (StrSet.has x s); [lia|].
  rewrite length_app. cbn [List.length]. lia.
Qed.

Lemma days_size_history (ds : Obj.t StrSet.t) :
  NoDup (Obj.keys ds) ->
  total_count
    (map (fun d =>
            {| date := d;
               count := StrSet.size match Obj.get d ds with
                                    | Some s => s
                                    | None => []
                                    end |})
         (Obj.keys ds))
  = days_size ds.
Proof.
  induction ds as [|[k v] ds IH]; [reflexivity|].
  cbn [Obj.keys map fst]. intros Hnd. inversion Hnd as [|? ? Hk Hnd']; subst.
  cbn [total_count fold_right count days_size snd Obj.get].
  rewrite String.eqb_refl. f_equal.
  fold (days_size ds). rewrite <- (IH Hnd'). unfold total_count. f_equal.
  apply map_ext_in. intros d Hd. f_equal.
  destruct (k =? d)%string eqn:E; [|reflexivity].
  apply String.eqb_eq in E. subst d. contradiction.
Qed.

Lemma cf_step_days_size tz now ds tu sub :
  days_size (fst (cf_step tz now (ds, tu) sub))
  <= days_size ds + (if (CF.verdict sub =? "OK")%string then 1 else 0).
Proof.
  unfold cf_step. destruct (CF.verdict sub =? "OK")%string; [|cbn [fst]; lia].
  destruct (truthy (CF.creationTimeSeconds sub)); [|cbn [fst]; lia].
  cbn [fst].
  set (d := getLocalDate tz now (CF.creationTimeSeconds sub)).
  rewrite days_size_set.
  destruct (Obj.get d ds) as [s|] eqn:G.
  - rewrite G. pose proof (size_add_le (problemId sub) s). lia.
  - rewrite get_set_same, days_size_set, G.
    pose proof (size_add_le (problemId sub) []). lia.
Qed.

Lemma cf_fold_days_size tz now subs :
  days_size (fst (cf_fold tz now subs))
  <= Z.of_nat (List.length (accepted_subs subs)).
Proof.
  induction subs as [|sub l IH] using rev_ind; [cbn; lia|].
  rewrite cf_fold_snoc. unfold accepted_subs in *.
  rewrite filter_app, length_app, Nat2Z.inj_add.
  pose proof (cf_step_days_size tz now (fst (cf_fold tz now l))
                (snd (cf_fold tz now l)) sub) as Hstep.
  rewrite <- surjective_pairing in Hstep. cbn [filter].
  destruct (CF.verdict sub =? "OK")%string; cbn [List.length]; lia.
Qed.

Lemma days_size_covers (ds : Obj.t StrSet.t) (tu : StrSet.t) :
  NoDup tu ->
  (forall p, In p tu -> exists d s, Obj.get d ds = Some s /\ In p s) ->
  StrSet.size tu <= days_size ds.
Proof.
  intros Hnd Hcov.
  assert (Hlen : days_size ds
                 = Z.of_nat (List.length (List.concat (map snd ds)))).
  { clear. induction ds as [|[k v] ds IH]; [reflexivity|].
    cbn [days_size fold_right snd map List.concat]. fold (days_size ds).
    rewrite length_app, Nat2Z.inj_add, IH. reflexivity. }
  rewrite Hlen. unfold StrSet.size. apply Nat2Z.inj_le.
  apply NoDup_incl_length; [exact Hnd|].
  intros p Hp. destruct (Hcov p Hp) as (d & s & Hg & Hin).
  apply in_concat. exists s. split; [|exact Hin].
  clear -Hg. induction ds as [|[k v] ds IH]; [discriminate|].
  cbn [Obj.get] in Hg. cbn [map snd].
  destruct (k =? d)%string; [injection Hg as ->; now left|right; auto].
Qed.

(** X17: in a successful Codeforces result the day counts never add up
    to more than the number of accepted submissions fetched, and when
    every accepted submission carries a timestamp they add up to at
    least [totalSolved]. *)
Theorem codeforces_counts_against_totals tz cf_api now handle resp stats :
  cf_api handle = Some resp ->
  fetchCodeforcesData tz cf_api now handle = Some stats ->
  total_count (history stats)
  <= Z.of_nat (List.length (accepted_subs (CF.result resp)))
  /\ totalSolved stats
     <= Z.of_nat (List.length (accepted_subs (CF.result resp)))
  /\ ((forall sub, In sub (accepted_subs (CF.result resp)) ->
         truthy (CF.creationTimeSeconds sub) = true) ->
      totalSolved stats <= total_count (history stats)).
Proof.
  intros Hr Hf.
  destruct (string_dec (CF.status resp) "OK") as [Hs|Hs].
  2:{ rewrite fetchCodeforcesData_failure in Hf; [discriminate|].
      rewrite Hr. exact Hs. }
  rewrite (fetchCodeforcesData_success _ _ _ _ _ Hr Hs) in Hf.
  injection Hf as <-. cbn [history totalSolved].
  pose proof (cf_fold_inv tz now (CF.result resp)) as Hinv.
  pose proof (cf_fold_days_size tz now (CF.result resp)) as Hsize.
  destruct (cf_fold tz now (CF.result resp)) as [ds tu].
  destruct Hinv as (Htu & Htu_in & Hkeys & Hday). cbn [fst snd] in *.
  rewrite (days_size_history ds Hkeys).
  split; [exact Hsize|]. split.
  - unfold StrSet.size. apply Nat2Z.inj_le.
    rewrite <- (length_map problemId (accepted_subs (CF.result resp))).
    apply NoDup_incl_length; [exact Htu|].
    intros p Hp. apply Htu_in, Hp.
  - intros Hts. apply (days_size_covers ds tu Htu).
    intros p Hp. apply Htu_in in Hp. apply in_map_iff in Hp.
    destruct Hp as (sub & <- & Hsub).
    pose proof (Hts sub Hsub) as Ht.
    apply filter_In in Hsub. destruct Hsub as (Hin & Hok).
    set (d := getLocalDate tz now (CF.creationTimeSeconds sub)).
    assert (Ha : accepted_on tz now d sub = true).
    { unfold accepted_on. rewrite Hok, Ht. cbn. apply String.eqb_refl. }
    specialize (Hday d). destruct (Obj.get d ds) as [s|] eqn:G.
    + exists d, s. split; [exact G|].
      apply (proj1 (proj2 (proj2 Hday))). apply in_map.
      apply filter_In. split; assumption.
    + exfalso. assert (Hin' : In sub (filter (accepted_on tz now d)
                                               (CF.result resp))).
      { apply filter_In. split; assumption. }
      rewrite Hday in Hin'. exact Hin'.
Qed.

(** * The first revision *)

(** ** Date strings in the standard format *)

Lemma digit_of_digit_char (k : Z) :
  0 <= k <= 9 -> IsoDate.digit (IsoDate.digit_char k) = Some k.
Proof.
  intros H.
  assert (Hk : k = 0 \/ k = 1 \/ k = 2 \/ k = 3 \/ k = 4
               \/ k = 5 \/ k = 6 \/ k = 7 \/ k = 8 \/ k = 9) by lia.
  repeat (destruct Hk as [->|Hk]; [reflexivity|]). subst k. reflexivity.
Qed.

Lemma mod10_digit (n : Z) :
  IsoDate.digit (IsoDate.digit_char (n mod 10)) = Some (n mod 10).
Proof.
  apply digit_of_digit_char. pose proof (Z.mod_pos_bound n 10). lia.
Qed.

Lemma iso_date_string_short (n : Z) :
  0 <= Calendar.year_of_day n <= 9999 ->
  IsoDate.date_string n
  = (IsoDate.fixed 4 (Calendar.year_of_day n)
     ++ String "-" (IsoDate.fixed 2 (Calendar.month_of_day n)
     ++ String "-" (IsoDate.fixed 2 (Calendar.date_of_day n))))%string.
Proof.
  intros Hy. unfold IsoDate.date_string. rewrite civil_from_days_eq.
  replace ((0 <=? Calendar.year_of_day n) && (Calendar.year_of_day n <=? 9999))
    with true; [reflexivity|].
  symmetry. rewrite andb_true_iff, !Z.leb_le. lia.
Qed.

(** The date part of [toISOString()] parses back to midnight UTC of its
    day. *)
Lemma parse_iso_date_string (n : Z) :
  0 <= Calendar.year_of_day n <= 9999 ->
  IsoDate.parse_date (IsoDate.date_string n) = Some (n * Calendar.msPerDay).
Proof.
  intros Hy. rewrite (iso_date_string_short n Hy).
  pose proof (civil_from_days_range n) as (Hm & Hd).
  pose proof (days_from_civil_from_days n) as Hrt.
  rewrite civil_from_days_eq in Hrt.
  set (y := Calendar.year_of_day n) in *.
  set (m := Calendar.month_of_day n) in *.
  set (d := Calendar.date_of_day n) in *.
  cbn [IsoDate.fixed append IsoDate.parse_date].
  rewrite !Ascii.eqb_refl. cbn [andb].
  rewrite !mod10_digit.
  assert (Ey : 1000 * (y / 10 / 10 / 10 mod 10) + 100 * (y / 10 / 10 mod 10)
               + 10 * (y / 10 mod 10) + y mod 10 = y)
    by (clear -Hy; Z.to_euclidean_division_equations; lia).
  assert (Em : 10 * (m / 10 mod 10) + m mod 10 = m)
    by (clear -Hm; Z.to_euclidean_division_equations; lia).
  assert (Ed : 10 * (d / 10 mod 10) + d mod 10 = d)
    by (clear -Hd; Z.to_euclidean_division_equations; lia).
  rewrite Ey, Em, Ed, Hrt. fold y m d.
  rewrite !Z.eqb_refl. cbn [andb].
  replace (1 <=? m) with true by (symmetry; apply Z.leb_le; lia).
  replace (m <=? 12) with true by (symmetry; apply Z.leb_le; lia).
  reflexivity.
Qed.

Lemma iso_date_string_nonempty (n : Z) :
  (IsoDate.date_string n =? "")%string = false.
Proof.
  unfold IsoDate.date_string. rewrite civil_from_days_eq.
  destruct ((0 <=? Calendar.year_of_day n)
            && (Calendar.year_of_day n <=? 9999)).
  - reflexivity.
  - destruct (0 <=? Calendar.year_of_day n); reflexivity.
Qed.

(** ** The week test on parsed date strings *)

Section V1Week.
Variables tz now monday : Z.
Variable legacy_parse : string -> num.

Hypothesis now_range :
  - Calendar.maxTime + 7 * Calendar.msPerDay <= now
  <= Calendar.maxTime - 7 * Calendar.msPerDay.
Hypothesis today_range : first_day + 6 <= Day (LocalTime tz now).
Hypothesis monday_def : monday = most_recent_monday (Day (LocalTime tz now)).

Lemma endOfWeek_is_next_monday :
  setDate tz (getStartOfWeek tz now)
          (num_add (getDate tz (getStartOfWeek tz now)) (Int 7))
  = Some (midnight tz (monday + 7)).
Proof.
  rewrite (startOfWeek_is_monday tz now monday now_range today_range
             monday_def).
  cbn [getDate]. rewrite Day_midnight. cbn [num_add].
  rewrite setDate_midnight.
  replace (monday - Calendar.date_of_day monday
           + (Calendar.date_of_day monday + 7)) with (monday + 7) by lia.
  apply TimeClip_in_range.
  apply (week_in_range tz now monday now_range monday_def). lia.
Qed.

Lemma V1_week_test_time (v : value) (t : Z) :
  truthy v = true -> V1.Date_of_value legacy_parse v = TimeClip t ->
  V1.isDateInCurrentWeek tz legacy_parse now v
  = (midnight tz monday <=? t) && (t <? midnight tz (monday + 7)).
Proof.
  intros Hv Hd. unfold V1.isDateInCurrentWeek. rewrite Hv. cbn [negb].
  rewrite endOfWeek_is_next_monday.
  rewrite (startOfWeek_is_monday tz now monday now_range today_range
             monday_def).
  rewrite Hd. cbn [getTime].
  pose proof (week_in_range tz now monday now_range monday_def monday
                ltac:(lia)) as Hlo.
  pose proof (week_in_range tz now monday now_range monday_def (monday + 7)
                ltac:(lia)) as Hhi.
  unfold TimeClip. destruct (Z.abs t <=? Calendar.maxTime) eqn:E;
    cbn [getTime num_geb num_ltb]; [reflexivity|].
  apply Z.leb_gt in E. symmetry. apply andb_false_iff.
  destruct (Z_le_dec 0 t); [right; apply Z.ltb_ge|left; apply Z.leb_gt]; lia.
Qed.

End V1Week.

Lemma V1_week_test_follows_utc_midnight_aux
    (tz now : Z) (legacy_parse : string -> num) (n : Z) :
  - Calendar.maxTime + 7 * Calendar.msPerDay <= now
    <= Calendar.maxTime - 7 * Calendar.msPerDay ->
  first_day + 6 <= Day (LocalTime tz now) ->
  0 <= Calendar.year_of_day n <= 9999 ->
  V1.isDateInCurrentWeek tz legacy_parse now (VStr (IsoDate.date_string n))
  = (midnight tz (most_recent_monday (Day (LocalTime tz now)))
     <=? n * Calendar.msPerDay)
    && (n * Calendar.msPerDay
        <? midnight tz (most_recent_monday (Day (LocalTime tz now)) + 7)).
Proof.
  intros Hnow Htoday Hy.
  apply (V1_week_test_time tz now _ legacy_parse Hnow Htoday eq_refl).
  - cbn [truthy]. rewrite iso_date_string_nonempty. reflexivity.
  - cbn [V1.Date_of_value]. unfold V1.Date_parse.
    rewrite (parse_iso_date_string n Hy). reflexivity.
Qed.

(** X18: in the first revision a date string of the standard form is
    inside the week exactly when midnight UTC of its day falls between
    the local midnights of this Monday and the next. At UTC and east of
    it that is Monday to Sunday; west of UTC the window runs a day late:
    this Monday's date is outside and next Monday's date is inside. *)
Theorem V1_week_test_follows_utc_midnight
    (tz now : Z) (legacy_parse : string -> num) (n : Z) :
  - Calendar.maxTime + 7 * Calendar.msPerDay <= now
    <= Calendar.maxTime - 7 * Calendar.msPerDay ->
  first_day + 6 <= Day (LocalTime tz now) ->
  0 <= Calendar.year_of_day n <= 9999 ->
  let monday := most_recent_monday (Day (LocalTime tz now)) in
  let inside :=
    V1.isDateInCurrentWeek tz legacy_parse now (VStr (IsoDate.date_string n)) in
  inside = (midnight tz monday <=? n * Calendar.msPerDay)
           && (n * Calendar.msPerDay <? midnight tz (monday + 7))
  /\ (0 <= tz < Calendar.msPerDay ->
      inside = (monday <=? n) && (n <? monday + 7))
  /\ (- Calendar.msPerDay <= tz < 0 ->
      inside = (monday <? n) && (n <=? monday + 7)).
Proof.
  intros Hnow Htoday Hy monday inside.
  assert (Heq : inside
                = (midnight tz monday <=? n * Calendar.msPerDay)
                  && (n * Calendar.msPerDay <? midnight tz (monday + 7))).
  { apply (V1_week_test_follows_utc_midnight_aux tz now legacy_parse n
             Hnow Htoday Hy). }
  split; [exact Heq|]. split; intros Htz; rewrite Heq;
    unfold midnight, Calendar.msPerDay in *.
  - destruct (Z_le_dec monday n) as [Hlo|Hlo];
      destruct (Z_lt_dec n (monday + 7)) as [Hhi|Hhi];
      repeat match goal with
             | |- context [?a <=? ?b] =>
                 first [ replace (a <=? b) with true
                           by (symmetry; apply Z.leb_le; lia)
                       | replace (a <=? b) with false
                           by (symmetry; apply Z.leb_gt; lia) ]
             | |- context [?a <? ?b] =>
                 first [ replace (a <? b) with true
                           by (symmetry; apply Z.ltb_lt; lia)
                       | replace (a <? b) with false
                           by (symmetry; apply Z.ltb_ge; lia) ]
             end; reflexivity.
  - destruct (Z_lt_dec monday n) as [Hlo|Hlo];
      destruct (Z_le_dec n (monday + 7)) as [Hhi|Hhi];
      repeat match goal with
             | |- context [?a <=? ?b] =>
                 first [ replace (a <=? b) with true
                           by (symmetry; apply Z.leb_le; lia)
                       | replace (a <=? b) with false
                           by (symmetry; apply Z.leb_gt; lia) ]
             | |- context [?a <? ?b] =>
                 first [ replace (a <? b) with true
                           by (symmetry; apply Z.ltb_lt; lia)
                       | replace (a <? b) with false
                           by (symmetry; apply Z.ltb_ge; lia) ]
             end; reflexivity.
Qed.

(** ** Logging a point by hand *)

Lemma log_history_cons (today : string) (x : Entry) (l : list Entry) :
  V1.log_history today (Some (x :: l))
  = if (date x =? today)%string
    then {| date := date x; count := count x + 1 |} :: l
    else x :: V1.log_history today (Some l).
Proof.
  unfold V1.log_history. cbn [V1.findIndex].
  destruct (date x =? today)%string; [reflexivity|].
  destruct (V1.findIndex (fun e => (date e =? today)%string) l) as [i|];
    [|reflexivity].
  cbn [nth_error]. destruct (nth_error l i); reflexivity.
Qed.

Lemma log_history_None (today : string) :
  V1.log_history today None = V1.log_history today (Some []).
Proof. reflexivity. Qed.

Lemma log_history_day_total (today d : string) (l : list Entry) :
  day_total d (V1.log_history today (Some l))
  = day_total d l + (if (today =? d)%string then 1 else 0).
Proof.
  induction l as [|x l IH].
  - cbn. destruct (today =? d)%string; lia.
  - rewrite log_history_cons. destruct (date x =? today)%string eqn:E.
    + apply String.eqb_eq in E. cbn [day_total fold_right date count].
      rewrite E. destruct (today =? d)%string; lia.
    + cbn [day_total fold_right]. fold (day_total d l).
      fold (day_total d (V1.log_history today (Some l))). rewrite IH.
      destruct (date x =? d)%string; lia.
Qed.

Lemma log_history_dates (today : string) (l : list Entry) :
  map date (V1.log_history today (Some l))
  = (map date l
     ++ (if in_dec string_dec today (map date l) then [] else [today]))%list.
Proof.
  induction l as [|x l IH]; [reflexivity|].
  rewrite log_history_cons. cbn [map]. destruct (date x =? today)%string eqn:E.
  - apply String.eqb_eq in E. cbn [map date].
    destruct (in_dec string_dec today (date x :: map date l)) as [_|Hn].
    + rewrite List.app_nil_r. reflexivity.
    + exfalso. apply Hn. now left.
  - apply String.eqb_neq in E. cbn [map app]. rewrite IH. f_equal.
    destruct (in_dec string_dec today (map date l)) as [Hin|Hnin];
      destruct (in_dec string_dec today (date x :: map date l))
        as [Hin'|Hnin']; try reflexivity.
    + exfalso. apply Hnin'. now right.
    + exfalso. destruct Hin' as [Heq|Hin']; [now apply E|contradiction].
Qed.

Lemma log_history_filtered_sum (p : string -> bool) (today : string)
    (l : list Entry) :
  fold_left (fun acc curr => acc + count curr)
            (filter (fun h => p (date h)) (V1.log_history today (Some l))) 0
  = fold_left (fun acc curr => acc + count curr)
              (filter (fun h => p (date h)) l) 0
    + (if p today then 1 else 0).
Proof.
  induction l as [|x l IH].
  - cbn. destruct (p today); reflexivity.
  - rewrite log_history_cons. destruct (date x =? today)%string eqn:E.
    + apply String.eqb_eq in E. cbn [filter date]. rewrite E.
      destruct (p today); [|lia]. cbn [fold_left count].
      rewrite (fold_left_add_acc count _ (0 + (count x + 1))),
              (fold_left_add_acc count _ (0 + count x)). lia.
    + cbn [filter]. destruct (p (date x)); [|exact IH].
      cbn [fold_left].
      rewrite (fold_left_add_acc count _ (0 + count x)), IH,
              (fold_left_add_acc count (filter _ l) (0 + count x)). lia.
Qed.

Section SubmitLog.
Variable tz : Z.
Variable legacy_parse : string -> num.

(** X19: logging a point adds exactly one to today's count of the user
    it is logged for (the UTC date of the click), creates the day when
    it is missing, leaves every other day and every other user alone,
    adds one to [totalSolved] and one entry to the manual logs; a blank
    title or a missing id changes nothing. *)
Theorem submitLog_adds_one_point
    (now : Z) (title : string) (uid : Z) (users : list V1.User) :
  V1.submitLog now "" (Some uid) users = Ok users
  /\ V1.submitLog now title None users = Ok users
  /\ (title <> "" ->
      exists users',
        V1.submitLog now title (Some uid) users = Ok users'
        /\ map V1.id users' = map V1.id users
        /\ forall i u, nth_error users i = Some u ->
             exists u',
               nth_error users' i = Some u'
               /\ (V1.id u <> uid -> u' = u)
               /\ (V1.id u = uid ->
                   let old := match V1.history u with
                              | Some h => h
                              | None => []
                              end in
                   let new := match V1.history u' with
                              | Some h => h
                              | None => []
                              end in
                   let today := IsoDate.date_string (Day now) in
                   (forall d,
                      day_total d new
                      = day_total d old + (if (today =? d)%string then 1 else 0))
                   /\ map date new
                      = (map date old
                         ++ (if in_dec string_dec today (map date old)
                             then [] else [today]))%list
                   /\ V1.totalSolved u'
                      = Some (match V1.totalSolved u with
                              | Some t => t
                              | None => 0
                              end + 1)
                   /\ V1.manualLogs u'
                      = Some (match V1.manualLogs u with
                              | Some l => l
                              | None => []
                              end
                              ++ [ {| V1.title := title;
                                      V1.log_date := today |} ])%list)).
Proof.
  split; [reflexivity|]. split; [reflexivity|].
  intros Htitle. unfold V1.submitLog.
  apply truthy_VStr in Htitle. rewrite Htitle. cbn [negb V1.toISOString_date].
  eexists. split; [reflexivity|]. split.
  - rewrite map_map. apply map_ext. intros u.
    destruct (V1.id u =? uid); reflexivity.
  - intros i u Hu. rewrite nth_error_map, Hu. cbn [option_map].
    eexists. split; [reflexivity|]. split.
    + intros Hne. apply Z.eqb_neq in Hne. rewrite Hne. reflexivity.
    + intros He. apply Z.eqb_eq in He. rewrite He.
      cbn [V1.history V1.totalSolved V1.manualLogs].
      destruct (V1.history u) as [h|]; repeat split;
        try (intros d; apply log_history_day_total);
        try apply log_history_dates.
Qed.

(** X20: after a point is logged, the weekly count of that user is one
    higher exactly when midnight UTC of the current UTC date lies in the
    local week, which at UTC always holds; otherwise the point does not
    show in this week's count. *)
Theorem submitLog_in_weekly_count
    (now : Z) (title : string) (u : V1.User) :
  - Calendar.maxTime + 7 * Calendar.msPerDay <= now
    <= Calendar.maxTime - 7 * Calendar.msPerDay ->
  first_day + 6 <= Day (LocalTime tz now) ->
  0 <= Calendar.year_of_day (Day now) <= 9999 ->
  title <> "" ->
  let monday := most_recent_monday (Day (LocalTime tz now)) in
  exists u',
    V1.submitLog now title (Some (V1.id u)) [u] = Ok [u']
    /\ V1.weeklyCount tz legacy_parse now u'
       = V1.weeklyCount tz legacy_parse now u
         + (if (midnight tz monday <=? Day now * Calendar.msPerDay)
               && (Day now * Calendar.msPerDay <? midnight tz (monday + 7))
            then 1 else 0)
    /\ (tz = 0 ->
        V1.weeklyCount tz legacy_parse now u'
        = V1.weeklyCount tz legacy_parse now u + 1).
Proof.
  intros Hnow Htoday Hy Htitle monday.
  unfold V1.submitLog. apply truthy_VStr in Htitle. rewrite Htitle.
  cbn [negb V1.toISOString_date map]. rewrite Z.eqb_refl.
  eexists. split; [reflexivity|].
  assert (Hcount :
    V1.weeklyCount tz legacy_parse now
      {| V1.id := V1.id u; V1.username := V1.username u;
         V1.handle := V1.handle u; V1.platform := V1.platform u;
         V1.totalSolved :=
           Some (match V1.totalSolved u with Some t => t | None => 0 end + 1);
         V1.streak := V1.streak u;
         V1.history :=
           Some (V1.log_history (IsoDate.date_string (Day now))
                   (V1.history u));
         V1.manualLogs :=
           Some (match V1.manualLogs u with Some l => l | None => [] end
                 ++ [ {| V1.title := title;
                         V1.log_date := IsoDate.date_string (Day now) |} ])%list
      |}
    = V1.weeklyCount tz legacy_parse now u
      + (if (midnight tz monday <=? Day now * Calendar.msPerDay)
            && (Day now * Calendar.msPerDay <? midnight tz (monday + 7))
         then 1 else 0)).
  { unfold V1.weeklyCount. cbn [V1.history].
    pose proof (V1_week_test_follows_utc_midnight_aux tz now legacy_parse
                  (Day now) Hnow Htoday Hy) as Hweek.
    fold monday in Hweek. rewrite <- Hweek.
    destruct (V1.history u) as [h|];
      [|rewrite log_history_None];
      apply (log_history_filtered_sum
               (fun d => V1.isDateInCurrentWeek tz legacy_parse now (VStr d))). }
  split; [exact Hcount|].
  intros Htz. rewrite Hcount. f_equal.
  pose proof (most_recent_monday_spec (Day (LocalTime tz now))) as (_ & Hm).
  fold monday in Hm. subst tz. unfold LocalTime in Hm.
  rewrite Z.add_0_r in Hm.
  replace ((midnight 0 monday <=? Day now * Calendar.msPerDay)
           && (Day now * Calendar.msPerDay <? midnight 0 (monday + 7)))
    with true; [reflexivity|].
  symmetry. rewrite andb_true_iff, Z.leb_le, Z.ltb_lt.
  unfold midnight, Calendar.msPerDay. lia.
Qed.

End SubmitLog.

(** * The single-platform revision *)

Section Part000Facts.
Variable cf_api : string -> option CF.Response.
Variable lc_api : string -> option (list (string * Z)).

Lemma cf0_fold_Throw (l : list CF.Submission) :
  fold_left Part000.cf_step l Throw = Throw.
Proof. induction l as [|s l IH]; [reflexivity|exact IH]. Qed.

Lemma cf0_fold_Throw_iff (l : list CF.Submission) (st : Obj.t Z * StrSet.t) :
  fold_left Part000.cf_step l (Ok st) = Throw
  <-> exists sub, In sub (accepted_subs l)
                  /\ valid_timestamp (CF.creationTimeSeconds sub) = false.
Proof.
  revert st. induction l as [|s l IH]; intros [hm set].
  - cbn [fold_left accepted_subs filter]. split; [intros H; discriminate H|].
    intros (sub & Hin & _). destruct Hin.
  - cbn [fold_left accepted_subs filter].
    unfold Part000.cf_step at 2, valid_timestamp at 1, V1.toISOString_date.
    destruct (CF.verdict s =? "OK")%string eqn:Ev.
    + destruct (Date_of_num
                  (num_mul (to_number (CF.creationTimeSeconds s)) (Int 1000)))
        as [t|] eqn:Ed.
      * rewrite IH. fold (accepted_subs l). split.
        -- intros (sub & Hin & Hbad). exists sub. split; [now right|exact Hbad].
        -- intros (sub & [<-|Hin] & Hbad).
           ++ unfold valid_timestamp in Hbad. rewrite Ed in Hbad. discriminate.
           ++ exists sub. split; assumption.
      * rewrite cf0_fold_Throw. split; [|reflexivity]. intros _.
        exists s. split; [now left|]. unfold valid_timestamp.
        rewrite Ed. reflexivity.
    + rewrite IH. reflexivity.
Qed.

(** X21: in the single-platform revision one accepted submission whose
    timestamp is no valid date makes the whole Codeforces fetch return
    nothing, and nothing else does once the status is OK. *)
Theorem part000_codeforces_aborts_on_bad_timestamp
    (handle : string) (resp : CF.Response) :
  cf_api handle = Some resp -> CF.status resp = "OK" ->
  Part000.fetchCodeforcesData cf_api handle = None
  <-> exists sub, In sub (accepted_subs (CF.result resp))
                  /\ valid_timestamp (CF.creationTimeSeconds sub) = false.
Proof.
  intros Hr Hs. unfold Part000.fetchCodeforcesData. rewrite Hr.
  apply String.eqb_eq in Hs. rewrite Hs. cbn [negb].
  pose proof (cf0_fold_Throw_iff (CF.result resp) ([], [])) as Hiff.
  destruct (fold_left Part000.cf_step (CF.result resp) (Ok ([], [])))
    as [[hm set]|] eqn:Hfold.
  - split; [intros H; discriminate H|]. intros Hbad.
    apply Hiff in Hbad.
    assert (E : (Ok (hm, set) : result (Obj.t Z * StrSet.t)) = Throw)
      by (rewrite <- Hbad; symmetry; exact Hfold).
    discriminate E.
  - split; [intros _; apply Hiff; exact Hfold|reflexivity].
Qed.

Lemma cf0_fold_inv (l : list CF.Submission) (hm : Obj.t Z) (set : StrSet.t) :
  fold_left Part000.cf_step l (Ok ([], [])) = Ok (hm, set) ->
  sum_where (fun _ => true) hm = Z.of_nat (List.length (accepted_subs l))
  /\ NoDup (Obj.keys hm)
  /\ NoDup set
  /\ incl set (map Part000.problemId (accepted_subs l)).
Proof.
  revert hm set. induction l as [|s l IH] using rev_ind; intros hm set H.
  - injection H as <- <-. cbn. repeat split; try constructor.
    intros p [].
  - rewrite fold_left_app in H. cbn [fold_left] in H.
    destruct (fold_left Part000.cf_step l (Ok ([], []))) as [[hm0 set0]|];
      [|discriminate].
    destruct (IH hm0 set0 eq_refl) as (Hsum & Hk & Hset & Hincl).
    unfold accepted_subs in *. rewrite filter_app, length_app, map_app.
    cbn [filter]. unfold Part000.cf_step in H.
    destruct (CF.verdict s =? "OK")%string.
    + destruct (V1.toISOString_date _) as [d|]; [|discriminate].
      injection H as <- <-. cbn [List.length map].
      split; [rewrite sum_where_set, Hsum; lia|].
      split; [apply keys_set_NoDup, Hk|].
      split; [apply add_NoDup, Hset|].
      intros p Hp. apply add_In in Hp. apply in_app_iff.
      destruct Hp as [->|Hp]; [right; now left|left; apply Hincl, Hp].
    + injection H as <- <-. cbn [List.length map].
      rewrite List.app_nil_r, Nat.add_0_r. auto.
Qed.

Lemma total_count_of_map (hm : Obj.t Z) :
  NoDup (Obj.keys hm) ->
  total_count
    (map (fun d => {| date := d;
                      count := match Obj.get d hm with
                               | Some v => v
                               | None => 0
                               end |})
         (Obj.keys hm))
  = sum_where (fun _ => true) hm.
Proof.
  induction hm as [|[k v] hm IH]; [reflexivity|].
  cbn [Obj.keys map fst]. intros Hnd. inversion Hnd as [|? ? Hk Hnd']; subst.
  cbn [total_count fold_right count sum_where fst snd Obj.get].
  rewrite String.eqb_refl. f_equal.
  fold (sum_where (fun _ : string => true) hm). rewrite <- (IH Hnd').
  unfold total_count. f_equal. apply map_ext_in. intros d Hd. f_equal.
  destruct (k =? d)%string eqn:E; [|reflexivity].
  apply String.eqb_eq in E. subst d. contradiction.
Qed.

(** X22: a Codeforces result of the single-platform revision counts
    submissions, not problems: the day counts add up to the number of
    accepted submissions fetched, each day is listed once, and
    [totalSolved] is at most that number. *)
Theorem part000_codeforces_counts_submissions
    (handle : string) (resp : CF.Response) (stats : PlatformStats) :
  cf_api handle = Some resp ->
  Part000.fetchCodeforcesData cf_api handle = Some stats ->
  total_count (history stats)
  = Z.of_nat (List.length (accepted_subs (CF.result resp)))
  /\ NoDup (map date (history stats))
  /\ totalSolved stats <= total_count (history stats).
Proof.
  intros Hr Hf. unfold Part000.fetchCodeforcesData in Hf. rewrite Hr in Hf.
  destruct (negb (CF.status resp =? "OK")%string); [discriminate|].
  destruct (fold_left Part000.cf_step (CF.result resp) (Ok ([], [])))
    as [[hm set]|] eqn:Hfold; [|discriminate].
  injection Hf as <-. cbn [history totalSolved].
  destruct (cf0_fold_inv _ _ _ Hfold) as (Hsum & Hk & Hset & Hincl).
  rewrite (total_count_of_map hm Hk), Hsum.
  split; [reflexivity|]. split.
  - rewrite map_map. cbn [date]. rewrite map_id. exact Hk.
  - unfold StrSet.size. apply Nat2Z.inj_le.
    rewrite <- (length_map Part000.problemId
                  (accepted_subs (CF.result resp))).
    apply NoDup_incl_length; assumption.
Qed.

(** X23: a sync of the single-platform revision never drops a history.
    Ids keep their places; a user on LeetCode keeps the stored history
    whatever the endpoint answers; a failed fetch and an unknown id leave
    the collection as it is. *)
Theorem part000_syncUser_keeps_history (users : list Part000.User) (uid : Z) :
  map V1.id (Part000.syncUser cf_api lc_api users uid) = map V1.id users
  /\ (forall user,
        find (fun u => V1.id u =? uid) users = Some user ->
        V1.platform user = "LeetCode" ->
        map V1.history (Part000.syncUser cf_api lc_api users uid)
        = map V1.history users)
  /\ (forall user,
        find (fun u => V1.id u =? uid) users = Some user ->
        V1.platform user = "Codeforces" ->
        Part000.fetchCodeforcesData cf_api (V1.handle user) = None ->
        Part000.syncUser cf_api lc_api users uid = users)
  /\ (find (fun u => V1.id u =? uid) users = None ->
      Part000.syncUser cf_api lc_api users uid = users).
Proof.
  unfold Part000.syncUser. repeat split.
  - destruct (find (fun u => V1.id u =? uid) users) as [user|];
      [|reflexivity].
    destruct (if (V1.platform user =? "LeetCode")%string then _ else _);
      [|reflexivity].
    rewrite map_map. apply map_ext. intros u.
    destruct (V1.id u =? uid); reflexivity.
  - intros user Hfind Hp. rewrite Hfind, Hp. cbn [String.eqb Ascii.eqb
      Bool.eqb].
    destruct (Part000.fetchLeetCodeData lc_api (V1.handle user))
      as [d|] eqn:Hd; [|reflexivity].
    assert (Hh : history d = []).
    { unfold Part000.fetchLeetCodeData in Hd.
      destruct (lc_api (V1.handle user)) as [l|]; [|discriminate].
      destruct (find _ l); [|discriminate]. injection Hd as <-. reflexivity. }
    rewrite Hh, map_map. apply map_ext. intros u.
    destruct (V1.id u =? uid); reflexivity.
  - intros user Hfind Hp Hf. rewrite Hfind, Hp, Hf. reflexivity.
  - intros Hfind. rewrite Hfind. reflexivity.
Qed.

End Part000Facts.

(** * The window as a function of the instant *)

Lemma most_recent_monday_of_week (monday d : Z) :
  Calendar.week_day monday = 1 -> monday <= d < monday + 7 ->
  most_recent_monday d = monday.
Proof.
  unfold most_recent_monday, Calendar.week_day. intros Hm Hd.
  Z.to_euclidean_division_equations. lia.
Qed.

(** X24: in a zone at a fixed offset from UTC (no change of offset
    during the week), the window computed at an instant contains that
    instant, spans seven days of 24 hours from its start, and is the
    window computed at every other instant inside it. *)
Theorem getStartOfWeek_window_of_now (tz now : Z) :
  - Calendar.maxTime + 7 * Calendar.msPerDay <= now
    <= Calendar.maxTime - 7 * Calendar.msPerDay ->
  first_day + 6 <= Day (LocalTime tz now) ->
  exists s,
    getStartOfWeek tz now = Some s
    /\ s <= now < s + 7 * Calendar.msPerDay
    /\ setDate tz (getStartOfWeek tz now)
         (num_add (getDate tz (getStartOfWeek tz now)) (Int 7))
       = Some (s + 7 * Calendar.msPerDay)
    /\ (forall now',
          - Calendar.maxTime + 7 * Calendar.msPerDay <= now'
            <= Calendar.maxTime - 7 * Calendar.msPerDay ->
          first_day + 6 <= Day (LocalTime tz now') ->
          s <= now' < s + 7 * Calendar.msPerDay ->
          getStartOfWeek tz now' = Some s).
Proof.
  intros Hnow Htoday.
  set (monday := most_recent_monday (Day (LocalTime tz now))).
  pose proof (monday_bounds tz now monday eq_refl) as (Hwd & Hm).
  pose proof (midnight_of_today tz now) as Ht.
  exists (midnight tz monday).
  split; [apply (startOfWeek_is_monday tz now monday Hnow Htoday eq_refl)|].
  split; [unfold midnight, Calendar.msPerDay in *; lia|].
  split.
  { rewrite (endOfWeek_is_next_monday tz now monday Hnow Htoday eq_refl).
    f_equal. unfold midnight. lia. }
  intros now' Hnow' Htoday' Hin.
  pose proof (midnight_of_today tz now') as Ht'.
  assert (Hday : monday <= Day (LocalTime tz now') < monday + 7)
    by (unfold midnight, Calendar.msPerDay in *; lia).
  assert (Hmon : monday = most_recent_monday (Day (LocalTime tz now'))).
  { symmetry. apply most_recent_monday_of_week; assumption. }
  apply (startOfWeek_is_monday tz now' monday Hnow' Htoday' Hmon).
Qed.

(** * The totals of a profile and the first leaderboard *)

(** X25: a user added with both handles, when both endpoints answer,
    shows as total the count LeetCode reports plus the number of
    distinct problems among the accepted Codeforces submissions
    fetched; a user stored without stats shows 0. *)
Theorem profile_total_of_added_user
    (tz : Z) (cf_api : string -> option CF.Response)
    (lc_api : string -> option LC.Response) (now : Z) (nu : NewUser.t)
    (users : list User) (lc cf : string)
    (lresp : LC.Response) (cresp : CF.Response) :
  NewUser.name nu <> "" ->
  extractHandle (VStr (NewUser.leetcode nu)) "LeetCode" = Ok lc ->
  extractHandle (VStr (NewUser.codeforces nu)) "Codeforces" = Ok cf ->
  lc <> "" -> cf <> "" ->
  lc_api lc = Some lresp -> LC.status lresp = "success" ->
  cf_api cf = Some cresp -> CF.status cresp = "OK" ->
  (exists u,
     handleAddUser tz cf_api lc_api now nu users = Ok (users ++ [u])%list
     /\ profile_totalSolved u
        = LC.totalSolved lresp
          + Z.of_nat (List.length
                        (nodup string_dec
                           (map problemId (accepted_subs (CF.result cresp))))))
  /\ (forall u,
        data u = {| Data.leetcode := None; Data.codeforces := None |} ->
        profile_totalSolved u = 0).
Proof.
  intros Hname Hlc Hcf Hlne Hcne Hlr Hls Hcr Hcs.
  split; [|intros u Hd; unfold profile_totalSolved; rewrite Hd; reflexivity].
  destruct (handleAddUser_cases tz cf_api lc_api now nu users)
    as [(Hn & _)|(_ & lc' & cf' & d & Hlc' & Hcf' & Hdl & Hdc & Hres)];
    [contradiction|].
  rewrite Hlc in Hlc'. injection Hlc' as <-.
  rewrite Hcf in Hcf'. injection Hcf' as <-.
  apply truthy_VStr in Hlne. apply truthy_VStr in Hcne.
  rewrite Hlne in Hdl. rewrite Hcne in Hdc.
  eexists. split; [exact Hres|].
  unfold profile_totalSolved. cbn [data]. rewrite Hdl, Hdc.
  rewrite (fetchCodeforcesData_success _ _ _ _ _ Hcr Hcs).
  unfold fetchLeetCodeData. rewrite Hlr.
  apply String.eqb_eq in Hls. rewrite Hls. cbn [negb totalSolved].
  f_equal.
  pose proof (cf_fold_inv tz now (CF.result cresp)) as Hinv.
  destruct (cf_fold tz now (CF.result cresp)) as [ds tu].
  destruct Hinv as (Htu & Htu_in & _ & _). cbn [snd].
  unfold StrSet.size. f_equal.
  apply same_elements_length; [exact Htu|apply NoDup_nodup|].
  intros p. rewrite nodup_In. apply Htu_in.
Qed.

(** X26: the leaderboard of the first revision is the input collection,
    each user paired with the weekly count, in descending order of that
    count; users with equal counts keep the order of the collection. *)
Theorem V1_rankedUsers_sorted_stable
    (tz : Z) (legacy_parse : string -> num) (now : Z)
    (users : list V1.User) :
  let ranked := V1.rankedUsers tz legacy_parse now users in
  Permutation ranked
    (map (fun u => (u, V1.weeklyCount tz legacy_parse now u)) users)
  /\ StronglySorted (fun a b => snd b <= snd a) ranked
  /\ Forall (fun r => snd r = V1.weeklyCount tz legacy_parse now (fst r))
            ranked
  /\ (forall s,
        map fst (filter (fun r => snd r =? s) ranked)
        = filter (fun u => V1.weeklyCount tz legacy_parse now u =? s) users).
Proof.
  cbv zeta. unfold V1.rankedUsers.
  split; [apply sort_perm|].
  split; [apply (sort_sorted snd)|].
  split.
  - eapply Permutation_Forall; [apply Permutation_sym, sort_perm|].
    apply Forall_forall. intros r Hr. apply in_map_iff in Hr.
    destruct Hr as (u & <- & _). reflexivity.
  - intros s. rewrite (sort_filter snd).
    induction users as [|u us IH]; [reflexivity|].
    cbn [map filter snd].
    destruct (V1.weeklyCount tz legacy_parse now u =? s); cbn [map fst];
      rewrite IH; reflexivity.
Qed.

(** * The further properties on sample inputs *)

Lemma extractHandle_profile_address_witness :
  extractHandle (VStr "https://leetcode.com/u/rival_lc/") "LeetCode"
  = Ok "rival_lc"
  /\ extractHandle (VStr "https://leetcode.com/rival_lc/") "LeetCode"
     = Ok "rival_lc"
  /\ extractHandle (VStr "https://codeforces.com/profile/rival_lc/")
       "Codeforces" = Ok "rival_lc".
Proof.
  assert (Hne : "rival_lc" <> "") by discriminate.
  exact (extractHandle_profile_address "rival_lc" "/" Hne eq_refl eq_refl
           (or_intror eq_refl)).
Defined.

Lemma extractHandle_bare_handle_witness :
  extractHandle (VStr "  rival_cf ") "Codeforces" = Ok "rival_cf".
Proof.
  exact (extractHandle_bare_handle "  rival_cf " "Codeforces" eq_refl).
Defined.



Lemma handleAddUser_adds_without_data_witness :
  exists u,
    handleAddUser 0 SampleMore.cf_down Sample.lc_down Sample.now
      SampleMore.newbie [Sample.rival]
    = Ok ([Sample.rival] ++ [u])%list
    /\ id u = Sample.now
    /\ calculateWeeklyScore 0 Sample.now u = 0.
Proof.
  destruct (handleAddUser_adds_without_data 0 SampleMore.cf_down
              Sample.lc_down Sample.now SampleMore.newbie [Sample.rival]
              (fun _ => eq_refl) (fun _ => eq_refl)) as (_ & Hadd).
  destruct Hadd as (u & Hres & Hid & _ & _ & Hscore & _); [discriminate|].
  exists u. split; [exact Hres|]. split; [exact Hid|exact Hscore].
Defined.

Lemma handleAddUser_keeps_ids_distinct_witness :
  exists users',
    handleAddUser 0 Sample.cf_up SampleMore.lc_up Sample.now
      SampleMore.newbie [Sample.rival] = Ok users'
    /\ NoDup (map id users')
    /\ firstn 1 users' = [Sample.rival].
Proof.
  assert (Hnd : NoDup (map id [Sample.rival])).
  { constructor; [intros []|constructor]. }
  assert (Hfresh : ~ In Sample.now (map id [Sample.rival])).
  { intros [H|[]]. discriminate H. }
  destruct (handleAddUser_keeps_ids_distinct 0 Sample.cf_up SampleMore.lc_up
              Sample.now SampleMore.newbie [Sample.rival] Hnd Hfresh)
    as (users' & Hres & Hnd' & Hfirst & _).
  exists users'. split; [exact Hres|]. split; [exact Hnd'|exact Hfirst].
Defined.

Lemma deleteUser_then_select_witness :
  selectedUser (deleteUser [Sample.rival] 5) (Some (id Sample.rival))
  = Some Sample.rival
  /\ deleteUser [Sample.rival] 5 = [Sample.rival].
Proof.
  destruct (deleteUser_then_select [Sample.rival] 5) as (_ & Hother & Habsent).
  split.
  - rewrite Hother; [reflexivity|discriminate].
  - apply Habsent. intros [H|[]]. discriminate H.
Defined.

Lemma manualSync_all_failed_is_identity_witness :
  updateUser [Sample.rival] (id Sample.rival)
    (manualSync 0 SampleMore.cf_down Sample.lc_down Sample.now Sample.rival)
  = [Sample.rival].
Proof.
  apply manualSync_all_failed_is_identity.
  - constructor; [intros []|constructor].
  - left. reflexivity.
  - intros h. reflexivity.
  - intros h. reflexivity.
Defined.

Lemma combinedHistory_content_witness :
  In {| date := "2023-12-30"; count := 8 |}
     (combinedHistory 0 SampleMore.iso_parse Sample.now "Week"
        (Some Sample.rival)).
Proof.
  destruct (combinedHistory_content 0 SampleMore.iso_parse Sample.now "Week"
              Sample.rival) as (_ & Hin & _).
  apply (proj2 (Hin {| date := "2023-12-30"; count := 8 |})).
  cbn [date count]. split; [left; reflexivity|].
  split; vm_compute; reflexivity.
Defined.

Lemma combinedHistory_recent_first_witness :
  Obj.keys (historyMap SampleMore.three_days)
  = ["2023-12-30"; "2024-01-01"; "2024-01-02"]
  /\ map date
       (combinedHistory 0 SampleMore.iso_parse Sample.now "Month"
          (Some SampleMore.three_days))
     = ["2024-01-02"; "2024-01-01"; "2023-12-30"]
  /\ StronglySorted
       (fun a b => parsed_time SampleMore.iso_parse (date b)
                   <= parsed_time SampleMore.iso_parse (date a))
       (combinedHistory 0 SampleMore.iso_parse Sample.now "Month"
          (Some SampleMore.three_days)).
Proof.
  split; [vm_compute; reflexivity|]. split; [vm_compute; reflexivity|].
  apply combinedHistory_recent_first.
  intros d [<-|[<-|[<-|[]]]].
  - exists 1703894400000. split; [vm_compute; reflexivity|].
    vm_compute. split; discriminate.
  - exists 1704067200000. split; [vm_compute; reflexivity|].
    vm_compute. split; discriminate.
  - exists 1704153600000. split; [vm_compute; reflexivity|].
    vm_compute. split; discriminate.
Defined.

Lemma timeframe_filter_days_witness :
  on_or_after 0 (timeframe_cutoff 0 Sample.now "Week")
    (date_string_of_day 19723) = true
  /\ on_or_after 0 (timeframe_cutoff 0 Sample.now "Week")
       (date_string_of_day 19710) = false.
Proof.
  assert (Hnow : - Calendar.maxTime + 365 * Calendar.msPerDay <= Sample.now
                 <= Calendar.maxTime) by (vm_compute; split; discriminate).
  split.
  - assert (Hn : first_day <= 19723) by (vm_compute; discriminate).
    assert (Hm : midnight 0 19723 <= Calendar.maxTime)
      by (vm_compute; discriminate).
    apply (proj1 (proj2 (timeframe_filter_days 0 Sample.now "Week" 19723
                           Hnow Hn Hm))).
    vm_compute. reflexivity.
  - assert (Hn : first_day <= 19710) by (vm_compute; discriminate).
    assert (Hm : midnight 0 19710 <= Calendar.maxTime)
      by (vm_compute; discriminate).
    apply (proj2 (proj2 (timeframe_filter_days 0 Sample.now "Week" 19710
                           Hnow Hn Hm))).
    vm_compute. reflexivity.
Defined.

Lemma timestamp_in_current_week_witness :
  isDateInCurrentWeek Sample.west5 Sample.sunday
    (VStr (getLocalDate Sample.west5 0 (VNum (Int 1704200000))))
  = Ok true.
Proof.
  assert (Hnow : - Calendar.maxTime + 7 * Calendar.msPerDay <= Sample.sunday
                 <= Calendar.maxTime - 7 * Calendar.msPerDay)
    by (vm_compute; split; discriminate).
  assert (Hday : first_day + 6 <= Day (LocalTime Sample.west5 Sample.sunday))
    by (vm_compute; discriminate).
  assert (Hts : 1704200000 <> 0) by discriminate.
  assert (Hrange : - Calendar.maxTime <= 1704200000 * 1000
                   <= Calendar.maxTime)
    by (vm_compute; split; discriminate).
  assert (Hfirst : first_day
                   <= Day (LocalTime Sample.west5 (1704200000 * 1000)))
    by (vm_compute; discriminate).
  rewrite (timestamp_in_current_week Sample.west5 Sample.sunday 0 1704200000
             Hnow Hday Hts Hrange Hfirst).
  vm_compute. reflexivity.
Defined.

Lemma fallback_date_counts_this_week_witness :
  isDateInCurrentWeek 0 Sample.now
    (VStr (getLocalDate 0 Sample.now VUndefined)) = Ok true
  /\ sumWeekly 0 Sample.now
       (option_map history
          (fetchLeetCodeData 0 SampleMore.lc_unparsable_api Sample.now "x"))
     = 5.
Proof.
  assert (Hnow : - Calendar.maxTime + 7 * Calendar.msPerDay <= Sample.now
                 <= Calendar.maxTime - 7 * Calendar.msPerDay)
    by (vm_compute; split; discriminate).
  assert (Hday : first_day + 6 <= Day (LocalTime 0 Sample.now))
    by (vm_compute; discriminate).
  destruct (fallback_date_counts_this_week 0 Sample.now Hnow Hday)
    as (Hfall & Hsum).
  split; [apply Hfall; reflexivity|].
  destruct (fetchLeetCodeData 0 SampleMore.lc_unparsable_api Sample.now "x")
    as [stats|] eqn:Hfetch; [|discriminate Hfetch].
  cbn [option_map].
  rewrite (Hsum SampleMore.lc_unparsable_api "x" SampleMore.lc_unparsable
             stats eq_refl Hfetch); [reflexivity|].
  intros ts c [[= <- <-]|[[= <- <-]|[]]]; reflexivity.
Defined.

Lemma codeforces_counts_against_totals_witness :
  total_count (history Sample.cf_two_days_stats) <= 2
  /\ totalSolved Sample.cf_two_days_stats
     <= total_count (history Sample.cf_two_days_stats).
Proof.
  assert (Hfetch : fetchCodeforcesData 0 Sample.cf_up Sample.now "rival_cf"
                   = Some Sample.cf_two_days_stats)
    by (vm_compute; reflexivity).
  destruct (codeforces_counts_against_totals 0 Sample.cf_up Sample.now
              "rival_cf" Sample.cf_two_days Sample.cf_two_days_stats
              eq_refl Hfetch) as (Hle & _ & Hge).
  split; [exact Hle|]. apply Hge.
  intros sub [<-|[<-|[]]]; reflexivity.
Defined.

Lemma V1_week_test_follows_utc_midnight_witness :
  V1.isDateInCurrentWeek Sample.west5 SampleMore.strict_parse Sample.sunday
    (VStr "2024-01-01") = false
  /\ V1.isDateInCurrentWeek Sample.west5 SampleMore.strict_parse Sample.sunday
       (VStr "2024-01-08") = true.
Proof.
  assert (Hnow : - Calendar.maxTime + 7 * Calendar.msPerDay <= Sample.sunday
                 <= Calendar.maxTime - 7 * Calendar.msPerDay)
    by (vm_compute; split; discriminate).
  assert (Hday : first_day + 6 <= Day (LocalTime Sample.west5 Sample.sunday))
    by (vm_compute; discriminate).
  assert (Hwest : - Calendar.msPerDay <= Sample.west5 < 0)
    by (vm_compute; split; [discriminate|reflexivity]).
  split.
  - assert (Hy : 0 <= Calendar.year_of_day 19723 <= 9999)
      by (vm_compute; split; discriminate).
    destruct (V1_week_test_follows_utc_midnight Sample.west5 Sample.sunday
                SampleMore.strict_parse 19723 Hnow Hday Hy) as (_ & _ & Hw).
    exact (eq_trans (Hw Hwest) eq_refl).
  - assert (Hy : 0 <= Calendar.year_of_day 19730 <= 9999)
      by (vm_compute; split; discriminate).
    destruct (V1_week_test_follows_utc_midnight Sample.west5 Sample.sunday
                SampleMore.strict_parse 19730 Hnow Hday Hy) as (_ & _ & Hw).
    exact (eq_trans (Hw Hwest) eq_refl).
Defined.

Lemma submitLog_adds_one_point_witness :
  exists users',
    V1.submitLog Sample.now "two sum" (Some 7) [SampleMore.logger]
    = Ok users'
    /\ map V1.id users' = [7].
Proof.
  destruct (submitLog_adds_one_point Sample.now "two sum" 7
              [SampleMore.logger]) as (_ & _ & Hlog).
  destruct Hlog as (users' & Hres & Hids & _); [discriminate|].
  exists users'. split; [exact Hres|exact Hids].
Defined.

Lemma submitLog_in_weekly_count_witness :
  exists u',
    V1.submitLog Sample.now "two sum" (Some 7) [SampleMore.logger] = Ok [u']
    /\ V1.weeklyCount 0 SampleMore.strict_parse Sample.now u' = 3.
Proof.
  assert (Hnow : - Calendar.maxTime + 7 * Calendar.msPerDay <= Sample.now
                 <= Calendar.maxTime - 7 * Calendar.msPerDay)
    by (vm_compute; split; discriminate).
  assert (Hday : first_day + 6 <= Day (LocalTime 0 Sample.now))
    by (vm_compute; discriminate).
  assert (Hy : 0 <= Calendar.year_of_day (Day Sample.now) <= 9999)
    by (vm_compute; split; discriminate).
  assert (Ht : "two sum" <> "") by discriminate.
  destruct (submitLog_in_weekly_count 0 SampleMore.strict_parse Sample.now
              "two sum" SampleMore.logger Hnow Hday Hy Ht)
    as (u' & Hres & _ & Hutc).
  exists u'. split; [exact Hres|].
  rewrite (Hutc eq_refl). vm_compute. reflexivity.
Defined.

Lemma part000_codeforces_aborts_on_bad_timestamp_witness :
  Part000.fetchCodeforcesData SampleMore.cf_undated_api "rival_cf" = None.
Proof.
  apply (proj2 (part000_codeforces_aborts_on_bad_timestamp
                  SampleMore.cf_undated_api "rival_cf" SampleMore.cf_undated
                  eq_refl eq_refl)).
  eexists. split; [right; left; reflexivity|reflexivity].
Defined.

Lemma part000_codeforces_counts_submissions_witness :
  exists stats,
    Part000.fetchCodeforcesData Sample.cf_up "rival_cf" = Some stats
    /\ total_count (history stats) = 2
    /\ totalSolved stats <= 2.
Proof.
  eexists. split; [vm_compute; reflexivity|].
  match goal with
  | |- total_count (history ?s) = _ /\ _ =>
      assert (Hfetch : Part000.fetchCodeforcesData Sample.cf_up "rival_cf"
                       = Some s) by (vm_compute; reflexivity);
      destruct (part000_codeforces_counts_submissions Sample.cf_up "rival_cf"
                  Sample.cf_two_days s eq_refl Hfetch) as (Hsum & _ & Hle)
  end.
  split; [exact Hsum|]. rewrite Hsum in Hle. exact Hle.
Defined.

Lemma part000_syncUser_keeps_history_witness :
  map V1.history
    (Part000.syncUser SampleMore.cf_down SampleMore.lc_all
       [SampleMore.logger] 7)
  = [Some [ {| date := "2024-01-02"; count := 2 |} ]].
Proof.
  destruct (part000_syncUser_keeps_history SampleMore.cf_down
              SampleMore.lc_all [SampleMore.logger] 7) as (_ & Hlc & _).
  exact (Hlc SampleMore.logger eq_refl eq_refl).
Defined.

Lemma getStartOfWeek_window_of_now_witness :
  exists s,
    getStartOfWeek 0 Sample.now = Some s
    /\ s <= Sample.now < s + 7 * Calendar.msPerDay.
Proof.
  assert (Hnow : - Calendar.maxTime + 7 * Calendar.msPerDay <= Sample.now
                 <= Calendar.maxTime - 7 * Calendar.msPerDay)
    by (vm_compute; split; discriminate).
  assert (Hday : first_day + 6 <= Day (LocalTime 0 Sample.now))
    by (vm_compute; discriminate).
  destruct (getStartOfWeek_window_of_now 0 Sample.now Hnow Hday)
    as (s & Hs & Hin & _).
  exists s. split; [exact Hs|exact Hin].
Defined.

Lemma profile_total_of_added_user_witness :
  exists u,
    handleAddUser 0 Sample.cf_up SampleMore.lc_up Sample.now
      SampleMore.both [Sample.rival] = Ok ([Sample.rival] ++ [u])%list
    /\ profile_totalSolved u = 8.
Proof.
  assert (Hname : NewUser.name SampleMore.both <> "") by discriminate.
  assert (Hlc : "newbie" <> "") by discriminate.
  assert (Hcf : "newbie_cf" <> "") by discriminate.
  destruct (profile_total_of_added_user 0 Sample.cf_up SampleMore.lc_up
              Sample.now SampleMore.both [Sample.rival] "newbie" "newbie_cf"
              Sample.lc_bad_key Sample.cf_two_days
              Hname eq_refl eq_refl Hlc Hcf eq_refl eq_refl eq_refl eq_refl)
    as ((u & Hres & Htotal) & _).
  exists u. split; [exact Hres|exact Htotal].
Defined.
